(** * Scan validation of the patrol API: QR scans checked against a geofence

    A shallow embedding of the two scan handlers of the repository,
    [scan_qr_code] (routes/guard_routes.py) and [public_scan_qr_code]
    (routes/qr_routes.py), and the properties of them that the
    specification states.

    Conventions of the embedding.
    - A Python float is a finite binary64 value, hence a rational: the model
      keeps its exact value in [Q].  Comparison is exact.  [round(x, n)] is
      the half-even rounding of that exact value to [n] decimals, as CPython
      computes it; the conversion of the decimal result back to the nearest
      binary64 is left out, the model keeps the decimal.
    - MongoDB documents are records with the keys the handlers subscript;
      a key that one handler writes and the other does not is an [option].
    - A handler is a function from the state of the world to a result and a
      new state; a raised exception is a result, and the state reached when
      it was raised is kept.
    - A [datetime] in Python counts microseconds; the database keeps whole
      milliseconds, so a stored time is the time that was handed over with
      the microseconds below the millisecond dropped. *)

From Stdlib Require Import Ascii QArith Qround Lqa.
From stdpp Require Import gmap strings list pretty sorting.

Open Scope string_scope.

(** ** Python numbers *)

Module Py.

(** [round(y)] for the exact value [y]: the nearest integer, a tie going to
    the even neighbour. *)
Definition round_half_even (y : Q) : Z :=
  let f := Qfloor y in
  match ((y - inject_Z f) ?= (1 # 2))%Q with
  | Lt => f
  | Gt => (f + 1)%Z
  | Eq => if Z.even f then f else (f + 1)%Z
  end.

(** [round(x, ndigits)] on a float, [ndigits >= 0]. *)
Definition round (x : Q) (ndigits : nat) : Q :=
  let s := (10 ^ Z.of_nat ndigits)%Z in
  round_half_even (x * inject_Z s)%Q # Z.to_pos s.

(** [str(x)] for a float [x] that is a whole number of tenths, which is what
    [round(x, 1)] returns: the integer part, a point and one digit.  Python
    changes to exponent notation from 1e16 on, which no distance on Earth
    reaches. *)
Definition str_float (x : Q) : string :=
  let t := Qfloor (x * 10)%Q in
  (if (t <? 0)%Z then "-" else "")
    +:+ pretty (Z.abs t / 10)%Z +:+ "." +:+ pretty (Z.abs t mod 10)%Z.

(** [str(b)] for a bool. *)
Definition str_bool (b : bool) : string := if b then "True" else "False".

(** Truth value of a string: the empty string is false. *)
Definition truthy_str (s : string) : bool :=
  match s with "" => false | _ => true end.

End Py.

(** ** Data model *)

(** A BSON ObjectId is kept as its 24-digit hexadecimal text; on such a text
    [str(...)] and the [ObjectId(...)] constructor are the identity. *)
Definition ObjectId := string.

(** A [datetime], as microseconds since the epoch. *)
Definition datetime := Z.

Module Coordinates.
Record t := mk { latitude : Q; longitude : Q }.
End Coordinates.

(** Body of [POST /scan-qr]; the handler reads these three attributes. *)
Module QRScanRequest.
Record t := mk {
  qrId : string;
  coordinates : Coordinates.t;
  notes : option string }.
End QRScanRequest.

(** Body of [POST /public/scan]. *)
Module QRCodePublicScanRequest.
Record t := mk {
  guardEmail : string;
  qrId : string;
  coordinates : Coordinates.t;
  notes : option string;
  deviceInfo : option string }.
End QRCodePublicScanRequest.

(** The dictionary that [get_current_guard] resolves for an authenticated
    guard. *)
Module CurrentGuard.
Record t := mk {
  guard_id : ObjectId;
  supervisor_id : ObjectId;
  name : string;
  email : string }.
End CurrentGuard.

Module UserDoc.
Record t := mk {
  _id : ObjectId;
  email : string;
  role : string;
  isActive : bool;
  name : string }.
End UserDoc.

Module GuardDoc.
Record t := mk {
  _id : ObjectId;
  userId : ObjectId;
  supervisorId : ObjectId }.
End GuardDoc.

Module SupervisorDoc.
Record t := mk {
  _id : ObjectId;
  sheetId : option string;
  areaCity : string }.
End SupervisorDoc.

(** A document of the QR locations collection, with every key that the scan
    handlers subscript. *)
Module QRLocationDoc.
Record t := mk {
  _id : ObjectId;
  qrId : string;
  supervisorId : ObjectId;
  isActive : bool;
  locationName : string;
  coordinates : Coordinates.t;
  areaCity : string;
  areaState : string;
  areaCountry : string }.
End QRLocationDoc.

(** The scan event document handed to [insert_one].  [deviceInfo] is a key
    that only the public handler writes: [None] is a document without the
    key, [Some v] a document whose key holds [v] ([None] for null). *)
Module ScanEventDoc.
Record t := mk {
  guardId : ObjectId;
  supervisorId : ObjectId;
  qrLocationId : ObjectId;
  qrId : string;
  locationName : string;
  coordinates : Coordinates.t;
  address : string;
  areaCity : string;
  areaState : string;
  areaCountry : string;
  isWithinRadius : bool;
  distanceFromQR : Q;
  scannedAt : datetime;
  notes : option string;
  deviceInfo : option (option string) }.
End ScanEventDoc.

(** The row handed to the spreadsheet logger. *)
Module ScanEventData.
Record t := mk {
  guard_name : string;
  guard_email : string;
  location_name : string;
  qr_id : string;
  scanned_at : datetime;
  coordinates : Coordinates.t;
  address : string;
  is_within_radius : bool;
  distance_from_qr : Q;
  notes : option string }.
End ScanEventData.

Module QRScanResponse.
Record t := mk {
  scanEventId : string;
  qrId : string;
  locationName : string;
  isWithinRadius : bool;
  distanceFromQR : Q;
  address : string;
  scannedAt : datetime;
  message : string }.
End QRScanResponse.

Module QRCodePublicScanResponse.
Record t := mk {
  scanEventId : string;
  success : bool;
  qrId : string;
  locationName : string;
  isWithinRadius : bool;
  distanceFromQR : Q;
  radiusLimit : Q;
  address : string;
  scannedAt : datetime;
  message : string;
  guardName : string;
  areaCity : string }.
End QRCodePublicScanResponse.

(** ** Exceptions and results *)

(** What a handler can raise: FastAPI's [HTTPException], and any other
    exception, kept as its text.  [InvalidArgument] is modelled from the
    spec: it is the rejection of a malformed request, which the absent
    request models perform. *)
Inductive Exception : Type :=
| HTTPException (status_code : Z) (detail : string)
| OtherException (text : string)
| InvalidArgument (detail : string).

Definition HTTP_404_NOT_FOUND : Z := 404.
Definition HTTP_500_INTERNAL_SERVER_ERROR : Z := 500.
Definition HTTP_503_SERVICE_UNAVAILABLE : Z := 503.

(** [str(e)] as the handlers' log lines embed it. *)
Definition str_exception (e : Exception) : string :=
  match e with
  | HTTPException c d => pretty c +:+ ": " +:+ d
  | OtherException s => s
  | InvalidArgument d => d
  end.

Inductive result (A : Type) : Type :=
| Return (a : A)
| Raise (e : Exception).
Arguments Return {A} a.
Arguments Raise {A} e.

(** What a call to a collaborator outside the handlers comes to: its value,
    or an exception of the collaborator's own with the text [str(e)]. *)
Inductive outcome (A : Type) : Type :=
| Done (a : A)
| Failed (text : string).
Arguments Done {A} a.
Arguments Failed {A} text.

(** ** The world outside the handlers *)

Inductive Level : Type := INFO | WARNING | ERROR.

(** The database collections, the rows mirrored to spreadsheets and the log.
    [connected] says whether the collection getters of the database module
    hand out a collection or [None]. *)
Record World := mkWorld {
  connected : bool;
  users : list UserDoc.t;
  guards : list GuardDoc.t;
  supervisors : list SupervisorDoc.t;
  qr_locations : list QRLocationDoc.t;
  scan_events : list (ObjectId * ScanEventDoc.t);
  sheets : list (string * string * ScanEventData.t);
  log : list (Level * string) }.

Definition set_scan_events (evs : list (ObjectId * ScanEventDoc.t)) (w : World) : World :=
  mkWorld (connected w) (users w) (guards w) (supervisors w) (qr_locations w)
          evs (sheets w) (log w).

Definition set_sheets (rows : list (string * string * ScanEventData.t)) (w : World) : World :=
  mkWorld (connected w) (users w) (guards w) (supervisors w) (qr_locations w)
          (scan_events w) rows (log w).

Definition set_log (l : list (Level * string)) (w : World) : World :=
  mkWorld (connected w) (users w) (guards w) (supervisors w) (qr_locations w)
          (scan_events w) (sheets w) l.

(** What the collaborators answer during one call: the configured radius
    ([settings.WITHIN_RADIUS_METERS]), the value of geopy's
    [geodesic(p, q).meters] where geopy computes one ([geodesic] below says
    where it raises instead), the geocoding service, the spreadsheet service,
    the outcome of the driver's [insert_one] (the identifier it generated, or
    the exception it raised) and the clock. *)
Record Env := mkEnv {
  WITHIN_RADIUS_METERS : Q;
  geodesic_meters : Q * Q -> Q * Q -> Q;
  reverse_geocode_enhanced : Q -> Q -> outcome (option (gmap string string));
  append_scan_to_sheet : string -> string -> ScanEventData.t -> outcome unit;
  insert_outcome : ScanEventDoc.t -> outcome ObjectId;
  utcnow : datetime }.

(** ** Handlers as state-and-exception computations *)

Definition M (A : Type) : Type := World -> result A * World.

Definition ret {A : Type} (a : A) : M A := fun w => (Return a, w).

Definition raise {A : Type} (e : Exception) : M A := fun w => (Raise e, w).

Definition bind {A B : Type} (m : M A) (k : A -> M B) : M B :=
  fun w =>
    match m w with
    | (Return a, w') => k a w'
    | (Raise e, w') => (Raise e, w')
    end.

(** [try: body / except Exception as e: handler e]. *)
Definition try_except {A : Type} (body : M A) (handler : Exception -> M A) : M A :=
  fun w =>
    match body w with
    | (Return a, w') => (Return a, w')
    | (Raise e, w') => handler e w'
    end.

Declare Scope handler_scope.
Delimit Scope handler_scope with handler.
Notation "x <- c1 ;; c2" := (bind c1 (fun x => c2))
  (at level 100, c1 at next level, right associativity) : handler_scope.
Notation "c1 ;; c2" := (bind c1 (fun _ => c2))
  (at level 100, right associativity) : handler_scope.
Open Scope handler_scope.

(** [logger.info], [logger.warning], [logger.error]. *)
Definition logger (lvl : Level) (line : string) : M unit :=
  fun w => (Return tt, set_log (log w ++ [(lvl, line)]) w).

(** The getters of the database module, which is not among the sources: the
    collection, or [None] while no database is connected.  A collection that
    is not [None] counts as true in the handlers' [all([...])]. *)
Definition get_collection {A : Type} (coll : World -> list A) : M (option (list A)) :=
  fun w => (Return (if connected w then Some (coll w) else None), w).

Definition get_users_collection := get_collection users.
Definition get_guards_collection := get_collection guards.
Definition get_supervisors_collection := get_collection supervisors.
Definition get_qr_locations_collection := get_collection qr_locations.
Definition get_scan_events_collection := get_collection scan_events.

(** [find_one(filter)]: the first document that matches. *)
Definition find_one {A : Type} (filter : A -> bool) (coll : list A) : option A :=
  find filter coll.

(** A [datetime] as the database holds it.  A BSON date is a whole number
    of milliseconds since the epoch: encoding a document, the driver keeps
    [microsecond // 1000] of a [datetime] and drops the rest, and reading
    the document back gives the time to the millisecond. *)
Definition bson_datetime (t : datetime) : datetime := (t / 1000 * 1000)%Z.

(** The scan event document as the collection holds it.  Strings, booleans,
    identifiers and floats are stored as they are; [scannedAt], the one
    [datetime] of the document, is stored to the millisecond. *)
Definition bson_scan_event (doc : ScanEventDoc.t) : ScanEventDoc.t :=
  ScanEventDoc.mk
    (ScanEventDoc.guardId doc)
    (ScanEventDoc.supervisorId doc)
    (ScanEventDoc.qrLocationId doc)
    (ScanEventDoc.qrId doc)
    (ScanEventDoc.locationName doc)
    (ScanEventDoc.coordinates doc)
    (ScanEventDoc.address doc)
    (ScanEventDoc.areaCity doc)
    (ScanEventDoc.areaState doc)
    (ScanEventDoc.areaCountry doc)
    (ScanEventDoc.isWithinRadius doc)
    (ScanEventDoc.distanceFromQR doc)
    (bson_datetime (ScanEventDoc.scannedAt doc))
    (ScanEventDoc.notes doc)
    (ScanEventDoc.deviceInfo doc).

(** [scan_events_collection.insert_one(doc)]: the driver either stores the
    encoded document under the identifier it generated and returns that
    identifier, or raises and stores nothing.  The dictionary [doc] of the
    handler keeps the [datetime] it was built with. *)
Definition insert_one (env : Env) (doc : ScanEventDoc.t) : M ObjectId :=
  fun w =>
    match insert_outcome env doc with
    | Done oid =>
      (Return oid, set_scan_events (scan_events w ++ [(oid, bson_scan_event doc)]) w)
    | Failed text => (Raise (OtherException text), w)
    end.

(** The text of the [ValueError] with which geopy refuses a latitude. *)
Definition latitude_error : string := "Latitude must be in the [-90; 90] range.".

(** [geodesic(p, q).meters].  geopy makes a [Point] of each argument, and
    [Point] raises [ValueError] for a latitude outside [-90, 90]; a longitude
    outside [-180, 180] is wrapped around, not refused.  The check is modelled
    on [p], the point that the caller reports.  The point [q] is read from a
    location document, which the provisioning endpoints write; those are not
    among the sources, and the model takes the latitude they stored to be
    within the range. *)
Definition geodesic (env : Env) (p q : Q * Q) : M Q :=
  if Qle_bool (-90) p.1 && Qle_bool p.1 90
  then ret (geodesic_meters env p q)
  else raise (OtherException latitude_error).

(** [tomtom_service.reverse_geocode_enhanced(lat, lon)]. *)
Definition tomtom_reverse_geocode (env : Env) (lat lon : Q)
  : M (option (gmap string string)) :=
  fun w =>
    match reverse_geocode_enhanced env lat lon with
    | Done r => (Return r, w)
    | Failed text => (Raise (OtherException text), w)
    end.

(** [excel_service.append_scan_to_sheet(sheet, city, row)]. *)
Definition excel_append_scan_to_sheet (env : Env) (sheet city : string)
    (row : ScanEventData.t) : M unit :=
  fun w =>
    match append_scan_to_sheet env sheet city row with
    | Done _ => (Return tt, set_sheets (sheets w ++ [(sheet, city, row)]) w)
    | Failed text => (Raise (OtherException text), w)
    end.

(** Truth value of a dictionary: the empty one is false. *)
Definition truthy_dict (d : gmap string string) : bool :=
  negb (bool_decide (d = ∅)).

(** ** [scan_qr_code], routes/guard_routes.py *)

Definition scan_qr_code (env : Env) (scan_request : QRScanRequest.t)
    (current_guard : CurrentGuard.t) : M QRScanResponse.t :=
  try_except
    (qr_locations_collection <- get_qr_locations_collection ;;
     scan_events_collection <- get_scan_events_collection ;;
     supervisors_collection <- get_supervisors_collection ;;
     match qr_locations_collection, scan_events_collection, supervisors_collection with
     | Some qr_locations_collection, Some _, Some supervisors_collection =>
       let guard_id := CurrentGuard.guard_id current_guard in
       let supervisor_id := CurrentGuard.supervisor_id current_guard in
       let qr_location :=
         find_one (fun d =>
                     String.eqb (QRLocationDoc.qrId d) (QRScanRequest.qrId scan_request)
                     && String.eqb (QRLocationDoc.supervisorId d) supervisor_id
                     && Bool.eqb (QRLocationDoc.isActive d) true)
                  qr_locations_collection in
       match qr_location with
       | None => raise (HTTPException HTTP_404_NOT_FOUND "QR code not found or inactive")
       | Some qr_location =>
         let guard_location :=
           (Coordinates.latitude (QRScanRequest.coordinates scan_request),
            Coordinates.longitude (QRScanRequest.coordinates scan_request)) in
         let qr_location_coords :=
           (Coordinates.latitude (QRLocationDoc.coordinates qr_location),
            Coordinates.longitude (QRLocationDoc.coordinates qr_location)) in
         distance_meters <- geodesic env guard_location qr_location_coords ;;
         let is_within_radius := Qle_bool distance_meters (WITHIN_RADIUS_METERS env) in
         current_address <-
           try_except
             (geocode_result <-
                tomtom_reverse_geocode env
                  (Coordinates.latitude (QRScanRequest.coordinates scan_request))
                  (Coordinates.longitude (QRScanRequest.coordinates scan_request)) ;;
              match geocode_result with
              | Some d =>
                if truthy_dict d then ret (default "" (d !! "formatted_address"))
                else ret ""
              | None => ret ""
              end)
             (fun e =>
                logger WARNING ("Failed to geocode current address: " +:+ str_exception e) ;;
                ret "") ;;
         let scannedAt := utcnow env in
         let scan_event_doc :=
           ScanEventDoc.mk
             guard_id
             supervisor_id
             (QRLocationDoc._id qr_location)
             (QRScanRequest.qrId scan_request)
             (QRLocationDoc.locationName qr_location)
             (Coordinates.mk
                (Coordinates.latitude (QRScanRequest.coordinates scan_request))
                (Coordinates.longitude (QRScanRequest.coordinates scan_request)))
             current_address
             (QRLocationDoc.areaCity qr_location)
             (QRLocationDoc.areaState qr_location)
             (QRLocationDoc.areaCountry qr_location)
             is_within_radius
             (Py.round distance_meters 2)
             scannedAt
             (QRScanRequest.notes scan_request)
             None in
         inserted_id <- insert_one env scan_event_doc ;;
         try_except
           (let supervisor :=
              find_one (fun s => String.eqb (SupervisorDoc._id s) supervisor_id)
                       supervisors_collection in
            match supervisor with
            | Some supervisor =>
              match SupervisorDoc.sheetId supervisor with
              | Some sheet_id =>
                if Py.truthy_str sheet_id then
                  let scan_event_data :=
                    ScanEventData.mk
                      (CurrentGuard.name current_guard)
                      (CurrentGuard.email current_guard)
                      (QRLocationDoc.locationName qr_location)
                      (QRScanRequest.qrId scan_request)
                      (ScanEventDoc.scannedAt scan_event_doc)
                      (QRScanRequest.coordinates scan_request)
                      current_address
                      is_within_radius
                      (Py.round distance_meters 2)
                      (QRScanRequest.notes scan_request) in
                  excel_append_scan_to_sheet env sheet_id
                    (SupervisorDoc.areaCity supervisor) scan_event_data
                else ret tt
              | None => ret tt
              end
            | None => ret tt
            end)
           (fun e => logger WARNING ("Failed to log to Google Sheets: " +:+ str_exception e)) ;;
         let response :=
           QRScanResponse.mk
             inserted_id
             (QRScanRequest.qrId scan_request)
             (QRLocationDoc.locationName qr_location)
             is_within_radius
             (Py.round distance_meters 2)
             current_address
             (ScanEventDoc.scannedAt scan_event_doc)
             (if is_within_radius then "QR code scanned successfully"
              else "Warning: You are " +:+ Py.str_float (Py.round distance_meters 1)
                     +:+ "m away from the QR location") in
         logger INFO ("Guard " +:+ CurrentGuard.email current_guard
                        +:+ " scanned QR " +:+ QRScanRequest.qrId scan_request
                        +:+ " - Within radius: " +:+ Py.str_bool is_within_radius) ;;
         ret response
       end
     | _, _, _ =>
       raise (HTTPException HTTP_503_SERVICE_UNAVAILABLE "Database not available")
     end)
    (fun e =>
       match e with
       | HTTPException _ _ => raise e
       | _ =>
         logger ERROR ("QR scan error: " +:+ str_exception e) ;;
         raise (HTTPException HTTP_500_INTERNAL_SERVER_ERROR "Failed to process QR scan")
       end).

(** ** [public_scan_qr_code], routes/qr_routes.py *)

Definition public_scan_qr_code (env : Env) (scan_request : QRCodePublicScanRequest.t)
  : M QRCodePublicScanResponse.t :=
  try_except
    (qr_locations_collection <- get_qr_locations_collection ;;
     scan_events_collection <- get_scan_events_collection ;;
     guards_collection <- get_guards_collection ;;
     users_collection <- get_users_collection ;;
     supervisors_collection <- get_supervisors_collection ;;
     match qr_locations_collection, scan_events_collection, guards_collection,
           users_collection, supervisors_collection with
     | Some qr_locations_collection, Some _, Some guards_collection,
       Some users_collection, Some supervisors_collection =>
       let guard_user :=
         find_one (fun u =>
                     String.eqb (UserDoc.email u)
                                (QRCodePublicScanRequest.guardEmail scan_request)
                     && String.eqb (UserDoc.role u) "GUARD"
                     && Bool.eqb (UserDoc.isActive u) true)
                  users_collection in
       match guard_user with
       | None => raise (HTTPException HTTP_404_NOT_FOUND "Guard not found or inactive")
       | Some guard_user =>
         let guard :=
           find_one (fun g => String.eqb (GuardDoc.userId g) (UserDoc._id guard_user))
                    guards_collection in
         match guard with
         | None => raise (HTTPException HTTP_404_NOT_FOUND "Guard profile not found")
         | Some guard =>
           let supervisor_id := GuardDoc.supervisorId guard in
           let qr_location :=
             find_one (fun d =>
                         String.eqb (QRLocationDoc.qrId d)
                                    (QRCodePublicScanRequest.qrId scan_request)
                         && String.eqb (QRLocationDoc.supervisorId d) supervisor_id
                         && Bool.eqb (QRLocationDoc.isActive d) true)
                      qr_locations_collection in
           match qr_location with
           | None =>
             raise (HTTPException HTTP_404_NOT_FOUND "QR code not found or inactive")
           | Some qr_location =>
             let guard_location :=
               (Coordinates.latitude (QRCodePublicScanRequest.coordinates scan_request),
                Coordinates.longitude (QRCodePublicScanRequest.coordinates scan_request)) in
             let qr_location_coords :=
               (Coordinates.latitude (QRLocationDoc.coordinates qr_location),
                Coordinates.longitude (QRLocationDoc.coordinates qr_location)) in
             distance_meters <- geodesic env guard_location qr_location_coords ;;
             let is_within_radius :=
               Qle_bool distance_meters (WITHIN_RADIUS_METERS env) in
             current_address <-
               try_except
                 (geocode_result <-
                    tomtom_reverse_geocode env
                      (Coordinates.latitude
                         (QRCodePublicScanRequest.coordinates scan_request))
                      (Coordinates.longitude
                         (QRCodePublicScanRequest.coordinates scan_request)) ;;
                  match geocode_result with
                  | Some d =>
                    if truthy_dict d then ret (default "" (d !! "formatted_address"))
                    else ret ""
                  | None => ret ""
                  end)
                 (fun e =>
                    logger WARNING
                      ("Failed to geocode current address: " +:+ str_exception e) ;;
                    ret "") ;;
             let scannedAt := utcnow env in
             let scan_event_doc :=
               ScanEventDoc.mk
                 (GuardDoc._id guard)
                 supervisor_id
                 (QRLocationDoc._id qr_location)
                 (QRCodePublicScanRequest.qrId scan_request)
                 (QRLocationDoc.locationName qr_location)
                 (Coordinates.mk
                    (Coordinates.latitude
                       (QRCodePublicScanRequest.coordinates scan_request))
                    (Coordinates.longitude
                       (QRCodePublicScanRequest.coordinates scan_request)))
                 current_address
                 (QRLocationDoc.areaCity qr_location)
                 (QRLocationDoc.areaState qr_location)
                 (QRLocationDoc.areaCountry qr_location)
                 is_within_radius
                 (Py.round distance_meters 2)
                 scannedAt
                 (QRCodePublicScanRequest.notes scan_request)
                 (Some (QRCodePublicScanRequest.deviceInfo scan_request)) in
             inserted_id <- insert_one env scan_event_doc ;;
             try_except
               (let supervisor :=
                  find_one (fun s => String.eqb (SupervisorDoc._id s) supervisor_id)
                           supervisors_collection in
                match supervisor with
                | Some supervisor =>
                  match SupervisorDoc.sheetId supervisor with
                  | Some sheet_id =>
                    if Py.truthy_str sheet_id then
                      let scan_event_data :=
                        ScanEventData.mk
                          (UserDoc.name guard_user)
                          (UserDoc.email guard_user)
                          (QRLocationDoc.locationName qr_location)
                          (QRCodePublicScanRequest.qrId scan_request)
                          (ScanEventDoc.scannedAt scan_event_doc)
                          (QRCodePublicScanRequest.coordinates scan_request)
                          current_address
                          is_within_radius
                          (Py.round distance_meters 2)
                          (QRCodePublicScanRequest.notes scan_request) in
                      excel_append_scan_to_sheet env sheet_id
                        (SupervisorDoc.areaCity supervisor) scan_event_data
                    else ret tt
                  | None => ret tt
                  end
                | None => ret tt
                end)
               (fun e =>
                  logger WARNING ("Failed to log to Google Sheets: " +:+ str_exception e)) ;;
             let response :=
               QRCodePublicScanResponse.mk
                 inserted_id
                 true
                 (QRCodePublicScanRequest.qrId scan_request)
                 (QRLocationDoc.locationName qr_location)
                 is_within_radius
                 (Py.round distance_meters 2)
                 (WITHIN_RADIUS_METERS env)
                 current_address
                 (ScanEventDoc.scannedAt scan_event_doc)
                 (if is_within_radius then "QR code scanned successfully"
                  else "Warning: You are "
                         +:+ Py.str_float (Py.round distance_meters 1)
                         +:+ "m away from the QR location")
                 (UserDoc.name guard_user)
                 (QRLocationDoc.areaCity qr_location) in
             logger INFO ("Public scan: Guard "
                            +:+ QRCodePublicScanRequest.guardEmail scan_request
                            +:+ " scanned QR "
                            +:+ QRCodePublicScanRequest.qrId scan_request
                            +:+ " - Within radius: " +:+ Py.str_bool is_within_radius) ;;
             ret response
           end
         end
       end
     | _, _, _, _, _ =>
       raise (HTTPException HTTP_503_SERVICE_UNAVAILABLE "Database not available")
     end)
    (fun e =>
       match e with
       | HTTPException _ _ => raise e
       | _ =>
         logger ERROR ("Public QR scan error: " +:+ str_exception e) ;;
         raise (HTTPException HTTP_500_INTERNAL_SERVER_ERROR "Failed to process QR scan")
       end).

(** ** Request validation in front of the handlers *)

(** Modelled from the spec: the request models ([models.Coordinates],
    [models.QRScanRequest], [models.QRCodePublicScanRequest]) are not among
    the sources.  The specification gives the accepted ranges, latitude in
    [-90, 90] and longitude in [-180, 180], and a non-empty [qr_id]; a
    request outside them is rejected with [InvalidArgument] before any I/O. *)
Definition valid_coordinates (c : Coordinates.t) : bool :=
  Qle_bool (-90) (Coordinates.latitude c) && Qle_bool (Coordinates.latitude c) 90
  && Qle_bool (-180) (Coordinates.longitude c) && Qle_bool (Coordinates.longitude c) 180.

(** Modelled from the spec: the validation step that the absent request
    models perform on [qr_id] and the coordinates. *)
Definition valid_request (qr_id : string) (c : Coordinates.t) : bool :=
  Py.truthy_str qr_id && valid_coordinates c.

(** Modelled from the spec: [validate_and_record] for the authenticated
    guard, that is the validation of the absent request model followed by
    the handler. *)
Definition validate_and_record (env : Env) (scan_request : QRScanRequest.t)
    (current_guard : CurrentGuard.t) : M QRScanResponse.t :=
  if valid_request (QRScanRequest.qrId scan_request)
                   (QRScanRequest.coordinates scan_request)
  then scan_qr_code env scan_request current_guard
  else raise (InvalidArgument "malformed coordinates or empty qr_id").

(** Modelled from the spec: [validate_and_record] for the public endpoint. *)
Definition public_validate_and_record (env : Env)
    (scan_request : QRCodePublicScanRequest.t) : M QRCodePublicScanResponse.t :=
  if valid_request (QRCodePublicScanRequest.qrId scan_request)
                   (QRCodePublicScanRequest.coordinates scan_request)
  then public_scan_qr_code env scan_request
  else raise (InvalidArgument "malformed coordinates or empty qr_id").

(** ** Lookups and derived values, named for the statements *)

(** The lookup of both handlers: the first location document with this QR
    identifier, owned by this supervisor, and active. *)
Definition resolve_active_location (w : World) (qr_id : string)
    (supervisor_id : ObjectId) : option QRLocationDoc.t :=
  find_one (fun d =>
              String.eqb (QRLocationDoc.qrId d) qr_id
              && String.eqb (QRLocationDoc.supervisorId d) supervisor_id
              && Bool.eqb (QRLocationDoc.isActive d) true)
           (qr_locations w).

(** The actor of a public scan: the active user with role GUARD and this
    email address, and the guard profile of that user. *)
Definition resolve_guard (w : World) (email : string)
  : option (UserDoc.t * GuardDoc.t) :=
  match find_one (fun u =>
                    String.eqb (UserDoc.email u) email
                    && String.eqb (UserDoc.role u) "GUARD"
                    && Bool.eqb (UserDoc.isActive u) true)
                 (users w) with
  | None => None
  | Some guard_user =>
    match find_one (fun g => String.eqb (GuardDoc.userId g) (UserDoc._id guard_user))
                   (guards w) with
    | None => None
    | Some guard => Some (guard_user, guard)
    end
  end.

(** The full-precision distance of a scan: geopy's geodesic distance from the
    reported coordinates to the registered ones. *)
Definition distance_to (env : Env) (c : Coordinates.t) (loc : QRLocationDoc.t) : Q :=
  geodesic_meters env
    (Coordinates.latitude c, Coordinates.longitude c)
    (Coordinates.latitude (QRLocationDoc.coordinates loc),
     Coordinates.longitude (QRLocationDoc.coordinates loc)).

(** The reported latitude is one that geopy accepts. *)
Definition latitude_in_range (c : Coordinates.t) : Prop :=
  (-90 <= Coordinates.latitude c)%Q /\ (Coordinates.latitude c <= 90)%Q.

(** The address a handler ends up with: the [formatted_address] of a
    non-empty geocoding answer, and the empty string otherwise. *)
Definition address_at (env : Env) (c : Coordinates.t) : string :=
  match reverse_geocode_enhanced env (Coordinates.latitude c) (Coordinates.longitude c) with
  | Done (Some d) => if truthy_dict d then default "" (d !! "formatted_address") else ""
  | Done None => ""
  | Failed _ => ""
  end.

(** The two texts of the [message] field. *)
Definition confirmation_message : string := "QR code scanned successfully".

Definition warning_message (distance_meters : Q) : string :=
  "Warning: You are " +:+ Py.str_float (Py.round distance_meters 1)
    +:+ "m away from the QR location".

(** Reading a number back from its text, for the statements about the
    warning: one or more digits, a point and exactly one more digit, with a
    minus sign in front for a negative number.  [read_tenths] reads the part
    without the sign and gives the number of tenths. *)
Definition digit_value (c : Ascii.ascii) : option Z :=
  let n := Z.of_N (Ascii.N_of_ascii c) in
  if (48 <=? n)%Z && (n <=? 57)%Z then Some (n - 48)%Z else None.

Fixpoint read_tenths (seen : bool) (int_part : Z) (s : string) : option Z :=
  match s with
  | "" => None
  | String c rest =>
    if Ascii.eqb c "."%char then
      match rest with
      | String d "" =>
        if seen then option_map (fun v => (int_part * 10 + v)%Z) (digit_value d) else None
      | _ => None
      end
    else
      match digit_value c with
      | Some v => read_tenths true (int_part * 10 + v) rest
      | None => None
      end
  end.

Definition read_one_decimal (s : string) : option Q :=
  match s with
  | String c rest =>
    if Ascii.eqb c "-"%char
    then option_map (fun t => (- t) # 10) (read_tenths false 0 rest)
    else option_map (fun t => t # 10) (read_tenths false 0 s)
  | "" => None
  end.

(** The scan event document that an authenticated scan of location [loc]
    hands to [insert_one]. *)
Definition guard_scan_event (env : Env) (req : QRScanRequest.t) (g : CurrentGuard.t)
    (loc : QRLocationDoc.t) : ScanEventDoc.t :=
  let c := QRScanRequest.coordinates req in
  {| ScanEventDoc.guardId := CurrentGuard.guard_id g;
     ScanEventDoc.supervisorId := CurrentGuard.supervisor_id g;
     ScanEventDoc.qrLocationId := QRLocationDoc._id loc;
     ScanEventDoc.qrId := QRScanRequest.qrId req;
     ScanEventDoc.locationName := QRLocationDoc.locationName loc;
     ScanEventDoc.coordinates :=
       Coordinates.mk (Coordinates.latitude c) (Coordinates.longitude c);
     ScanEventDoc.address := address_at env c;
     ScanEventDoc.areaCity := QRLocationDoc.areaCity loc;
     ScanEventDoc.areaState := QRLocationDoc.areaState loc;
     ScanEventDoc.areaCountry := QRLocationDoc.areaCountry loc;
     ScanEventDoc.isWithinRadius :=
       Qle_bool (distance_to env c loc) (WITHIN_RADIUS_METERS env);
     ScanEventDoc.distanceFromQR := Py.round (distance_to env c loc) 2;
     ScanEventDoc.scannedAt := utcnow env;
     ScanEventDoc.notes := QRScanRequest.notes req;
     ScanEventDoc.deviceInfo := None |}.

(** The scan event document that a public scan by guard profile [guard]
    hands to [insert_one]. *)
Definition public_scan_event (env : Env) (req : QRCodePublicScanRequest.t)
    (guard : GuardDoc.t) (loc : QRLocationDoc.t) : ScanEventDoc.t :=
  let c := QRCodePublicScanRequest.coordinates req in
  {| ScanEventDoc.guardId := GuardDoc._id guard;
     ScanEventDoc.supervisorId := GuardDoc.supervisorId guard;
     ScanEventDoc.qrLocationId := QRLocationDoc._id loc;
     ScanEventDoc.qrId := QRCodePublicScanRequest.qrId req;
     ScanEventDoc.locationName := QRLocationDoc.locationName loc;
     ScanEventDoc.coordinates :=
       Coordinates.mk (Coordinates.latitude c) (Coordinates.longitude c);
     ScanEventDoc.address := address_at env c;
     ScanEventDoc.areaCity := QRLocationDoc.areaCity loc;
     ScanEventDoc.areaState := QRLocationDoc.areaState loc;
     ScanEventDoc.areaCountry := QRLocationDoc.areaCountry loc;
     ScanEventDoc.isWithinRadius :=
       Qle_bool (distance_to env c loc) (WITHIN_RADIUS_METERS env);
     ScanEventDoc.distanceFromQR := Py.round (distance_to env c loc) 2;
     ScanEventDoc.scannedAt := utcnow env;
     ScanEventDoc.notes := QRCodePublicScanRequest.notes req;
     ScanEventDoc.deviceInfo := Some (QRCodePublicScanRequest.deviceInfo req) |}.

(** The verdict of an authenticated scan stored under [oid]. *)
Definition guard_verdict (env : Env) (req : QRScanRequest.t) (loc : QRLocationDoc.t)
    (oid : ObjectId) : QRScanResponse.t :=
  let c := QRScanRequest.coordinates req in
  let d := distance_to env c loc in
  {| QRScanResponse.scanEventId := oid;
     QRScanResponse.qrId := QRScanRequest.qrId req;
     QRScanResponse.locationName := QRLocationDoc.locationName loc;
     QRScanResponse.isWithinRadius := Qle_bool d (WITHIN_RADIUS_METERS env);
     QRScanResponse.distanceFromQR := Py.round d 2;
     QRScanResponse.address := address_at env c;
     QRScanResponse.scannedAt := utcnow env;
     QRScanResponse.message :=
       if Qle_bool d (WITHIN_RADIUS_METERS env) then confirmation_message
       else warning_message d |}.

(** The verdict of a public scan stored under [oid]. *)
Definition public_verdict (env : Env) (req : QRCodePublicScanRequest.t)
    (guard_user : UserDoc.t) (loc : QRLocationDoc.t) (oid : ObjectId)
  : QRCodePublicScanResponse.t :=
  let c := QRCodePublicScanRequest.coordinates req in
  let d := distance_to env c loc in
  {| QRCodePublicScanResponse.scanEventId := oid;
     QRCodePublicScanResponse.success := true;
     QRCodePublicScanResponse.qrId := QRCodePublicScanRequest.qrId req;
     QRCodePublicScanResponse.locationName := QRLocationDoc.locationName loc;
     QRCodePublicScanResponse.isWithinRadius := Qle_bool d (WITHIN_RADIUS_METERS env);
     QRCodePublicScanResponse.distanceFromQR := Py.round d 2;
     QRCodePublicScanResponse.radiusLimit := WITHIN_RADIUS_METERS env;
     QRCodePublicScanResponse.address := address_at env c;
     QRCodePublicScanResponse.scannedAt := utcnow env;
     QRCodePublicScanResponse.message :=
       if Qle_bool d (WITHIN_RADIUS_METERS env) then confirmation_message
       else warning_message d;
     QRCodePublicScanResponse.guardName := UserDoc.name guard_user;
     QRCodePublicScanResponse.areaCity := QRLocationDoc.areaCity loc |}.

(** What a handler may do to the world: the collections it reads stay as
    they are. *)
Definition same_directory (w w' : World) : Prop :=
  connected w' = connected w /\ users w' = users w /\ guards w' = guards w
  /\ supervisors w' = supervisors w /\ qr_locations w' = qr_locations w.


(** ** The ways a call can end *)

(** Every call of [scan_qr_code] ends in one of five ways. *)
Inductive guard_scan_ends (env : Env) (req : QRScanRequest.t) (g : CurrentGuard.t)
    (w : World) : result QRScanResponse.t -> World -> Prop :=
| guard_unavailable :
    connected w = false ->
    guard_scan_ends env req g w
      (Raise (HTTPException HTTP_503_SERVICE_UNAVAILABLE "Database not available")) w
| guard_not_found :
    connected w = true ->
    resolve_active_location w (QRScanRequest.qrId req) (CurrentGuard.supervisor_id g)
      = None ->
    guard_scan_ends env req g w
      (Raise (HTTPException HTTP_404_NOT_FOUND "QR code not found or inactive")) w
| guard_no_distance loc :
    connected w = true ->
    resolve_active_location w (QRScanRequest.qrId req) (CurrentGuard.supervisor_id g)
      = Some loc ->
    ~ latitude_in_range (QRScanRequest.coordinates req) ->
    guard_scan_ends env req g w
      (Raise (HTTPException HTTP_500_INTERNAL_SERVER_ERROR "Failed to process QR scan"))
      (set_log (log w ++ [(ERROR, "QR scan error: " +:+ latitude_error)]) w)
| guard_store_failed loc text w' :
    connected w = true ->
    resolve_active_location w (QRScanRequest.qrId req) (CurrentGuard.supervisor_id g)
      = Some loc ->
    latitude_in_range (QRScanRequest.coordinates req) ->
    insert_outcome env (guard_scan_event env req g loc) = Failed text ->
    scan_events w' = scan_events w ->
    sheets w' = sheets w ->
    same_directory w w' ->
    guard_scan_ends env req g w
      (Raise (HTTPException HTTP_500_INTERNAL_SERVER_ERROR "Failed to process QR scan")) w'
| guard_recorded loc oid w' :
    connected w = true ->
    resolve_active_location w (QRScanRequest.qrId req) (CurrentGuard.supervisor_id g)
      = Some loc ->
    latitude_in_range (QRScanRequest.coordinates req) ->
    insert_outcome env (guard_scan_event env req g loc) = Done oid ->
    scan_events w'
    = (scan_events w ++ [(oid, bson_scan_event (guard_scan_event env req g loc))])%list ->
    same_directory w w' ->
    guard_scan_ends env req g w (Return (guard_verdict env req loc oid)) w'.

(** Every call of [public_scan_qr_code] ends in one of six ways. *)
Inductive public_scan_ends (env : Env) (req : QRCodePublicScanRequest.t)
    (w : World) : result QRCodePublicScanResponse.t -> World -> Prop :=
| public_unavailable :
    connected w = false ->
    public_scan_ends env req w
      (Raise (HTTPException HTTP_503_SERVICE_UNAVAILABLE "Database not available")) w
| public_no_guard detail :
    connected w = true ->
    resolve_guard w (QRCodePublicScanRequest.guardEmail req) = None ->
    detail = "Guard not found or inactive" \/ detail = "Guard profile not found" ->
    public_scan_ends env req w (Raise (HTTPException HTTP_404_NOT_FOUND detail)) w
| public_not_found guard_user guard :
    connected w = true ->
    resolve_guard w (QRCodePublicScanRequest.guardEmail req) = Some (guard_user, guard) ->
    resolve_active_location w (QRCodePublicScanRequest.qrId req)
      (GuardDoc.supervisorId guard) = None ->
    public_scan_ends env req w
      (Raise (HTTPException HTTP_404_NOT_FOUND "QR code not found or inactive")) w
| public_no_distance guard_user guard loc :
    connected w = true ->
    resolve_guard w (QRCodePublicScanRequest.guardEmail req) = Some (guard_user, guard) ->
    resolve_active_location w (QRCodePublicScanRequest.qrId req)
      (GuardDoc.supervisorId guard) = Some loc ->
    ~ latitude_in_range (QRCodePublicScanRequest.coordinates req) ->
    public_scan_ends env req w
      (Raise (HTTPException HTTP_500_INTERNAL_SERVER_ERROR "Failed to process QR scan"))
      (set_log (log w ++ [(ERROR, "Public QR scan error: " +:+ latitude_error)]) w)
| public_store_failed guard_user guard loc text w' :
    connected w = true ->
    resolve_guard w (QRCodePublicScanRequest.guardEmail req) = Some (guard_user, guard) ->
    resolve_active_location w (QRCodePublicScanRequest.qrId req)
      (GuardDoc.supervisorId guard) = Some loc ->
    latitude_in_range (QRCodePublicScanRequest.coordinates req) ->
    insert_outcome env (public_scan_event env req guard loc) = Failed text ->
    scan_events w' = scan_events w ->
    sheets w' = sheets w ->
    same_directory w w' ->
    public_scan_ends env req w
      (Raise (HTTPException HTTP_500_INTERNAL_SERVER_ERROR "Failed to process QR scan")) w'
| public_recorded guard_user guard loc oid w' :
    connected w = true ->
    resolve_guard w (QRCodePublicScanRequest.guardEmail req) = Some (guard_user, guard) ->
    resolve_active_location w (QRCodePublicScanRequest.qrId req)
      (GuardDoc.supervisorId guard) = Some loc ->
    latitude_in_range (QRCodePublicScanRequest.coordinates req) ->
    insert_outcome env (public_scan_event env req guard loc) = Done oid ->
    scan_events w'
    = (scan_events w ++ [(oid, bson_scan_event (public_scan_event env req guard loc))])%list ->
    same_directory w w' ->
    public_scan_ends env req w (Return (public_verdict env req guard_user loc oid)) w'.

(** ** Replaying calls *)

(** A call of one of the two scan operations. *)
Inductive call : Type :=
| GuardScan (env : Env) (req : QRScanRequest.t) (g : CurrentGuard.t)
| PublicScan (env : Env) (req : QRCodePublicScanRequest.t).

(** The world after one call, whatever its result. *)
Definition after (c : call) (w : World) : World :=
  match c with
  | GuardScan env req g => (scan_qr_code env req g w).2
  | PublicScan env req => (public_scan_qr_code env req w).2
  end.

(** The world after a history of calls, oldest first. *)
Fixpoint run (calls : list call) (w : World) : World :=
  match calls with
  | [] => w
  | c :: calls' => run calls' (after c w)
  end.

(** The same environment with another spreadsheet service. *)
Definition with_sheet_service (env : Env)
    (svc : string -> string -> ScanEventData.t -> outcome unit) : Env :=
  mkEnv (WITHIN_RADIUS_METERS env) (geodesic_meters env) (reverse_geocode_enhanced env)
        svc (insert_outcome env) (utcnow env).

(** No location document with this QR identifier is both owned by this
    supervisor and active. *)
Definition unresolved (w : World) (qr_id : string) (supervisor_id : ObjectId) : Prop :=
  forall d : QRLocationDoc.t,
    In d (qr_locations w) ->
    ~ (QRLocationDoc.qrId d = qr_id
       /\ QRLocationDoc.supervisorId d = supervisor_id
       /\ QRLocationDoc.isActive d = true).

(** The coordinates are outside the accepted ranges. *)
Definition out_of_range (c : Coordinates.t) : Prop :=
  (Coordinates.latitude c < -90 \/ 90 < Coordinates.latitude c
   \/ Coordinates.longitude c < -180 \/ 180 < Coordinates.longitude c)%Q.

(** The document carries the device metadata key. *)
Definition has_device_metadata (e : ScanEventDoc.t) : Prop :=
  ScanEventDoc.deviceInfo e <> None.

(** ** A small deployment for the examples *)

Module Sample.

Definition supervisor_oid : ObjectId := "64b7f0c2a1d3e4f5a6b7c8d9".
Definition other_supervisor_oid : ObjectId := "64b7f0c2a1d3e4f5a6b7c8da".
Definition user_oid : ObjectId := "64b7f0c2a1d3e4f5a6b7c8e1".
Definition guard_oid : ObjectId := "64b7f0c2a1d3e4f5a6b7c8f2".
Definition main_gate_oid : ObjectId := "64b7f0c2a1d3e4f5a6b7c901".
Definition depot_oid : ObjectId := "64b7f0c2a1d3e4f5a6b7c902".
Definition annex_oid : ObjectId := "64b7f0c2a1d3e4f5a6b7c903".
Definition new_oid : ObjectId := "64b7f0c2a1d3e4f5a6b7ca10".

(** The reading of the clock, 2026-11-03 12:00 UTC. *)
Definition clock : datetime := 1793707200000000%Z.

(** An active location of the guard's supervisor. *)
Definition main_gate : QRLocationDoc.t :=
  QRLocationDoc.mk main_gate_oid "QR-MAIN-GATE" supervisor_oid true "Main gate"
    (Coordinates.mk 12.9716 77.5946) "Bengaluru" "Karnataka" "India".

(** A location of the same supervisor that was deactivated. *)
Definition depot : QRLocationDoc.t :=
  QRLocationDoc.mk depot_oid "QR-DEPOT" supervisor_oid false "Depot"
    (Coordinates.mk 12.9800 77.6000) "Bengaluru" "Karnataka" "India".

(** An active location of another supervisor. *)
Definition annex : QRLocationDoc.t :=
  QRLocationDoc.mk annex_oid "QR-ANNEX" other_supervisor_oid true "Annex"
    (Coordinates.mk 12.9900 77.6100) "Bengaluru" "Karnataka" "India".

Definition guard_user : UserDoc.t :=
  UserDoc.mk user_oid "asha@example.com" "GUARD" true "Asha".

Definition guard_profile : GuardDoc.t :=
  GuardDoc.mk guard_oid user_oid supervisor_oid.

Definition world : World :=
  {| connected := true;
     users := [guard_user];
     guards := [guard_profile];
     supervisors := [SupervisorDoc.mk supervisor_oid (Some "sheet-17") "Bengaluru"];
     qr_locations := [depot; annex; main_gate];
     scan_events := [];
     sheets := [];
     log := [] |}.

Definition current_guard : CurrentGuard.t :=
  CurrentGuard.mk guard_oid supervisor_oid "Asha" "asha@example.com".

(** A stand-in for geopy: the distance to the main gate from four positions
    (about 62 m away, about 1.5 m away, exactly on the 50 m radius, and 4 mm
    beyond it), and 0 from anywhere else. *)
Definition geodesic (p q : Q * Q) : Q :=
  if Qeq_bool p.1 12.9720 then 61.981
  else if Qeq_bool p.1 12.97161 then 1.550
  else if Qeq_bool p.1 12.97205 then 50
  else if Qeq_bool p.1 12.97206 then 50.004
  else 0.

(** Every collaborator answers. *)
Definition env : Env :=
  {| WITHIN_RADIUS_METERS := 50;
     geodesic_meters := geodesic;
     reverse_geocode_enhanced :=
       fun _ _ => Done (Some {[ "formatted_address" := "MG Road, Bengaluru" ]});
     append_scan_to_sheet := fun _ _ _ => Done tt;
     insert_outcome := fun _ => Done new_oid;
     utcnow := clock |}.

(** The geocoding service and the spreadsheet service both fail. *)
Definition env_providers_down : Env :=
  {| WITHIN_RADIUS_METERS := 50;
     geodesic_meters := geodesic;
     reverse_geocode_enhanced := fun _ _ => Failed "geocoding timed out";
     append_scan_to_sheet := fun _ _ _ => Failed "sheets quota exceeded";
     insert_outcome := fun _ => Done new_oid;
     utcnow := clock |}.

(** The event store refuses the write. *)
Definition env_store_down : Env :=
  {| WITHIN_RADIUS_METERS := 50;
     geodesic_meters := geodesic;
     reverse_geocode_enhanced :=
       fun _ _ => Done (Some {[ "formatted_address" := "MG Road, Bengaluru" ]});
     append_scan_to_sheet := fun _ _ _ => Done tt;
     insert_outcome := fun _ => Failed "connection reset";
     utcnow := clock |}.

Definition scan_at (qr_id : string) (lat lon : Q) : QRScanRequest.t :=
  QRScanRequest.mk qr_id (Coordinates.mk lat lon) (Some "north fence checked").

Definition public_scan_at (qr_id : string) (lat lon : Q) : QRCodePublicScanRequest.t :=
  QRCodePublicScanRequest.mk "asha@example.com" qr_id (Coordinates.mk lat lon)
    (Some "north fence checked") (Some "Pixel 8, app 2.3.1").

Definition scan_far : QRScanRequest.t := scan_at "QR-MAIN-GATE" 12.9720 77.5950.
Definition scan_near : QRScanRequest.t := scan_at "QR-MAIN-GATE" 12.97161 77.59461.
Definition scan_on_radius : QRScanRequest.t := scan_at "QR-MAIN-GATE" 12.97205 77.5946.
Definition scan_just_outside : QRScanRequest.t := scan_at "QR-MAIN-GATE" 12.97206 77.5946.

Definition public_scan_far : QRCodePublicScanRequest.t :=
  public_scan_at "QR-MAIN-GATE" 12.9720 77.5950.
Definition public_scan_near : QRCodePublicScanRequest.t :=
  public_scan_at "QR-MAIN-GATE" 12.97161 77.59461.
Definition public_scan_on_radius : QRCodePublicScanRequest.t :=
  public_scan_at "QR-MAIN-GATE" 12.97205 77.5946.
Definition public_scan_just_outside : QRCodePublicScanRequest.t :=
  public_scan_at "QR-MAIN-GATE" 12.97206 77.5946.

(** The sample world after the guard's scan from about 62 m, and a later
    history: a public scan, a scan while the event store is down, and a scan
    of the deactivated depot. *)
Definition patrolled : World := after (GuardScan env scan_far current_guard) world.

Definition history : list call :=
  [PublicScan env public_scan_near;
   GuardScan env_store_down scan_near current_guard;
   GuardScan env (scan_at "QR-DEPOT" 12.9800 77.6000) current_guard].

End Sample.

(** ** The other handlers of the two route files *)

(** *** Dates *)

Definition microseconds_per_day : Z := 86400000000.

(** [datetime.min] and [datetime.max], years 1 and 9999. *)
Definition datetime_min : datetime := (-62135596800000000)%Z.
Definition datetime_max : datetime := 253402300799999999%Z.

(** A value that a [datetime] can hold. *)
Definition valid_datetime (t : datetime) : Prop :=
  (datetime_min <= t <= datetime_max)%Z.

(** [t.replace(hour=0, minute=0, second=0, microsecond=0)] on a naive UTC
    datetime. *)
Definition start_of_day (t : datetime) : datetime :=
  (t - t mod microseconds_per_day)%Z.

(** [t.weekday()]: Monday is 0; 1970-01-01 was a Thursday. *)
Definition weekday (t : datetime) : Z :=
  ((t / microseconds_per_day + 3) mod 7)%Z.

(** [timedelta(days=n)], in microseconds. *)
Definition timedelta_days (n : Z) : Z := (n * microseconds_per_day)%Z.

(** [t + delta] for a [timedelta]: Python raises [OverflowError] when the
    result is not a [datetime]. *)
Definition datetime_add (t : datetime) (delta : Z) : M datetime :=
  if ((datetime_min <=? t + delta) && (t + delta <=? datetime_max))%Z
  then ret (t + delta)%Z
  else raise (OtherException "date value out of range").

(** *** Cursors *)

(** [count_documents(filter)]. *)
Definition count_documents {A : Type} (filter : A -> bool) (coll : list A) : nat :=
  length (List.filter filter coll).

(** The order of [sort("scannedAt", -1)]: later scans first.  MongoDB leaves
    the order of documents with equal keys open; the model sorts by merging. *)
Definition scanned_not_before (x y : ObjectId * ScanEventDoc.t) : Prop :=
  (ScanEventDoc.scannedAt y.2 <= ScanEventDoc.scannedAt x.2)%Z.

#[global] Instance scanned_not_before_dec x y : Decision (scanned_not_before x y) :=
  decide (ScanEventDoc.scannedAt y.2 <= ScanEventDoc.scannedAt x.2)%Z.

(** The order of [sort("scannedAt", 1)]: earlier scans first. *)
Definition scanned_not_after (x y : ObjectId * ScanEventDoc.t) : Prop :=
  (ScanEventDoc.scannedAt x.2 <= ScanEventDoc.scannedAt y.2)%Z.

#[global] Instance scanned_not_after_dec x y : Decision (scanned_not_after x y) :=
  decide (ScanEventDoc.scannedAt x.2 <= ScanEventDoc.scannedAt y.2)%Z.

(** The order of [sort("locationName", 1)]: MongoDB's plain comparison of
    strings, byte by byte. *)
Definition name_not_after (x y : QRLocationDoc.t) : Prop :=
  String.leb (QRLocationDoc.locationName x) (QRLocationDoc.locationName y) = true.

#[global] Instance name_not_after_dec x y : Decision (name_not_after x y) :=
  decide (String.leb (QRLocationDoc.locationName x) (QRLocationDoc.locationName y) = true).

(** [cursor.skip(n)] for [n >= 0]. *)
Definition cursor_skip {A : Type} (n : nat) (l : list A) : list A := drop n l.

(** [cursor.limit(n)]: a limit of 0 is no limit. *)
Definition cursor_limit {A : Type} (n : nat) (l : list A) : list A :=
  match n with O => l | _ => take n l end.

(** *** Percentages *)

(** [count / total * 100 if total > 0 else 0], where [fl] is the rounding of
    a real number to the nearest float that Python's division and
    multiplication perform. *)
Definition percentage (fl : Q -> Q) (count total : nat) : Q :=
  if (0 <? total)%nat
  then fl (fl (inject_Z (Z.of_nat count) / inject_Z (Z.of_nat total)) * 100)%Q
  else 0%Q.

(** What the theorems use of the rounding to the nearest float: it keeps the
    order, and 0, 1 and 100 are floats. *)
Definition rounds_to_nearest (fl : Q -> Q) : Prop :=
  (forall x y : Q, x <= y -> fl x <= fl y)%Q
  /\ (fl 0 == 0)%Q /\ (fl 1 == 1)%Q /\ (fl 100 == 100)%Q.

(** *** [get_guard_dashboard], routes/guard_routes.py *)

(** The dictionary of [get_current_guard] with the two further keys that the
    guard routes read besides those of the scan handler. *)
Module GuardSession.
Record t := mk {
  guard : CurrentGuard.t;
  areaCity : string;
  shift : string }.
End GuardSession.

Module GuardDashboard.
Record statistics := mk_statistics {
  today_scans : nat;
  this_week_scans : nat;
  total_scans : nat;
  within_radius_percentage : Q;
  available_qr_locations : nat }.
Record scan := mk_scan {
  id : string;
  location_name : string;
  scanned_at : datetime;
  is_within_radius : bool;
  distance_from_qr : Q }.
Record guard_info := mk_guard_info {
  name : string;
  email : string;
  area_city : string;
  shift : string }.
Record t := mk {
  stats : statistics;
  recent_scans : list scan;
  last_scan_time : option datetime;
  info : guard_info }.
End GuardDashboard.

Definition get_guard_dashboard (env : Env) (fl : Q -> Q) (current_guard : GuardSession.t)
  : M GuardDashboard.t :=
  try_except
    (guards_collection <- get_guards_collection ;;
     scan_events_collection <- get_scan_events_collection ;;
     qr_locations_collection <- get_qr_locations_collection ;;
     match guards_collection, scan_events_collection, qr_locations_collection with
     | Some _, Some scan_events_collection, Some qr_locations_collection =>
       let guard_id := CurrentGuard.guard_id (GuardSession.guard current_guard) in
       let supervisor_id := CurrentGuard.supervisor_id (GuardSession.guard current_guard) in
       let today_start := start_of_day (utcnow env) in
       let today_scans :=
         count_documents
           (fun e => String.eqb (ScanEventDoc.guardId e.2) guard_id
                     && (today_start <=? ScanEventDoc.scannedAt e.2)%Z)
           scan_events_collection in
       week_start <-
         datetime_add today_start (- timedelta_days (weekday today_start)) ;;
       let this_week_scans :=
         count_documents
           (fun e => String.eqb (ScanEventDoc.guardId e.2) guard_id
                     && (week_start <=? ScanEventDoc.scannedAt e.2)%Z)
           scan_events_collection in
       let total_scans :=
         count_documents (fun e => String.eqb (ScanEventDoc.guardId e.2) guard_id)
           scan_events_collection in
       let within_radius_scans :=
         count_documents
           (fun e => String.eqb (ScanEventDoc.guardId e.2) guard_id
                     && Bool.eqb (ScanEventDoc.isWithinRadius e.2) true)
           scan_events_collection in
       let within_radius_percentage := percentage fl within_radius_scans total_scans in
       let recent_scans :=
         cursor_limit 10
           (merge_sort scanned_not_before
              (List.filter (fun e => String.eqb (ScanEventDoc.guardId e.2) guard_id)
                 scan_events_collection)) in
       let available_qr_locations :=
         count_documents
           (fun d => String.eqb (QRLocationDoc.supervisorId d) supervisor_id
                     && Bool.eqb (QRLocationDoc.isActive d) true)
           qr_locations_collection in
       let last_scan :=
         head (merge_sort scanned_not_before
                 (List.filter (fun e => String.eqb (ScanEventDoc.guardId e.2) guard_id)
                    scan_events_collection)) in
       ret (GuardDashboard.mk
              (GuardDashboard.mk_statistics
                 today_scans
                 this_week_scans
                 total_scans
                 (Py.round within_radius_percentage 1)
                 available_qr_locations)
              (map (fun scan =>
                      GuardDashboard.mk_scan
                        scan.1
                        (ScanEventDoc.locationName scan.2)
                        (ScanEventDoc.scannedAt scan.2)
                        (ScanEventDoc.isWithinRadius scan.2)
                        (ScanEventDoc.distanceFromQR scan.2))
                   recent_scans)
              (match last_scan with
               | Some last_scan => Some (ScanEventDoc.scannedAt last_scan.2)
               | None => None
               end)
              (GuardDashboard.mk_guard_info
                 (CurrentGuard.name (GuardSession.guard current_guard))
                 (CurrentGuard.email (GuardSession.guard current_guard))
                 (GuardSession.areaCity current_guard)
                 (GuardSession.shift current_guard)))
     | _, _, _ =>
       raise (HTTPException HTTP_503_SERVICE_UNAVAILABLE "Database not available")
     end)
    (fun e =>
       match e with
       | HTTPException _ _ => raise e
       | _ =>
         logger ERROR ("Guard dashboard error: " +:+ str_exception e) ;;
         raise (HTTPException HTTP_500_INTERNAL_SERVER_ERROR "Failed to load dashboard")
       end).

(** *** [get_scan_history], routes/guard_routes.py *)

Module ScanEventResponse.
Record t := mk {
  id : string;
  guardId : string;
  guardName : string;
  guardEmail : string;
  qrLocationId : string;
  locationName : string;
  coordinates : Coordinates.t;
  address : string;
  areaCity : string;
  isWithinRadius : bool;
  distanceFromQR : Q;
  scannedAt : datetime }.
End ScanEventResponse.

(** The filter that [get_scan_history] builds from its query parameters.  A
    [datetime] is always true, so a date counts when it is given; an empty
    [qr_id] is false and filters nothing. *)
Definition scan_history_filter (guard_id : ObjectId)
    (start_date end_date : option datetime) (qr_id : option string)
    (within_radius_only : option bool) (e : ObjectId * ScanEventDoc.t) : bool :=
  String.eqb (ScanEventDoc.guardId e.2) guard_id
  && match start_date, end_date with
     | Some s, Some t =>
       (s <=? ScanEventDoc.scannedAt e.2)%Z && (ScanEventDoc.scannedAt e.2 <=? t)%Z
     | Some s, None => (s <=? ScanEventDoc.scannedAt e.2)%Z
     | None, Some t => (ScanEventDoc.scannedAt e.2 <=? t)%Z
     | None, None => true
     end
  && match qr_id with
     | Some q => if Py.truthy_str q then String.eqb (ScanEventDoc.qrId e.2) q else true
     | None => true
     end
  && match within_radius_only with
     | Some b => Bool.eqb (ScanEventDoc.isWithinRadius e.2) b
     | None => true
     end.

(** The route declares [1 <= limit <= 100] and [skip >= 0], which FastAPI
    checks before the handler runs.  The cursor is built as
    [find(filter).skip(skip).limit(limit).sort("scannedAt", -1)]; whatever the
    order of these calls, MongoDB sorts first, then skips, then limits. *)
Definition get_scan_history (current_guard : CurrentGuard.t)
    (start_date end_date : option datetime) (qr_id : option string)
    (within_radius_only : option bool) (limit skip : nat)
  : M (list ScanEventResponse.t) :=
  try_except
    (scan_events_collection <- get_scan_events_collection ;;
     match scan_events_collection with
     | None =>
       raise (HTTPException HTTP_503_SERVICE_UNAVAILABLE "Database not available")
     | Some scan_events_collection =>
       let guard_id := CurrentGuard.guard_id current_guard in
       let filter_query :=
         scan_history_filter guard_id start_date end_date qr_id within_radius_only in
       let scan_events :=
         cursor_limit limit
           (cursor_skip skip
              (merge_sort scanned_not_before
                 (List.filter filter_query scan_events_collection))) in
       ret (map (fun event =>
                   ScanEventResponse.mk
                     event.1
                     (ScanEventDoc.guardId event.2)
                     (CurrentGuard.name current_guard)
                     (CurrentGuard.email current_guard)
                     (ScanEventDoc.qrLocationId event.2)
                     (ScanEventDoc.locationName event.2)
                     (Coordinates.mk
                        (Coordinates.latitude (ScanEventDoc.coordinates event.2))
                        (Coordinates.longitude (ScanEventDoc.coordinates event.2)))
                     (ScanEventDoc.address event.2)
                     (ScanEventDoc.areaCity event.2)
                     (ScanEventDoc.isWithinRadius event.2)
                     (ScanEventDoc.distanceFromQR event.2)
                     (ScanEventDoc.scannedAt event.2))
                scan_events)
     end)
    (fun e =>
       match e with
       | HTTPException _ _ => raise e
       | _ =>
         logger ERROR ("Get scan history error: " +:+ str_exception e) ;;
         raise (HTTPException HTTP_500_INTERNAL_SERVER_ERROR "Failed to get scan history")
       end).

(** *** [get_available_qr_locations], routes/guard_routes.py *)

Module AvailableLocations.
Record location := mk_location {
  qr_id : string;
  location_name : string;
  coordinates : Coordinates.t;
  address : string;
  area_city : string }.
Record t := mk {
  locations : list location;
  total_count : nat;
  guard_area_city : string }.
End AvailableLocations.

(** [location_address] gives the optional [address] key of a location
    document, which the scan handlers do not read. *)
Definition get_available_qr_locations
    (location_address : QRLocationDoc.t -> option string)
    (current_guard : GuardSession.t) : M AvailableLocations.t :=
  try_except
    (qr_locations_collection <- get_qr_locations_collection ;;
     match qr_locations_collection with
     | None =>
       raise (HTTPException HTTP_503_SERVICE_UNAVAILABLE "Database not available")
     | Some qr_locations_collection =>
       let supervisor_id := CurrentGuard.supervisor_id (GuardSession.guard current_guard) in
       let qr_locations :=
         merge_sort name_not_after
           (List.filter
              (fun d => String.eqb (QRLocationDoc.supervisorId d) supervisor_id
                        && Bool.eqb (QRLocationDoc.isActive d) true)
              qr_locations_collection) in
       let locations :=
         map (fun qr =>
                AvailableLocations.mk_location
                  (QRLocationDoc.qrId qr)
                  (QRLocationDoc.locationName qr)
                  (Coordinates.mk
                     (Coordinates.latitude (QRLocationDoc.coordinates qr))
                     (Coordinates.longitude (QRLocationDoc.coordinates qr)))
                  (default "" (location_address qr))
                  (QRLocationDoc.areaCity qr))
             qr_locations in
       ret (AvailableLocations.mk locations (length locations)
              (GuardSession.areaCity current_guard))
     end)
    (fun e =>
       match e with
       | HTTPException _ _ => raise e
       | _ =>
         logger ERROR ("Get available QR locations error: " +:+ str_exception e) ;;
         raise (HTTPException HTTP_500_INTERNAL_SERVER_ERROR
                  "Failed to get available QR locations")
       end).

(** *** [get_patrol_summary], routes/guard_routes.py *)

Module PatrolSummary.
Record summary := mk_summary {
  total_scans : nat;
  unique_locations_scanned : nat;
  total_available_locations : nat;
  coverage_percentage : Q;
  within_radius_percentage : Q;
  first_scan_time : option datetime;
  last_scan_time : option datetime }.
Record scan := mk_scan {
  qr_id : string;
  location_name : string;
  scanned_at : datetime;
  is_within_radius : bool;
  distance_from_qr : Q }.
Record t := mk {
  date : datetime;
  stats : summary;
  scans : list scan }.
End PatrolSummary.

(** [date] is the optional query parameter; the [date] of the answer is kept
    as the start of that day. *)
Definition get_patrol_summary (env : Env) (fl : Q -> Q) (current_guard : CurrentGuard.t)
    (date : option datetime) : M PatrolSummary.t :=
  try_except
    (scan_events_collection <- get_scan_events_collection ;;
     qr_locations_collection <- get_qr_locations_collection ;;
     match scan_events_collection, qr_locations_collection with
     | Some scan_events_collection, Some qr_locations_collection =>
       let guard_id := CurrentGuard.guard_id current_guard in
       let supervisor_id := CurrentGuard.supervisor_id current_guard in
       let target_date := match date with Some d => d | None => utcnow env end in
       let day_start := start_of_day target_date in
       day_end <- datetime_add day_start (timedelta_days 1) ;;
       let day_scans :=
         merge_sort scanned_not_after
           (List.filter
              (fun e => String.eqb (ScanEventDoc.guardId e.2) guard_id
                        && (day_start <=? ScanEventDoc.scannedAt e.2)%Z
                        && (ScanEventDoc.scannedAt e.2 <? day_end)%Z)
              scan_events_collection) in
       let total_locations :=
         count_documents
           (fun d => String.eqb (QRLocationDoc.supervisorId d) supervisor_id
                     && Bool.eqb (QRLocationDoc.isActive d) true)
           qr_locations_collection in
       let scanned_qr_ids : gset string :=
         list_to_set (map (fun scan => ScanEventDoc.qrId scan.2) day_scans) in
       let unique_locations_scanned := size scanned_qr_ids in
       let coverage_percentage :=
         percentage fl unique_locations_scanned total_locations in
       let within_radius_scans :=
         length (List.filter (fun scan => ScanEventDoc.isWithinRadius scan.2) day_scans) in
       let within_radius_percentage :=
         percentage fl within_radius_scans (length day_scans) in
       let first_scan_time :=
         match head day_scans with
         | Some scan => Some (ScanEventDoc.scannedAt scan.2)
         | None => None
         end in
       let last_scan_time :=
         match last day_scans with
         | Some scan => Some (ScanEventDoc.scannedAt scan.2)
         | None => None
         end in
       ret (PatrolSummary.mk
              day_start
              (PatrolSummary.mk_summary
                 (length day_scans)
                 unique_locations_scanned
                 total_locations
                 (Py.round coverage_percentage 1)
                 (Py.round within_radius_percentage 1)
                 first_scan_time
                 last_scan_time)
              (map (fun scan =>
                      PatrolSummary.mk_scan
                        (ScanEventDoc.qrId scan.2)
                        (ScanEventDoc.locationName scan.2)
                        (ScanEventDoc.scannedAt scan.2)
                        (ScanEventDoc.isWithinRadius scan.2)
                        (ScanEventDoc.distanceFromQR scan.2))
                   day_scans))
     | _, _ =>
       raise (HTTPException HTTP_503_SERVICE_UNAVAILABLE "Database not available")
     end)
    (fun e =>
       match e with
       | HTTPException _ _ => raise e
       | _ =>
         logger ERROR ("Get patrol summary error: " +:+ str_exception e) ;;
         raise (HTTPException HTTP_500_INTERNAL_SERVER_ERROR "Failed to get patrol summary")
       end).

(** *** [get_qr_location_info], routes/qr_routes.py *)

Module QRLocationInfo.
Record t := mk {
  qr_id : string;
  location_name : string;
  coordinates : Coordinates.t;
  address : string;
  area_city : string;
  area_state : string;
  area_country : string;
  radius_limit : Q }.
End QRLocationInfo.

Definition get_qr_location_info (env : Env)
    (location_address : QRLocationDoc.t -> option string) (qr_id : string)
  : M QRLocationInfo.t :=
  try_except
    (qr_locations_collection <- get_qr_locations_collection ;;
     match qr_locations_collection with
     | None =>
       raise (HTTPException HTTP_503_SERVICE_UNAVAILABLE "Database not available")
     | Some qr_locations_collection =>
       let qr_location :=
         find_one (fun d => String.eqb (QRLocationDoc.qrId d) qr_id
                            && Bool.eqb (QRLocationDoc.isActive d) true)
                  qr_locations_collection in
       match qr_location with
       | None => raise (HTTPException HTTP_404_NOT_FOUND "QR location not found")
       | Some qr_location =>
         ret (QRLocationInfo.mk
                (QRLocationDoc.qrId qr_location)
                (QRLocationDoc.locationName qr_location)
                (Coordinates.mk
                   (Coordinates.latitude (QRLocationDoc.coordinates qr_location))
                   (Coordinates.longitude (QRLocationDoc.coordinates qr_location)))
                (default "" (location_address qr_location))
                (QRLocationDoc.areaCity qr_location)
                (QRLocationDoc.areaState qr_location)
                (QRLocationDoc.areaCountry qr_location)
                (WITHIN_RADIUS_METERS env))
       end
     end)
    (fun e =>
       match e with
       | HTTPException _ _ => raise e
       | _ =>
         logger ERROR ("Get QR location info error: " +:+ str_exception e) ;;
         raise (HTTPException HTTP_500_INTERNAL_SERVER_ERROR
                  "Failed to get QR location information")
       end).

(** *** [validate_qr_code], routes/qr_routes.py *)

(** The dictionary that [validate_qr_code] returns; the two keys of the
    location are there only when the code is valid. *)
Module QRValidation.
Record t := mk {
  valid : bool;
  qr_id : string;
  location_name : option string;
  area_city : option string;
  message : string }.
End QRValidation.

(** This handler has a single [except Exception] clause, which also catches
    the [HTTPException] raised in its own body. *)
Definition validate_qr_code (qr_id : string) : M QRValidation.t :=
  try_except
    (qr_locations_collection <- get_qr_locations_collection ;;
     match qr_locations_collection with
     | None =>
       raise (HTTPException HTTP_503_SERVICE_UNAVAILABLE "Database not available")
     | Some qr_locations_collection =>
       let qr_location :=
         find_one (fun d => String.eqb (QRLocationDoc.qrId d) qr_id
                            && Bool.eqb (QRLocationDoc.isActive d) true)
                  qr_locations_collection in
       match qr_location with
       | None =>
         ret (QRValidation.mk false qr_id None None "QR code not found or inactive")
       | Some qr_location =>
         ret (QRValidation.mk true qr_id
                (Some (QRLocationDoc.locationName qr_location))
                (Some (QRLocationDoc.areaCity qr_location))
                "QR code is valid and active")
       end
     end)
    (fun e =>
       logger ERROR ("Validate QR code error: " +:+ str_exception e) ;;
       raise (HTTPException HTTP_500_INTERNAL_SERVER_ERROR "Failed to validate QR code")).

(** *** [generate_qr_code] and [bulk_generate_qr_codes], routes/qr_routes.py *)

(** The dictionary that [get_current_supervisor] resolves, with the keys that
    the two handlers read. *)
Module CurrentSupervisor.
Record t := mk {
  supervisor_id : ObjectId;
  email : string;
  areaCity : string }.
End CurrentSupervisor.

(** Body of [POST /generate]. *)
Module QRCodeGenerateRequest.
Record t := mk {
  qrId : string;
  size : Z }.
End QRCodeGenerateRequest.

Module QRCodeGenerateResponse.
Record t := mk {
  qrId : string;
  locationName : string;
  qrCodeImage : string;
  size : Z;
  coordinates : Coordinates.t;
  address : string;
  generatedAt : datetime }.
End QRCodeGenerateResponse.

Module BulkQRCodes.
Record code := mk_code {
  qr_id : string;
  location_name : string;
  qr_code_image : string;
  coordinates : Coordinates.t;
  address : string }.
Record t := mk {
  supervisor_area : string;
  total_qr_codes : nat;
  qr_codes : list code;
  generated_at : datetime;
  size : Z }.
End BulkQRCodes.

(** The QR code of [data] drawn with boxes of [box_size] pixels by the qrcode
    library (version 1 and growing to fit, error correction L, border 4),
    saved as PNG and encoded in base64; [render] gives that text, or the
    exception of the library. *)
Definition qr_png_base64 (render : string -> Z -> outcome string)
    (data : string) (box_size : Z) : M string :=
  fun w =>
    match render data box_size with
    | Done img_base64 => (Return img_base64, w)
    | Failed text => (Raise (OtherException text), w)
    end.

Definition generate_qr_code (env : Env) (render : string -> Z -> outcome string)
    (location_address : QRLocationDoc.t -> option string)
    (qr_request : QRCodeGenerateRequest.t) (current_supervisor : CurrentSupervisor.t)
  : M QRCodeGenerateResponse.t :=
  try_except
    (qr_locations_collection <- get_qr_locations_collection ;;
     match qr_locations_collection with
     | None =>
       raise (HTTPException HTTP_503_SERVICE_UNAVAILABLE "Database not available")
     | Some qr_locations_collection =>
       let supervisor_id := CurrentSupervisor.supervisor_id current_supervisor in
       let qr_location :=
         find_one (fun d =>
                     String.eqb (QRLocationDoc.qrId d) (QRCodeGenerateRequest.qrId qr_request)
                     && String.eqb (QRLocationDoc.supervisorId d) supervisor_id
                     && Bool.eqb (QRLocationDoc.isActive d) true)
                  qr_locations_collection in
       match qr_location with
       | None => raise (HTTPException HTTP_404_NOT_FOUND "QR location not found")
       | Some qr_location =>
         let qr_data := QRCodeGenerateRequest.qrId qr_request in
         img_base64 <-
           qr_png_base64 render qr_data (QRCodeGenerateRequest.size qr_request) ;;
         let response :=
           QRCodeGenerateResponse.mk
             (QRCodeGenerateRequest.qrId qr_request)
             (QRLocationDoc.locationName qr_location)
             ("data:image/png;base64," +:+ img_base64)
             (QRCodeGenerateRequest.size qr_request)
             (Coordinates.mk
                (Coordinates.latitude (QRLocationDoc.coordinates qr_location))
                (Coordinates.longitude (QRLocationDoc.coordinates qr_location)))
             (default "" (location_address qr_location))
             (utcnow env) in
         logger INFO ("Supervisor " +:+ CurrentSupervisor.email current_supervisor
                        +:+ " generated QR code for "
                        +:+ QRCodeGenerateRequest.qrId qr_request) ;;
         ret response
       end
     end)
    (fun e =>
       match e with
       | HTTPException _ _ => raise e
       | _ =>
         logger ERROR ("Generate QR code error: " +:+ str_exception e) ;;
         raise (HTTPException HTTP_500_INTERNAL_SERVER_ERROR "Failed to generate QR code")
       end).

(** The loop of [bulk_generate_qr_codes]: one code per location, appended to
    [qr_codes] in turn. *)
Fixpoint bulk_generate_loop (render : string -> Z -> outcome string)
    (location_address : QRLocationDoc.t -> option string) (size : Z)
    (qr_codes : list BulkQRCodes.code) (qr_locations : list QRLocationDoc.t)
  : M (list BulkQRCodes.code) :=
  match qr_locations with
  | [] => ret qr_codes
  | qr_location :: rest =>
    img_base64 <- qr_png_base64 render (QRLocationDoc.qrId qr_location) size ;;
    let qr_code_data :=
      BulkQRCodes.mk_code
        (QRLocationDoc.qrId qr_location)
        (QRLocationDoc.locationName qr_location)
        ("data:image/png;base64," +:+ img_base64)
        (Coordinates.mk
           (Coordinates.latitude (QRLocationDoc.coordinates qr_location))
           (Coordinates.longitude (QRLocationDoc.coordinates qr_location)))
        (default "" (location_address qr_location)) in
    bulk_generate_loop render location_address size (qr_codes ++ [qr_code_data]) rest
  end.

(** The route declares [5 <= size <= 50]; its [format] parameter is not read
    by the handler. *)
Definition bulk_generate_qr_codes (env : Env) (render : string -> Z -> outcome string)
    (location_address : QRLocationDoc.t -> option string)
    (current_supervisor : CurrentSupervisor.t) (size : Z) (format : string)
  : M BulkQRCodes.t :=
  try_except
    (qr_locations_collection <- get_qr_locations_collection ;;
     match qr_locations_collection with
     | None =>
       raise (HTTPException HTTP_503_SERVICE_UNAVAILABLE "Database not available")
     | Some qr_locations_collection =>
       let supervisor_id := CurrentSupervisor.supervisor_id current_supervisor in
       let qr_locations :=
         merge_sort name_not_after
           (List.filter
              (fun d => String.eqb (QRLocationDoc.supervisorId d) supervisor_id
                        && Bool.eqb (QRLocationDoc.isActive d) true)
              qr_locations_collection) in
       match qr_locations with
       | [] => raise (HTTPException HTTP_404_NOT_FOUND "No active QR locations found")
       | _ :: _ =>
         qr_codes <- bulk_generate_loop render location_address size [] qr_locations ;;
         let response :=
           BulkQRCodes.mk
             (CurrentSupervisor.areaCity current_supervisor)
             (length qr_codes)
             qr_codes
             (utcnow env)
             size in
         logger INFO ("Supervisor " +:+ CurrentSupervisor.email current_supervisor
                        +:+ " generated " +:+ pretty (length qr_codes) +:+ " QR codes") ;;
         ret response
       end
     end)
    (fun e =>
       match e with
       | HTTPException _ _ => raise e
       | _ =>
         logger ERROR ("Bulk generate QR codes error: " +:+ str_exception e) ;;
         raise (HTTPException HTTP_500_INTERNAL_SERVER_ERROR "Failed to generate QR codes")
       end).


(** *** Names for the statements about these handlers *)

(** The scan events of one guard, in the order of the collection. *)
Definition events_of (w : World) (guard_id : ObjectId)
  : list (ObjectId * ScanEventDoc.t) :=
  List.filter (fun e => String.eqb (ScanEventDoc.guardId e.2) guard_id) (scan_events w).

(** The active locations of one supervisor, in the order of the collection. *)
Definition active_locations (w : World) (supervisor_id : ObjectId)
  : list QRLocationDoc.t :=
  List.filter (fun d => String.eqb (QRLocationDoc.supervisorId d) supervisor_id
                        && Bool.eqb (QRLocationDoc.isActive d) true)
              (qr_locations w).

(** Some location document with this QR identifier is active, whoever its
    supervisor is. *)
Definition active_somewhere (w : World) (qr_id : string) : Prop :=
  exists d : QRLocationDoc.t,
    In d (qr_locations w)
    /\ QRLocationDoc.qrId d = qr_id /\ QRLocationDoc.isActive d = true.

(** The entry of the scan history for a stored event. *)
Definition scan_event_response (current_guard : CurrentGuard.t)
    (event : ObjectId * ScanEventDoc.t) : ScanEventResponse.t :=
  {| ScanEventResponse.id := event.1;
     ScanEventResponse.guardId := ScanEventDoc.guardId event.2;
     ScanEventResponse.guardName := CurrentGuard.name current_guard;
     ScanEventResponse.guardEmail := CurrentGuard.email current_guard;
     ScanEventResponse.qrLocationId := ScanEventDoc.qrLocationId event.2;
     ScanEventResponse.locationName := ScanEventDoc.locationName event.2;
     ScanEventResponse.coordinates :=
       Coordinates.mk (Coordinates.latitude (ScanEventDoc.coordinates event.2))
                      (Coordinates.longitude (ScanEventDoc.coordinates event.2));
     ScanEventResponse.address := ScanEventDoc.address event.2;
     ScanEventResponse.areaCity := ScanEventDoc.areaCity event.2;
     ScanEventResponse.isWithinRadius := ScanEventDoc.isWithinRadius event.2;
     ScanEventResponse.distanceFromQR := ScanEventDoc.distanceFromQR event.2;
     ScanEventResponse.scannedAt := ScanEventDoc.scannedAt event.2 |}.

(** The entry of the list of available locations for a location document. *)
Definition available_location (location_address : QRLocationDoc.t -> option string)
    (qr : QRLocationDoc.t) : AvailableLocations.location :=
  {| AvailableLocations.qr_id := QRLocationDoc.qrId qr;
     AvailableLocations.location_name := QRLocationDoc.locationName qr;
     AvailableLocations.coordinates :=
       Coordinates.mk (Coordinates.latitude (QRLocationDoc.coordinates qr))
                      (Coordinates.longitude (QRLocationDoc.coordinates qr));
     AvailableLocations.address := default "" (location_address qr);
     AvailableLocations.area_city := QRLocationDoc.areaCity qr |}.

(** The supervisor document that the scan handlers look up before they
    mirror a scan to the spreadsheet. *)
Definition supervisor_of (w : World) (supervisor_id : ObjectId)
  : option SupervisorDoc.t :=
  find_one (fun s => String.eqb (SupervisorDoc._id s) supervisor_id) (supervisors w).

(** The spreadsheet row of an authenticated scan of location [loc]. *)
Definition guard_sheet_row (env : Env) (req : QRScanRequest.t) (g : CurrentGuard.t)
    (loc : QRLocationDoc.t) : ScanEventData.t :=
  let c := QRScanRequest.coordinates req in
  {| ScanEventData.guard_name := CurrentGuard.name g;
     ScanEventData.guard_email := CurrentGuard.email g;
     ScanEventData.location_name := QRLocationDoc.locationName loc;
     ScanEventData.qr_id := QRScanRequest.qrId req;
     ScanEventData.scanned_at := utcnow env;
     ScanEventData.coordinates := c;
     ScanEventData.address := address_at env c;
     ScanEventData.is_within_radius :=
       Qle_bool (distance_to env c loc) (WITHIN_RADIUS_METERS env);
     ScanEventData.distance_from_qr := Py.round (distance_to env c loc) 2;
     ScanEventData.notes := QRScanRequest.notes req |}.

(** The spreadsheet row of a public scan by the user [guard_user]. *)
Definition public_sheet_row (env : Env) (req : QRCodePublicScanRequest.t)
    (guard_user : UserDoc.t) (loc : QRLocationDoc.t) : ScanEventData.t :=
  let c := QRCodePublicScanRequest.coordinates req in
  {| ScanEventData.guard_name := UserDoc.name guard_user;
     ScanEventData.guard_email := UserDoc.email guard_user;
     ScanEventData.location_name := QRLocationDoc.locationName loc;
     ScanEventData.qr_id := QRCodePublicScanRequest.qrId req;
     ScanEventData.scanned_at := utcnow env;
     ScanEventData.coordinates := c;
     ScanEventData.address := address_at env c;
     ScanEventData.is_within_radius :=
       Qle_bool (distance_to env c loc) (WITHIN_RADIUS_METERS env);
     ScanEventData.distance_from_qr := Py.round (distance_to env c loc) 2;
     ScanEventData.notes := QRCodePublicScanRequest.notes req |}.

(** The rows that the spreadsheets hold after a scan was stored: one more
    when the supervisor has a sheet and the spreadsheet service accepts the
    row, and the same as before otherwise. *)
Definition mirrored (env : Env) (w : World) (supervisor_id : ObjectId)
    (row : ScanEventData.t) : list (string * string * ScanEventData.t) :=
  match supervisor_of w supervisor_id with
  | Some supervisor =>
    match SupervisorDoc.sheetId supervisor with
    | Some sheet_id =>
      if Py.truthy_str sheet_id then
        match append_scan_to_sheet env sheet_id (SupervisorDoc.areaCity supervisor) row with
        | Done _ => (sheets w ++ [(sheet_id, SupervisorDoc.areaCity supervisor, row)])%list
        | Failed _ => sheets w
        end
      else sheets w
    | None => sheets w
    end
  | None => sheets w
  end.

(** Newest first. *)
(** The scan events that a query of the scan history matches. *)
Definition matching_events (w : World) (guard_id : ObjectId)
    (start_date end_date : option datetime) (qr_id : option string)
    (within_radius_only : option bool) : list (ObjectId * ScanEventDoc.t) :=
  List.filter (scan_history_filter guard_id start_date end_date qr_id within_radius_only)
    (scan_events w).

(** No two of the events have the same stored time. *)
Definition distinct_scan_times (evs : list (ObjectId * ScanEventDoc.t)) : Prop :=
  NoDup (map (fun e => ScanEventDoc.scannedAt e.2) evs).

(** An answer that the store may give to a sorted query: the matching
    documents, each once, in an order that respects the sort key.  Where two
    documents have the same key, either may come first. *)
Definition sorted_answer {A : Type} (R : relation A) (matching answer : list A) : Prop :=
  Permutation answer matching /\ StronglySorted R answer.

Definition newest_first (xs : list datetime) : Prop :=
  StronglySorted (fun a b : datetime => (b <= a)%Z) xs.

(** Oldest first. *)
Definition oldest_first (xs : list datetime) : Prop :=
  StronglySorted (fun a b : datetime => (a <= b)%Z) xs.

(** ** A patrol history for the examples *)

Module Patrol.

(** The sample environment with another clock reading and another identifier
    for the event it stores. *)
Definition env_at (t : datetime) (oid : ObjectId) : Env :=
  {| WITHIN_RADIUS_METERS := 50;
     geodesic_meters := Sample.geodesic;
     reverse_geocode_enhanced :=
       fun _ _ => Done (Some {[ "formatted_address" := "MG Road, Bengaluru" ]});
     append_scan_to_sheet := fun _ _ _ => Done tt;
     insert_outcome := fun _ => Done oid;
     utcnow := t |}.

Definition hour : Z := 3600000000.

(** A second guard of the same supervisor. *)
Definition ravi : CurrentGuard.t :=
  CurrentGuard.mk "64b7f0c2a1d3e4f5a6b7c8f3" Sample.supervisor_oid "Ravi"
    "ravi@example.com".

(** Asha scanned the main gate on Sunday 1 November (far), on Monday 2
    November (near), and twice on Tuesday 3 November 2026 (near at 08:00, far
    at 11:00); Ravi scanned it on Tuesday at 10:00. *)
Definition calls : list call :=
  [GuardScan (env_at (Sample.clock - 50 * hour)%Z "64b7f0c2a1d3e4f5a6b7ca01")
     Sample.scan_far Sample.current_guard;
   GuardScan (env_at (Sample.clock - 27 * hour)%Z "64b7f0c2a1d3e4f5a6b7ca02")
     Sample.scan_near Sample.current_guard;
   GuardScan (env_at (Sample.clock - 4 * hour)%Z "64b7f0c2a1d3e4f5a6b7ca03")
     Sample.scan_near Sample.current_guard;
   GuardScan (env_at (Sample.clock - 2 * hour)%Z "64b7f0c2a1d3e4f5a6b7ca04")
     Sample.scan_near ravi;
   GuardScan (env_at (Sample.clock - 1 * hour)%Z "64b7f0c2a1d3e4f5a6b7ca05")
     Sample.scan_far Sample.current_guard].

Definition world : World := run calls Sample.world.

(** The sample world without a database connection. *)
Definition offline : World :=
  mkWorld false (users Sample.world) (guards Sample.world) (supervisors Sample.world)
          (qr_locations Sample.world) (scan_events Sample.world) (sheets Sample.world)
          (log Sample.world).

Definition session : GuardSession.t :=
  GuardSession.mk Sample.current_guard "Bengaluru" "night".

(** Only the main gate has an address on file. *)
Definition location_address (d : QRLocationDoc.t) : option string :=
  if String.eqb (QRLocationDoc.qrId d) "QR-MAIN-GATE" then Some "1 MG Road" else None.

(** Exact arithmetic, which rounds nothing. *)
Definition exact (x : Q) : Q := x.

Definition supervisor : CurrentSupervisor.t :=
  CurrentSupervisor.mk Sample.supervisor_oid "meera@example.com" "Bengaluru".

(** A stand-in for the qrcode library: the text of the data and of the box
    size in place of the image, and a refusal of box sizes below 1. *)
Definition render (data : string) (box_size : Z) : outcome string :=
  if (box_size <? 1)%Z then Failed "Invalid box size"
  else Done ("QR(" +:+ data +:+ "," +:+ pretty box_size +:+ ")").

End Patrol.

(** ** Tactics *)

(** Case analysis on whatever a collaborator answered. *)
Ltac collaborator_cases :=
  repeat match goal with
    | |- context [match reverse_geocode_enhanced ?e ?a ?b with _ => _ end] =>
      destruct (reverse_geocode_enhanced e a b) as [[?|]|?]; cbn
    | |- context [if truthy_dict ?d then _ else _] => destruct (truthy_dict d); cbn
    | |- context [match insert_outcome ?e ?d with _ => _ end] =>
      destruct (insert_outcome e d) eqn:?; cbn
    | |- context [match find_one ?f ?l with _ => _ end] => destruct (find_one f l); cbn
    | |- context [match SupervisorDoc.sheetId ?s with _ => _ end] =>
      destruct (SupervisorDoc.sheetId s); cbn
    | |- context [if Py.truthy_str ?s then _ else _] => destruct (Py.truthy_str s); cbn
    | |- context [match append_scan_to_sheet ?e ?a ?b ?c with _ => _ end] =>
      destruct (append_scan_to_sheet e a b c); cbn
    end.

(** Two answers to the same lookup are the same answer. *)
Ltac same_answers :=
  repeat match goal with
    | H1 : ?x = Some _, H2 : ?x = Some _ |- _ => rewrite H1 in H2; simplify_eq
    | H1 : ?x = Done _, H2 : ?x = Done _ |- _ => rewrite H1 in H2; simplify_eq
    | H1 : ?x = Failed _, H2 : ?x = Failed _ |- _ => rewrite H1 in H2; simplify_eq
    end.

Ltac unfold_handler :=
  unfold try_except, bind, get_qr_locations_collection, get_scan_events_collection,
    get_supervisors_collection, get_guards_collection, get_users_collection,
    get_collection, geodesic, tomtom_reverse_geocode, insert_one,
    excel_append_scan_to_sheet, logger, ret, raise.

(** Running the dashboard and the patrol summary, given what [connected]
    is. *)
Ltac run_dashboard Hc :=
  unfold get_guard_dashboard, datetime_add; unfold_handler; rewrite ?Hc; cbn.

Ltac run_summary Hc :=
  unfold get_patrol_summary, datetime_add; unfold_handler; rewrite ?Hc; cbn.

(** ** The handlers end as the relations say *)

Lemma latitude_check c :
  Qle_bool (-90) (Coordinates.latitude c) && Qle_bool (Coordinates.latitude c) 90 = true
  <-> latitude_in_range c.
Proof.
  unfold latitude_in_range. rewrite andb_true_iff, !Qle_bool_iff. reflexivity.
Qed.

Lemma scan_qr_code_ends env req g w r w' :
  scan_qr_code env req g w = (r, w') -> guard_scan_ends env req g w r w'.
Proof.
  intros E.
  replace r with (scan_qr_code env req g w).1 by (rewrite E; reflexivity).
  replace w' with (scan_qr_code env req g w).2 by (rewrite E; reflexivity).
  clear E r w'. unfold scan_qr_code. unfold_handler.
  destruct (connected w) eqn:Hc; cbn; [|by apply guard_unavailable].
  destruct (resolve_active_location w (QRScanRequest.qrId req)
              (CurrentGuard.supervisor_id g)) as [loc|] eqn:Hl;
    pose proof Hl as Hl'; unfold resolve_active_location in Hl'; rewrite Hl'; cbn;
    [|by apply guard_not_found].
  destruct (Qle_bool (-90) _ && Qle_bool _ 90) eqn:Hlat; cbn;
    [apply latitude_check in Hlat
    |apply guard_no_distance with (loc := loc); [assumption ..|];
     rewrite <- latitude_check, Hlat; discriminate].
  remember (guard_scan_event env req g loc) as doc eqn:Hdoc.
  remember (guard_verdict env req loc) as verdict eqn:Hres.
  pose proof Hdoc as Hdoc0. pose proof Hres as Hres0.
  unfold guard_scan_event, guard_verdict, address_at, distance_to,
    confirmation_message, warning_message in Hdoc, Hres.
  destruct (reverse_geocode_enhanced env _ _) as [[d|]|gtext] eqn:Hg; cbn;
    try destruct (truthy_dict d); cbn; cbn in Hdoc, Hres; rewrite <- Hdoc;
    (destruct (insert_outcome env doc) as [oid|itext] eqn:Hi; cbn;
     collaborator_cases;
     match goal with
     | |- guard_scan_ends _ _ _ _ (Return ?v) _ =>
       replace v with (verdict oid) by (rewrite Hres; reflexivity);
       rewrite Hres0; apply guard_recorded; rewrite <- ?Hdoc0;
       first [ assumption | reflexivity | repeat split ]
     | |- guard_scan_ends _ _ _ _ (Raise _) _ =>
       apply guard_store_failed with (loc := loc) (text := itext); rewrite <- ?Hdoc0;
       first [ assumption | reflexivity | repeat split ]
     end).
Qed.

Lemma public_scan_qr_code_ends env req w r w' :
  public_scan_qr_code env req w = (r, w') -> public_scan_ends env req w r w'.
Proof.
  intros E.
  replace r with (public_scan_qr_code env req w).1 by (rewrite E; reflexivity).
  replace w' with (public_scan_qr_code env req w).2 by (rewrite E; reflexivity).
  clear E r w'. unfold public_scan_qr_code. unfold_handler.
  destruct (connected w) eqn:Hc; cbn; [|by apply public_unavailable].
  pose proof (eq_refl (resolve_guard w (QRCodePublicScanRequest.guardEmail req))) as Hg0.
  unfold resolve_guard in Hg0 at 2.
  destruct (find_one _ (users w)) as [guard_user|];
    [|by eapply public_no_guard; eauto].
  destruct (find_one _ (guards w)) as [guard|];
    [|by eapply public_no_guard; eauto].
  destruct (resolve_active_location w (QRCodePublicScanRequest.qrId req)
              (GuardDoc.supervisorId guard)) as [loc|] eqn:Hl;
    pose proof Hl as Hl'; unfold resolve_active_location in Hl'; rewrite Hl'; cbn;
    [|by eapply public_not_found; eauto].
  destruct (Qle_bool (-90) _ && Qle_bool _ 90) eqn:Hlat; cbn;
    [apply latitude_check in Hlat
    |eapply public_no_distance with (loc := loc); [eassumption ..|];
     rewrite <- latitude_check, Hlat; discriminate].
  remember (public_scan_event env req guard loc) as doc eqn:Hdoc.
  remember (public_verdict env req guard_user loc) as verdict eqn:Hres.
  pose proof Hdoc as Hdoc0. pose proof Hres as Hres0.
  unfold public_scan_event, public_verdict, address_at, distance_to,
    confirmation_message, warning_message in Hdoc, Hres.
  destruct (reverse_geocode_enhanced env _ _) as [[d|]|gtext] eqn:Hg; cbn;
    try destruct (truthy_dict d); cbn; cbn in Hdoc, Hres; rewrite <- Hdoc;
    (destruct (insert_outcome env doc) as [oid|itext] eqn:Hi; cbn;
     collaborator_cases;
     match goal with
     | |- public_scan_ends _ _ _ (Return ?v) _ =>
       replace v with (verdict oid) by (rewrite Hres; reflexivity);
       rewrite Hres0; eapply public_recorded; rewrite <- ?Hdoc0;
       first [ eassumption | reflexivity | repeat split ]
     | |- public_scan_ends _ _ _ (Raise _) _ =>
       eapply public_store_failed with (loc := loc) (text := itext); rewrite <- ?Hdoc0;
       first [ eassumption | reflexivity | repeat split ]
     end).
Qed.

(** ** Examples: the handlers on the sample deployment *)

Example round_two_decimals : Py.round 57.348 2 = 57.35%Q.
Proof. vm_compute. reflexivity. Qed.

Example scan_far_example :
  exists w',
    scan_qr_code Sample.env Sample.scan_far Sample.current_guard Sample.world
    = (Return (QRScanResponse.mk Sample.new_oid "QR-MAIN-GATE" "Main gate" false 61.98
                 "MG Road, Bengaluru" Sample.clock
                 "Warning: You are 62.0m away from the QR location"), w')
    /\ length (scan_events w') = 1%nat.
Proof. eexists. split; vm_compute; reflexivity. Qed.

(** ** The lookup, in terms of the collection *)

Lemma resolve_active_location_Some w qr_id supervisor_id loc :
  resolve_active_location w qr_id supervisor_id = Some loc ->
  In loc (qr_locations w)
  /\ QRLocationDoc.qrId loc = qr_id
  /\ QRLocationDoc.supervisorId loc = supervisor_id
  /\ QRLocationDoc.isActive loc = true.
Proof.
  unfold resolve_active_location, find_one. intros H.
  apply find_some in H as [Hin Hf].
  apply andb_prop in Hf as [Hf Hact]. apply andb_prop in Hf as [Hq Hs].
  apply String.eqb_eq in Hq, Hs. apply Bool.eqb_prop in Hact. auto.
Qed.

Lemma resolve_active_location_None w qr_id supervisor_id :
  resolve_active_location w qr_id supervisor_id = None <-> unresolved w qr_id supervisor_id.
Proof.
  unfold resolve_active_location, find_one, unresolved. split.
  - intros H d Hin (Hq & Hs & Hact).
    pose proof (find_none _ _ H d Hin) as Hf. cbn in Hf.
    rewrite Hq, Hs, Hact, !String.eqb_refl in Hf. discriminate.
  - intros H. destruct (find _ _) as [d|] eqn:Hf; [|reflexivity].
    apply find_some in Hf as [Hin Hf]. exfalso. apply (H d Hin).
    apply andb_prop in Hf as [Hf Hact]. apply andb_prop in Hf as [Hq Hs].
    apply String.eqb_eq in Hq, Hs. apply Bool.eqb_prop in Hact. auto.
Qed.

(** ** Each way of ending, from its conditions *)

Lemma scan_qr_code_returns env req g w v w' :
  scan_qr_code env req g w = (Return v, w') ->
  exists loc oid,
    connected w = true
    /\ resolve_active_location w (QRScanRequest.qrId req) (CurrentGuard.supervisor_id g)
       = Some loc
    /\ insert_outcome env (guard_scan_event env req g loc) = Done oid
    /\ v = guard_verdict env req loc oid
    /\ scan_events w'
       = (scan_events w ++ [(oid, bson_scan_event (guard_scan_event env req g loc))])%list.
Proof.
  intros E. apply scan_qr_code_ends in E.
  inversion E; subst. eauto 10.
Qed.

Lemma scan_qr_code_recorded env req g w loc oid :
  connected w = true ->
  latitude_in_range (QRScanRequest.coordinates req) ->
  resolve_active_location w (QRScanRequest.qrId req) (CurrentGuard.supervisor_id g)
    = Some loc ->
  insert_outcome env (guard_scan_event env req g loc) = Done oid ->
  exists w',
    scan_qr_code env req g w = (Return (guard_verdict env req loc oid), w')
    /\ scan_events w'
       = (scan_events w ++ [(oid, bson_scan_event (guard_scan_event env req g loc))])%list.
Proof.
  intros Hc Hlat Hl Hi.
  destruct (scan_qr_code env req g w) as [r w1] eqn:H. apply scan_qr_code_ends in H.
  inversion H; subst; try congruence; try contradiction.
  same_answers. eauto.
Qed.

Lemma scan_qr_code_not_found env req g w :
  connected w = true ->
  resolve_active_location w (QRScanRequest.qrId req) (CurrentGuard.supervisor_id g)
    = None ->
  scan_qr_code env req g w
  = (Raise (HTTPException HTTP_404_NOT_FOUND "QR code not found or inactive"), w).
Proof.
  intros Hc Hl.
  destruct (scan_qr_code env req g w) as [r w1] eqn:H. apply scan_qr_code_ends in H.
  inversion H; subst; congruence.
Qed.

Lemma scan_qr_code_store_failed env req g w loc text :
  connected w = true ->
  resolve_active_location w (QRScanRequest.qrId req) (CurrentGuard.supervisor_id g)
    = Some loc ->
  insert_outcome env (guard_scan_event env req g loc) = Failed text ->
  exists w',
    scan_qr_code env req g w
    = (Raise (HTTPException HTTP_500_INTERNAL_SERVER_ERROR "Failed to process QR scan"), w')
    /\ scan_events w' = scan_events w /\ sheets w' = sheets w.
Proof.
  intros Hc Hl Hi.
  destruct (scan_qr_code env req g w) as [r w1] eqn:H. apply scan_qr_code_ends in H.
  inversion H; subst; try congruence; same_answers; try congruence.
  - eexists. split; [reflexivity|]. split; reflexivity.
  - eauto.
Qed.

Lemma public_scan_qr_code_returns env req w v w' :
  public_scan_qr_code env req w = (Return v, w') ->
  exists guard_user guard loc oid,
    connected w = true
    /\ resolve_guard w (QRCodePublicScanRequest.guardEmail req) = Some (guard_user, guard)
    /\ resolve_active_location w (QRCodePublicScanRequest.qrId req)
         (GuardDoc.supervisorId guard) = Some loc
    /\ insert_outcome env (public_scan_event env req guard loc) = Done oid
    /\ v = public_verdict env req guard_user loc oid
    /\ scan_events w'
       = (scan_events w
            ++ [(oid, bson_scan_event (public_scan_event env req guard loc))])%list.
Proof.
  intros E. apply public_scan_qr_code_ends in E.
  inversion E; subst. eauto 12.
Qed.

Lemma public_scan_qr_code_recorded env req w guard_user guard loc oid :
  connected w = true ->
  latitude_in_range (QRCodePublicScanRequest.coordinates req) ->
  resolve_guard w (QRCodePublicScanRequest.guardEmail req) = Some (guard_user, guard) ->
  resolve_active_location w (QRCodePublicScanRequest.qrId req)
    (GuardDoc.supervisorId guard) = Some loc ->
  insert_outcome env (public_scan_event env req guard loc) = Done oid ->
  exists w',
    public_scan_qr_code env req w
    = (Return (public_verdict env req guard_user loc oid), w')
    /\ scan_events w'
       = (scan_events w
            ++ [(oid, bson_scan_event (public_scan_event env req guard loc))])%list.
Proof.
  intros Hc Hlat Hg Hl Hi.
  destruct (public_scan_qr_code env req w) as [r w1] eqn:H.
  apply public_scan_qr_code_ends in H.
  inversion H; subst; try congruence; try contradiction; same_answers; try congruence.
  eauto.
Qed.

Lemma public_scan_qr_code_not_found env req w :
  connected w = true ->
  (forall guard_user guard,
     resolve_guard w (QRCodePublicScanRequest.guardEmail req) = Some (guard_user, guard) ->
     resolve_active_location w (QRCodePublicScanRequest.qrId req)
       (GuardDoc.supervisorId guard) = None) ->
  exists detail,
    public_scan_qr_code env req w = (Raise (HTTPException HTTP_404_NOT_FOUND detail), w).
Proof.
  intros Hc Hl.
  destruct (public_scan_qr_code env req w) as [r w1] eqn:H.
  apply public_scan_qr_code_ends in H.
  inversion H; subst; try congruence; eauto;
    match goal with
    | Hx : resolve_guard _ _ = Some _ |- _ => apply Hl in Hx; congruence
    end.
Qed.

Lemma public_scan_qr_code_store_failed env req w guard_user guard loc text :
  connected w = true ->
  resolve_guard w (QRCodePublicScanRequest.guardEmail req) = Some (guard_user, guard) ->
  resolve_active_location w (QRCodePublicScanRequest.qrId req)
    (GuardDoc.supervisorId guard) = Some loc ->
  insert_outcome env (public_scan_event env req guard loc) = Failed text ->
  exists w',
    public_scan_qr_code env req w
    = (Raise (HTTPException HTTP_500_INTERNAL_SERVER_ERROR "Failed to process QR scan"), w')
    /\ scan_events w' = scan_events w /\ sheets w' = sheets w.
Proof.
  intros Hc Hg Hl Hi.
  destruct (public_scan_qr_code env req w) as [r w1] eqn:H.
  apply public_scan_qr_code_ends in H.
  inversion H; subst; try congruence; same_answers; try congruence.
  - eexists. split; [reflexivity|]. split; reflexivity.
  - eauto.
Qed.

(** ** The geofence verdict *)

(** C1. Whenever a scan returns a verdict, the location it resolved is
    active and owned by the actor's supervisor, and the verdict's
    [isWithinRadius] flag is true exactly when the unrounded geodesic
    distance from the reported to the registered coordinates is at most
    [WITHIN_RADIUS_METERS]; a scan at exactly that distance is within the
    radius; the two-decimal rounding is applied to the distance that is
    returned, not to the one that is compared.  This holds for the
    authenticated and for the public operation. *)
Theorem within_radius_iff_unrounded_distance_le_threshold (env : Env) (w : World) :
  (forall req g v w',
     scan_qr_code env req g w = (Return v, w') ->
     exists loc,
       resolve_active_location w (QRScanRequest.qrId req) (CurrentGuard.supervisor_id g)
         = Some loc
       /\ (QRScanResponse.isWithinRadius v = true
           <-> (distance_to env (QRScanRequest.coordinates req) loc
                <= WITHIN_RADIUS_METERS env)%Q)
       /\ ((distance_to env (QRScanRequest.coordinates req) loc
            == WITHIN_RADIUS_METERS env)%Q
           -> QRScanResponse.isWithinRadius v = true)
       /\ QRScanResponse.distanceFromQR v
          = Py.round (distance_to env (QRScanRequest.coordinates req) loc) 2)
  /\
  (forall req v w',
     public_scan_qr_code env req w = (Return v, w') ->
     exists guard_user guard loc,
       resolve_guard w (QRCodePublicScanRequest.guardEmail req) = Some (guard_user, guard)
       /\ resolve_active_location w (QRCodePublicScanRequest.qrId req)
            (GuardDoc.supervisorId guard) = Some loc
       /\ (QRCodePublicScanResponse.isWithinRadius v = true
           <-> (distance_to env (QRCodePublicScanRequest.coordinates req) loc
                <= WITHIN_RADIUS_METERS env)%Q)
       /\ ((distance_to env (QRCodePublicScanRequest.coordinates req) loc
            == WITHIN_RADIUS_METERS env)%Q
           -> QRCodePublicScanResponse.isWithinRadius v = true)
       /\ QRCodePublicScanResponse.distanceFromQR v
          = Py.round (distance_to env (QRCodePublicScanRequest.coordinates req) loc) 2).
Proof.
  split.
  - intros req g v w' E.
    apply scan_qr_code_returns in E as (loc & oid & _ & Hl & _ & -> & _).
    exists loc. split; [exact Hl|]. cbn. split; [apply Qle_bool_iff|].
    split; [|reflexivity].
    intros Heq. apply Qle_bool_iff. rewrite Heq. apply Qle_refl.
  - intros req v w' E.
    apply public_scan_qr_code_returns in E as (u & gd & loc & oid & _ & Hg & Hl & _ & -> & _).
    exists u, gd, loc. split; [exact Hg|]. split; [exact Hl|].
    cbn. split; [apply Qle_bool_iff|]. split; [|reflexivity].
    intros Heq. apply Qle_bool_iff. rewrite Heq. apply Qle_refl.
Qed.

(** The theorem at a scan of the main gate from exactly 50 m, by the guard
    and through the public operation: both are within the radius. *)
Lemma within_radius_iff_unrounded_distance_le_threshold_witness :
  (scan_qr_code Sample.env Sample.scan_on_radius Sample.current_guard Sample.world
   = (Return (guard_verdict Sample.env Sample.scan_on_radius Sample.main_gate
                Sample.new_oid),
      (scan_qr_code Sample.env Sample.scan_on_radius Sample.current_guard
         Sample.world).2)
   /\ QRScanResponse.isWithinRadius
        (guard_verdict Sample.env Sample.scan_on_radius Sample.main_gate Sample.new_oid)
      = true)
  /\
  (public_scan_qr_code Sample.env Sample.public_scan_on_radius Sample.world
   = (Return (public_verdict Sample.env Sample.public_scan_on_radius Sample.guard_user
                Sample.main_gate Sample.new_oid),
      (public_scan_qr_code Sample.env Sample.public_scan_on_radius Sample.world).2)
   /\ QRCodePublicScanResponse.isWithinRadius
        (public_verdict Sample.env Sample.public_scan_on_radius Sample.guard_user
           Sample.main_gate Sample.new_oid)
      = true).
Proof.
  assert (Eg : scan_qr_code Sample.env Sample.scan_on_radius Sample.current_guard
                 Sample.world
               = (Return (guard_verdict Sample.env Sample.scan_on_radius Sample.main_gate
                            Sample.new_oid),
                  (scan_qr_code Sample.env Sample.scan_on_radius Sample.current_guard
                     Sample.world).2))
    by (vm_compute; reflexivity).
  assert (Ep : public_scan_qr_code Sample.env Sample.public_scan_on_radius Sample.world
               = (Return (public_verdict Sample.env Sample.public_scan_on_radius
                            Sample.guard_user Sample.main_gate Sample.new_oid),
                  (public_scan_qr_code Sample.env Sample.public_scan_on_radius
                     Sample.world).2))
    by (vm_compute; reflexivity).
  split; (split; [assumption|]).
  - destruct (proj1 (within_radius_iff_unrounded_distance_le_threshold
                       Sample.env Sample.world) _ _ _ _ Eg)
      as (loc & Hl & _ & Hb & _).
    apply Hb. vm_compute in Hl. injection Hl as <-. reflexivity.
  - destruct (proj2 (within_radius_iff_unrounded_distance_le_threshold
                       Sample.env Sample.world) _ _ _ Ep)
      as (u & gd & loc & Hg & Hl & _ & Hb & _).
    apply Hb. vm_compute in Hg. injection Hg as <- <-.
    vm_compute in Hl. injection Hl as <-. reflexivity.
Defined.

(** A scan 4 mm beyond the radius is outside it, although the distance that
    is returned rounds to 50.0. *)
Example scan_just_outside_example :
  exists v w',
    scan_qr_code Sample.env Sample.scan_just_outside Sample.current_guard Sample.world
    = (Return v, w')
    /\ QRScanResponse.isWithinRadius v = false
    /\ QRScanResponse.distanceFromQR v = 50.00%Q.
Proof. eexists; eexists. split; [vm_compute; reflexivity|]. split; reflexivity. Qed.

(** ** Recording a scan *)

Lemma valid_coordinates_latitude c :
  valid_coordinates c = true -> latitude_in_range c.
Proof.
  unfold valid_coordinates, latitude_in_range. intros H.
  apply andb_prop in H as [H _]. apply andb_prop in H as [H _].
  apply andb_prop in H as [H1 H2]. apply Qle_bool_iff in H1, H2. auto.
Qed.

(** C2. For valid reported coordinates and a location that resolves as
    active under the actor's supervisor, a scan returns a verdict (with
    [success] true on the public operation) and appends exactly one scan
    event, provided the database is connected and the event store accepts
    the write.  The distance plays no part in that: beyond the radius the
    event is recorded all the same, with [isWithinRadius] false. *)
Theorem scan_of_active_location_recorded_once (env : Env) (w : World) :
  connected w = true ->
  (forall req g loc oid,
     valid_coordinates (QRScanRequest.coordinates req) = true ->
     resolve_active_location w (QRScanRequest.qrId req) (CurrentGuard.supervisor_id g)
       = Some loc ->
     insert_outcome env (guard_scan_event env req g loc) = Done oid ->
     exists v w' e,
       scan_qr_code env req g w = (Return v, w')
       /\ QRScanResponse.scanEventId v = oid
       /\ scan_events w' = (scan_events w ++ [(oid, e)])%list
       /\ ScanEventDoc.isWithinRadius e = QRScanResponse.isWithinRadius v
       /\ ((WITHIN_RADIUS_METERS env
            < distance_to env (QRScanRequest.coordinates req) loc)%Q ->
           ScanEventDoc.isWithinRadius e = false))
  /\
  (forall req guard_user guard loc oid,
     valid_coordinates (QRCodePublicScanRequest.coordinates req) = true ->
     resolve_guard w (QRCodePublicScanRequest.guardEmail req) = Some (guard_user, guard) ->
     resolve_active_location w (QRCodePublicScanRequest.qrId req)
       (GuardDoc.supervisorId guard) = Some loc ->
     insert_outcome env (public_scan_event env req guard loc) = Done oid ->
     exists v w' e,
       public_scan_qr_code env req w = (Return v, w')
       /\ QRCodePublicScanResponse.success v = true
       /\ QRCodePublicScanResponse.scanEventId v = oid
       /\ scan_events w' = (scan_events w ++ [(oid, e)])%list
       /\ ScanEventDoc.isWithinRadius e = QRCodePublicScanResponse.isWithinRadius v
       /\ ((WITHIN_RADIUS_METERS env
            < distance_to env (QRCodePublicScanRequest.coordinates req) loc)%Q ->
           ScanEventDoc.isWithinRadius e = false)).
Proof.
  intros Hc. split.
  - intros req g loc oid Hv Hl Hi. apply valid_coordinates_latitude in Hv.
    destruct (scan_qr_code_recorded env req g w loc oid Hc Hv Hl Hi) as (w' & E & Hev).
    exists (guard_verdict env req loc oid), w',
           (bson_scan_event (guard_scan_event env req g loc)).
    repeat split; try assumption.
    intros Hlt. cbn. apply not_true_is_false. intros Hle.
    apply Qle_bool_iff in Hle. apply (Qlt_not_le _ _ Hlt Hle).
  - intros req u gd loc oid Hv Hg Hl Hi. apply valid_coordinates_latitude in Hv.
    destruct (public_scan_qr_code_recorded env req w u gd loc oid Hc Hv Hg Hl Hi)
      as (w' & E & Hev).
    exists (public_verdict env req u loc oid), w',
           (bson_scan_event (public_scan_event env req gd loc)).
    repeat split; try assumption.
    intros Hlt. cbn. apply not_true_is_false. intros Hle.
    apply Qle_bool_iff in Hle. apply (Qlt_not_le _ _ Hlt Hle).
Qed.

(** The theorem at the scan of the main gate from about 62 m away, by the
    guard and through the public operation. *)
Lemma scan_of_active_location_recorded_once_witness :
  connected Sample.world = true
  /\ (exists v w' e,
        scan_qr_code Sample.env Sample.scan_far Sample.current_guard Sample.world
        = (Return v, w')
        /\ QRScanResponse.scanEventId v = Sample.new_oid
        /\ scan_events w' = (scan_events Sample.world ++ [(Sample.new_oid, e)])%list
        /\ ScanEventDoc.isWithinRadius e = QRScanResponse.isWithinRadius v
        /\ ((WITHIN_RADIUS_METERS Sample.env
             < distance_to Sample.env (QRScanRequest.coordinates Sample.scan_far)
                 Sample.main_gate)%Q ->
            ScanEventDoc.isWithinRadius e = false))
  /\ (exists v w' e,
        public_scan_qr_code Sample.env Sample.public_scan_far Sample.world
        = (Return v, w')
        /\ QRCodePublicScanResponse.success v = true
        /\ QRCodePublicScanResponse.scanEventId v = Sample.new_oid
        /\ scan_events w' = (scan_events Sample.world ++ [(Sample.new_oid, e)])%list
        /\ ScanEventDoc.isWithinRadius e = QRCodePublicScanResponse.isWithinRadius v
        /\ ((WITHIN_RADIUS_METERS Sample.env
             < distance_to Sample.env
                 (QRCodePublicScanRequest.coordinates Sample.public_scan_far)
                 Sample.main_gate)%Q ->
            ScanEventDoc.isWithinRadius e = false)).
Proof.
  assert (Hc : connected Sample.world = true) by reflexivity.
  split; [exact Hc|]. split.
  - apply (proj1 (scan_of_active_location_recorded_once Sample.env Sample.world Hc)
             Sample.scan_far Sample.current_guard Sample.main_gate Sample.new_oid);
      vm_compute; reflexivity.
  - apply (proj2 (scan_of_active_location_recorded_once Sample.env Sample.world Hc)
             Sample.public_scan_far Sample.guard_user Sample.guard_profile
             Sample.main_gate Sample.new_oid);
      vm_compute; reflexivity.
Defined.

(** ** Rejections *)

(** C3. With the database connected, a scan whose QR identifier matches no
    location document that is active and owned by the actor's supervisor
    (none with that identifier, or only inactive ones, or only ones of other
    supervisors) fails with HTTP 404, and the world, the scan events
    included, is left as it was. *)
Theorem unresolved_location_not_found (env : Env) (w : World) :
  connected w = true ->
  (forall req g,
     unresolved w (QRScanRequest.qrId req) (CurrentGuard.supervisor_id g) ->
     scan_qr_code env req g w
     = (Raise (HTTPException HTTP_404_NOT_FOUND "QR code not found or inactive"), w))
  /\
  (forall req,
     (forall guard_user guard,
        resolve_guard w (QRCodePublicScanRequest.guardEmail req)
        = Some (guard_user, guard) ->
        unresolved w (QRCodePublicScanRequest.qrId req) (GuardDoc.supervisorId guard)) ->
     exists detail,
       public_scan_qr_code env req w
       = (Raise (HTTPException HTTP_404_NOT_FOUND detail), w)).
Proof.
  intros Hc. split.
  - intros req g Hu. apply scan_qr_code_not_found; [exact Hc|].
    apply resolve_active_location_None, Hu.
  - intros req Hu. apply public_scan_qr_code_not_found; [exact Hc|].
    intros u gd Hg. apply resolve_active_location_None, (Hu u gd Hg).
Qed.

(** The theorem at a scan of the deactivated depot by the guard, and at a
    public scan of the annex, which belongs to another supervisor. *)
Lemma unresolved_location_not_found_witness :
  connected Sample.world = true
  /\ (unresolved Sample.world "QR-DEPOT" Sample.supervisor_oid
      /\ scan_qr_code Sample.env (Sample.scan_at "QR-DEPOT" 12.9800 77.6000)
           Sample.current_guard Sample.world
         = (Raise (HTTPException HTTP_404_NOT_FOUND "QR code not found or inactive"),
            Sample.world))
  /\ (unresolved Sample.world "QR-ANNEX" Sample.supervisor_oid
      /\ exists detail,
          public_scan_qr_code Sample.env (Sample.public_scan_at "QR-ANNEX" 12.9900 77.6100)
            Sample.world
          = (Raise (HTTPException HTTP_404_NOT_FOUND detail), Sample.world)).
Proof.
  assert (Hc : connected Sample.world = true) by reflexivity.
  assert (Hd : unresolved Sample.world "QR-DEPOT" Sample.supervisor_oid)
    by (apply resolve_active_location_None; vm_compute; reflexivity).
  assert (Ha : unresolved Sample.world "QR-ANNEX" Sample.supervisor_oid)
    by (apply resolve_active_location_None; vm_compute; reflexivity).
  split; [exact Hc|]. split; (split; [assumption|]).
  - exact (proj1 (unresolved_location_not_found Sample.env Sample.world Hc)
             (Sample.scan_at "QR-DEPOT" 12.9800 77.6000) Sample.current_guard Hd).
  - apply (proj2 (unresolved_location_not_found Sample.env Sample.world Hc)
             (Sample.public_scan_at "QR-ANNEX" 12.9900 77.6100)).
    intros u gd Hg. vm_compute in Hg. injection Hg as _ <-. exact Ha.
Defined.

Lemma out_of_range_invalid c : out_of_range c -> valid_coordinates c = false.
Proof.
  unfold out_of_range, valid_coordinates. intros H.
  apply not_true_is_false. intros Hv.
  apply andb_prop in Hv as [Hv H4]. apply andb_prop in Hv as [Hv H3].
  apply andb_prop in Hv as [H1 H2].
  apply Qle_bool_iff in H1, H2, H3, H4.
  destruct H as [H|[H|[H|H]]]; eapply Qlt_not_le; eauto.
Qed.

(** C4. A request whose latitude is outside [-90, 90] or whose longitude is
    outside [-180, 180] fails with [InvalidArgument], whatever the
    collaborators would have answered, and leaves the whole world as it was:
    no scan event, no spreadsheet row, no log line. *)
Theorem out_of_range_coordinates_rejected (env : Env) (w : World) :
  (forall req g,
     out_of_range (QRScanRequest.coordinates req) ->
     exists detail,
       validate_and_record env req g w = (Raise (InvalidArgument detail), w))
  /\
  (forall req,
     out_of_range (QRCodePublicScanRequest.coordinates req) ->
     exists detail,
       public_validate_and_record env req w = (Raise (InvalidArgument detail), w)).
Proof.
  split.
  - intros req g H. unfold validate_and_record, valid_request.
    rewrite (out_of_range_invalid _ H), andb_false_r. eexists. reflexivity.
  - intros req H. unfold public_validate_and_record, valid_request.
    rewrite (out_of_range_invalid _ H), andb_false_r. eexists. reflexivity.
Qed.

(** The theorem at a latitude of 90.5 and at a longitude of -180.25. *)
Lemma out_of_range_coordinates_rejected_witness :
  (out_of_range (QRScanRequest.coordinates (Sample.scan_at "QR-MAIN-GATE" 90.5 77.5946))
   /\ exists detail,
       validate_and_record Sample.env (Sample.scan_at "QR-MAIN-GATE" 90.5 77.5946)
         Sample.current_guard Sample.world
       = (Raise (InvalidArgument detail), Sample.world))
  /\
  (out_of_range
     (QRCodePublicScanRequest.coordinates
        (Sample.public_scan_at "QR-MAIN-GATE" 12.9716 (-180.25)))
   /\ exists detail,
       public_validate_and_record Sample.env
         (Sample.public_scan_at "QR-MAIN-GATE" 12.9716 (-180.25)) Sample.world
       = (Raise (InvalidArgument detail), Sample.world)).
Proof.
  assert (H1 : out_of_range
                 (QRScanRequest.coordinates (Sample.scan_at "QR-MAIN-GATE" 90.5 77.5946)))
    by (right; left; reflexivity).
  assert (H2 : out_of_range
                 (QRCodePublicScanRequest.coordinates
                    (Sample.public_scan_at "QR-MAIN-GATE" 12.9716 (-180.25))))
    by (right; right; left; reflexivity).
  split; (split; [assumption|]).
  - exact (proj1 (out_of_range_coordinates_rejected Sample.env Sample.world) _
             Sample.current_guard H1).
  - exact (proj2 (out_of_range_coordinates_rejected Sample.env Sample.world) _ H2).
Defined.

(** C5. When the event store refuses the write, the call fails, with HTTP
    500 and the detail "Failed to process QR scan", it returns no verdict,
    and neither the scan events nor the mirrored spreadsheet rows change. *)
Theorem store_failure_fails_the_call (env : Env) (w : World) :
  connected w = true ->
  (forall req g loc text,
     resolve_active_location w (QRScanRequest.qrId req) (CurrentGuard.supervisor_id g)
       = Some loc ->
     insert_outcome env (guard_scan_event env req g loc) = Failed text ->
     exists w',
       scan_qr_code env req g w
       = (Raise (HTTPException HTTP_500_INTERNAL_SERVER_ERROR "Failed to process QR scan"),
          w')
       /\ scan_events w' = scan_events w /\ sheets w' = sheets w)
  /\
  (forall req guard_user guard loc text,
     resolve_guard w (QRCodePublicScanRequest.guardEmail req) = Some (guard_user, guard) ->
     resolve_active_location w (QRCodePublicScanRequest.qrId req)
       (GuardDoc.supervisorId guard) = Some loc ->
     insert_outcome env (public_scan_event env req guard loc) = Failed text ->
     exists w',
       public_scan_qr_code env req w
       = (Raise (HTTPException HTTP_500_INTERNAL_SERVER_ERROR "Failed to process QR scan"),
          w')
       /\ scan_events w' = scan_events w /\ sheets w' = sheets w).
Proof.
  intros Hc. split.
  - intros req g loc text. apply scan_qr_code_store_failed, Hc.
  - intros req u gd loc text. apply public_scan_qr_code_store_failed, Hc.
Qed.

(** The theorem at a scan of the main gate while the event store is down. *)
Lemma store_failure_fails_the_call_witness :
  connected Sample.world = true
  /\ (exists w',
        scan_qr_code Sample.env_store_down Sample.scan_near Sample.current_guard
          Sample.world
        = (Raise (HTTPException HTTP_500_INTERNAL_SERVER_ERROR
                    "Failed to process QR scan"), w')
        /\ scan_events w' = scan_events Sample.world
        /\ sheets w' = sheets Sample.world)
  /\ (exists w',
        public_scan_qr_code Sample.env_store_down Sample.public_scan_near Sample.world
        = (Raise (HTTPException HTTP_500_INTERNAL_SERVER_ERROR
                    "Failed to process QR scan"), w')
        /\ scan_events w' = scan_events Sample.world
        /\ sheets w' = sheets Sample.world).
Proof.
  assert (Hc : connected Sample.world = true) by reflexivity.
  split; [exact Hc|]. split.
  - apply (proj1 (store_failure_fails_the_call Sample.env_store_down Sample.world Hc)
             Sample.scan_near Sample.current_guard Sample.main_gate "connection reset");
      vm_compute; reflexivity.
  - apply (proj2 (store_failure_fails_the_call Sample.env_store_down Sample.world Hc)
             Sample.public_scan_near Sample.guard_user Sample.guard_profile
             Sample.main_gate "connection reset");
      vm_compute; reflexivity.
Defined.

(** ** Failing providers *)

Lemma address_at_failed env c text :
  reverse_geocode_enhanced env (Coordinates.latitude c) (Coordinates.longitude c)
  = Failed text ->
  address_at env c = "".
Proof. unfold address_at. intros ->. reflexivity. Qed.

(** C6. A scan of a resolved location, from a latitude within [-90, 90]
    and with an event that the store accepts, returns a verdict whatever the
    geocoding service and the spreadsheet service answer.  If the geocoding
    service fails, the verdict's address is the empty string; the flag, the
    distance and the message do not depend on it; and putting any other
    spreadsheet service in place, a failing one included, yields the same
    verdict. *)
Theorem provider_failures_are_not_fatal (env : Env) (w : World) :
  connected w = true ->
  (forall req g loc oid,
     latitude_in_range (QRScanRequest.coordinates req) ->
     resolve_active_location w (QRScanRequest.qrId req) (CurrentGuard.supervisor_id g)
       = Some loc ->
     insert_outcome env (guard_scan_event env req g loc) = Done oid ->
     exists v w',
       scan_qr_code env req g w = (Return v, w')
       /\ (forall text,
             reverse_geocode_enhanced env
               (Coordinates.latitude (QRScanRequest.coordinates req))
               (Coordinates.longitude (QRScanRequest.coordinates req)) = Failed text ->
             QRScanResponse.address v = "")
       /\ QRScanResponse.isWithinRadius v
          = Qle_bool (distance_to env (QRScanRequest.coordinates req) loc)
                     (WITHIN_RADIUS_METERS env)
       /\ QRScanResponse.distanceFromQR v
          = Py.round (distance_to env (QRScanRequest.coordinates req) loc) 2
       /\ QRScanResponse.message v
          = (if Qle_bool (distance_to env (QRScanRequest.coordinates req) loc)
                         (WITHIN_RADIUS_METERS env)
             then confirmation_message
             else warning_message (distance_to env (QRScanRequest.coordinates req) loc))
       /\ (forall svc,
             (scan_qr_code (with_sheet_service env svc) req g w).1 = Return v))
  /\
  (forall req guard_user guard loc oid,
     latitude_in_range (QRCodePublicScanRequest.coordinates req) ->
     resolve_guard w (QRCodePublicScanRequest.guardEmail req) = Some (guard_user, guard) ->
     resolve_active_location w (QRCodePublicScanRequest.qrId req)
       (GuardDoc.supervisorId guard) = Some loc ->
     insert_outcome env (public_scan_event env req guard loc) = Done oid ->
     exists v w',
       public_scan_qr_code env req w = (Return v, w')
       /\ (forall text,
             reverse_geocode_enhanced env
               (Coordinates.latitude (QRCodePublicScanRequest.coordinates req))
               (Coordinates.longitude (QRCodePublicScanRequest.coordinates req))
             = Failed text ->
             QRCodePublicScanResponse.address v = "")
       /\ QRCodePublicScanResponse.isWithinRadius v
          = Qle_bool (distance_to env (QRCodePublicScanRequest.coordinates req) loc)
                     (WITHIN_RADIUS_METERS env)
       /\ QRCodePublicScanResponse.distanceFromQR v
          = Py.round (distance_to env (QRCodePublicScanRequest.coordinates req) loc) 2
       /\ QRCodePublicScanResponse.message v
          = (if Qle_bool (distance_to env (QRCodePublicScanRequest.coordinates req) loc)
                         (WITHIN_RADIUS_METERS env)
             then confirmation_message
             else warning_message
                    (distance_to env (QRCodePublicScanRequest.coordinates req) loc))
       /\ (forall svc,
             (public_scan_qr_code (with_sheet_service env svc) req w).1 = Return v)).
Proof.
  intros Hc. split.
  - intros req g loc oid Hlat Hl Hi.
    destruct (scan_qr_code_recorded env req g w loc oid Hc Hlat Hl Hi) as (w' & E & _).
    exists (guard_verdict env req loc oid), w'.
    split; [exact E|]. split; [intros text; apply address_at_failed|].
    do 3 (split; [reflexivity|]).
    intros svc.
    destruct (scan_qr_code_recorded (with_sheet_service env svc) req g w loc oid
                Hc Hlat Hl Hi) as (w2 & E2 & _).
    rewrite E2. reflexivity.
  - intros req u gd loc oid Hlat Hg Hl Hi.
    destruct (public_scan_qr_code_recorded env req w u gd loc oid Hc Hlat Hg Hl Hi)
      as (w' & E & _).
    exists (public_verdict env req u loc oid), w'.
    split; [exact E|]. split; [intros text; apply address_at_failed|].
    do 3 (split; [reflexivity|]).
    intros svc.
    destruct (public_scan_qr_code_recorded (with_sheet_service env svc) req w u gd loc oid
                Hc Hlat Hg Hl Hi) as (w2 & E2 & _).
    rewrite E2. reflexivity.
Qed.

(** With the geocoding service and the spreadsheet service both failing, the
    guard's scan of the main gate from 1.55 m is answered, and its address is
    empty. *)
Example providers_down_example :
  exists w',
    scan_qr_code Sample.env_providers_down Sample.scan_near Sample.current_guard
      Sample.world
    = (Return (QRScanResponse.mk Sample.new_oid "QR-MAIN-GATE" "Main gate" true 1.55
                 "" Sample.clock "QR code scanned successfully"), w')
    /\ length (scan_events w') = 1%nat
    /\ sheets w' = []
    /\ map fst (log w') = [WARNING; WARNING; INFO].
Proof. eexists. split; [vm_compute; reflexivity|]. repeat split. Qed.

(** The theorem at that scan, by the guard and through the public
    operation. *)
Lemma provider_failures_are_not_fatal_witness :
  connected Sample.world = true
  /\ latitude_in_range (QRScanRequest.coordinates Sample.scan_near)
  /\ latitude_in_range (QRCodePublicScanRequest.coordinates Sample.public_scan_near)
  /\ (exists v w',
        scan_qr_code Sample.env_providers_down Sample.scan_near Sample.current_guard
          Sample.world = (Return v, w')
        /\ QRScanResponse.address v = ""
        /\ (scan_qr_code Sample.env Sample.scan_near Sample.current_guard
              Sample.world).1
           = Return (QRScanResponse.mk
                       (QRScanResponse.scanEventId v) (QRScanResponse.qrId v)
                       (QRScanResponse.locationName v) (QRScanResponse.isWithinRadius v)
                       (QRScanResponse.distanceFromQR v) "MG Road, Bengaluru"
                       (QRScanResponse.scannedAt v) (QRScanResponse.message v)))
  /\ (exists v w',
        public_scan_qr_code Sample.env_providers_down Sample.public_scan_near
          Sample.world = (Return v, w')
        /\ QRCodePublicScanResponse.address v = "").
Proof.
  assert (Hc : connected Sample.world = true) by reflexivity.
  assert (Hg : latitude_in_range (QRScanRequest.coordinates Sample.scan_near))
    by (split; vm_compute; discriminate).
  assert (Hp : latitude_in_range
                 (QRCodePublicScanRequest.coordinates Sample.public_scan_near))
    by (split; vm_compute; discriminate).
  split; [exact Hc|]. split; [exact Hg|]. split; [exact Hp|]. split.
  - destruct (proj1 (provider_failures_are_not_fatal Sample.env_providers_down
                       Sample.world Hc)
                Sample.scan_near Sample.current_guard Sample.main_gate Sample.new_oid Hg)
      as (v & w' & E & Ha & Hw & Hd & Hm & _); [vm_compute; reflexivity ..|].
    exists v, w'. split; [exact E|]. split; [apply (Ha "geocoding timed out"); reflexivity|].
    rewrite Hw, Hd, Hm.
    vm_compute in E. injection E as <- _. vm_compute. reflexivity.
  - destruct (proj2 (provider_failures_are_not_fatal Sample.env_providers_down
                       Sample.world Hc)
                Sample.public_scan_near Sample.guard_user Sample.guard_profile
                Sample.main_gate Sample.new_oid Hp)
      as (v & w' & E & Ha & _); [vm_compute; reflexivity ..|].
    exists v, w'. split; [exact E|]. apply (Ha "geocoding timed out"); reflexivity.
Defined.

(** ** The persisted event and the verdict *)

(** C7, as stated, fails on the authenticated operation: the event that
    [scan_qr_code] stores for the guard's scan of the main gate has no device
    metadata key. *)
Lemma guard_scan_event_without_device_metadata :
  ~ (forall env req g w v w',
       scan_qr_code env req g w = (Return v, w') ->
       exists oid e,
         scan_events w' = (scan_events w ++ [(oid, e)])%list
         /\ has_device_metadata e).
Proof.
  intros H.
  assert (E : scan_qr_code Sample.env Sample.scan_near Sample.current_guard Sample.world
              = (Return (guard_verdict Sample.env Sample.scan_near Sample.main_gate
                           Sample.new_oid),
                 (scan_qr_code Sample.env Sample.scan_near Sample.current_guard
                    Sample.world).2))
    by (vm_compute; reflexivity).
  destruct (H _ _ _ _ _ _ E) as (oid & e & Hev & Hdev).
  vm_compute in Hev. injection Hev as _ <-.
  apply Hdev. reflexivity.
Qed.

Lemma bson_datetime_millisecond t :
  (bson_datetime t mod 1000 = 0 /\ bson_datetime t <= t < bson_datetime t + 1000)%Z.
Proof.
  unfold bson_datetime. split; [apply Z.mod_mul; lia|].
  pose proof (Z.div_mod t 1000 ltac:(lia)).
  pose proof (Z.mod_pos_bound t 1000 ltac:(lia)). lia.
Qed.

(** C7, amended. For every scan that returns a verdict, the event appended
    under the returned identifier holds the actor, the supervisor, the
    location, the QR identifier, the reported coordinates, the flag of the
    unrounded comparison, the distance rounded to two decimals, the address
    of the verdict (the geocoded one or the empty string), a creation time
    and the note of the request.  The creation time is the clock reading
    kept to the millisecond: a whole number of milliseconds, not after the
    time of the verdict, which is the clock reading itself, and less than a
    millisecond before it.  The public operation stores the device metadata
    of the request as well; the authenticated operation stores no device
    metadata. *)
Theorem persisted_event_fields (env : Env) (w : World) :
  (forall req g v w',
     scan_qr_code env req g w = (Return v, w') ->
     exists loc e,
       resolve_active_location w (QRScanRequest.qrId req) (CurrentGuard.supervisor_id g)
         = Some loc
       /\ scan_events w' = (scan_events w ++ [(QRScanResponse.scanEventId v, e)])%list
       /\ ScanEventDoc.guardId e = CurrentGuard.guard_id g
       /\ ScanEventDoc.supervisorId e = CurrentGuard.supervisor_id g
       /\ ScanEventDoc.qrLocationId e = QRLocationDoc._id loc
       /\ ScanEventDoc.qrId e = QRScanRequest.qrId req
       /\ Coordinates.latitude (ScanEventDoc.coordinates e)
          = Coordinates.latitude (QRScanRequest.coordinates req)
       /\ Coordinates.longitude (ScanEventDoc.coordinates e)
          = Coordinates.longitude (QRScanRequest.coordinates req)
       /\ ScanEventDoc.isWithinRadius e
          = Qle_bool (distance_to env (QRScanRequest.coordinates req) loc)
                     (WITHIN_RADIUS_METERS env)
       /\ ScanEventDoc.distanceFromQR e
          = Py.round (distance_to env (QRScanRequest.coordinates req) loc) 2
       /\ ScanEventDoc.address e = address_at env (QRScanRequest.coordinates req)
       /\ ScanEventDoc.address e = QRScanResponse.address v
       /\ QRScanResponse.scannedAt v = utcnow env
       /\ ScanEventDoc.scannedAt e = bson_datetime (utcnow env)
       /\ (ScanEventDoc.scannedAt e mod 1000 = 0)%Z
       /\ (ScanEventDoc.scannedAt e <= QRScanResponse.scannedAt v
           < ScanEventDoc.scannedAt e + 1000)%Z
       /\ ScanEventDoc.notes e = QRScanRequest.notes req
       /\ ScanEventDoc.deviceInfo e = None)
  /\
  (forall req v w',
     public_scan_qr_code env req w = (Return v, w') ->
     exists guard_user guard loc e,
       resolve_guard w (QRCodePublicScanRequest.guardEmail req) = Some (guard_user, guard)
       /\ resolve_active_location w (QRCodePublicScanRequest.qrId req)
            (GuardDoc.supervisorId guard) = Some loc
       /\ scan_events w'
          = (scan_events w ++ [(QRCodePublicScanResponse.scanEventId v, e)])%list
       /\ ScanEventDoc.guardId e = GuardDoc._id guard
       /\ ScanEventDoc.supervisorId e = GuardDoc.supervisorId guard
       /\ ScanEventDoc.qrLocationId e = QRLocationDoc._id loc
       /\ ScanEventDoc.qrId e = QRCodePublicScanRequest.qrId req
       /\ Coordinates.latitude (ScanEventDoc.coordinates e)
          = Coordinates.latitude (QRCodePublicScanRequest.coordinates req)
       /\ Coordinates.longitude (ScanEventDoc.coordinates e)
          = Coordinates.longitude (QRCodePublicScanRequest.coordinates req)
       /\ ScanEventDoc.isWithinRadius e
          = Qle_bool (distance_to env (QRCodePublicScanRequest.coordinates req) loc)
                     (WITHIN_RADIUS_METERS env)
       /\ ScanEventDoc.distanceFromQR e
          = Py.round (distance_to env (QRCodePublicScanRequest.coordinates req) loc) 2
       /\ ScanEventDoc.address e
          = address_at env (QRCodePublicScanRequest.coordinates req)
       /\ ScanEventDoc.address e = QRCodePublicScanResponse.address v
       /\ QRCodePublicScanResponse.scannedAt v = utcnow env
       /\ ScanEventDoc.scannedAt e = bson_datetime (utcnow env)
       /\ (ScanEventDoc.scannedAt e mod 1000 = 0)%Z
       /\ (ScanEventDoc.scannedAt e <= QRCodePublicScanResponse.scannedAt v
           < ScanEventDoc.scannedAt e + 1000)%Z
       /\ ScanEventDoc.notes e = QRCodePublicScanRequest.notes req
       /\ ScanEventDoc.deviceInfo e = Some (QRCodePublicScanRequest.deviceInfo req)).
Proof.
  split.
  - intros req g v w' E.
    apply scan_qr_code_returns in E as (loc & oid & _ & Hl & _ & -> & Hev).
    exists loc, (bson_scan_event (guard_scan_event env req g loc)).
    split; [exact Hl|]. split; [exact Hev|].
    pose proof (bson_datetime_millisecond (utcnow env)) as [Hms Hnear].
    cbn. repeat split; first [reflexivity | assumption | apply Hnear].
  - intros req v w' E.
    apply public_scan_qr_code_returns in E
      as (u & gd & loc & oid & _ & Hg & Hl & _ & -> & Hev).
    exists u, gd, loc, (bson_scan_event (public_scan_event env req gd loc)).
    split; [exact Hg|]. split; [exact Hl|]. split; [exact Hev|].
    pose proof (bson_datetime_millisecond (utcnow env)) as [Hms Hnear].
    cbn. repeat split; first [reflexivity | assumption | apply Hnear].
Qed.

(** The theorem at the scan of the main gate from 1.55 m, by the guard and
    through the public operation, with a clock that reads 123456
    microseconds past noon: the verdict carries that reading, the stored
    event has noon and 123 milliseconds; the note is stored by both
    operations, the device metadata by the public operation only. *)
Lemma persisted_event_fields_witness :
  (exists v w' e,
     scan_qr_code (Patrol.env_at (Sample.clock + 123456)%Z Sample.new_oid)
       Sample.scan_near Sample.current_guard Sample.world
     = (Return v, w')
     /\ scan_events w' = [(Sample.new_oid, e)]
     /\ QRScanResponse.scannedAt v = (Sample.clock + 123456)%Z
     /\ ScanEventDoc.scannedAt e = (Sample.clock + 123000)%Z
     /\ ScanEventDoc.notes e = Some "north fence checked"
     /\ ScanEventDoc.deviceInfo e = None)
  /\
  (exists v w' e,
     public_scan_qr_code (Patrol.env_at (Sample.clock + 123456)%Z Sample.new_oid)
       Sample.public_scan_near Sample.world
     = (Return v, w')
     /\ scan_events w' = [(Sample.new_oid, e)]
     /\ QRCodePublicScanResponse.scannedAt v = (Sample.clock + 123456)%Z
     /\ ScanEventDoc.scannedAt e = (Sample.clock + 123000)%Z
     /\ ScanEventDoc.notes e = Some "north fence checked"
     /\ ScanEventDoc.deviceInfo e = Some (Some "Pixel 8, app 2.3.1")).
Proof.
  set (env := Patrol.env_at (Sample.clock + 123456)%Z Sample.new_oid).
  assert (Eg : scan_qr_code env Sample.scan_near Sample.current_guard Sample.world
               = (Return (guard_verdict env Sample.scan_near Sample.main_gate
                            Sample.new_oid),
                  (scan_qr_code env Sample.scan_near Sample.current_guard
                     Sample.world).2))
    by (vm_compute; reflexivity).
  assert (Ep : public_scan_qr_code env Sample.public_scan_near Sample.world
               = (Return (public_verdict env Sample.public_scan_near
                            Sample.guard_user Sample.main_gate Sample.new_oid),
                  (public_scan_qr_code env Sample.public_scan_near Sample.world).2))
    by (vm_compute; reflexivity).
  split.
  - destruct (proj1 (persisted_event_fields env Sample.world) _ _ _ _ Eg)
      as (loc & e & _ & Hev & H).
    decompose [and] H.
    eexists; eexists; exists e. split; [exact Eg|]. split; [exact Hev|].
    repeat split; assumption.
  - destruct (proj2 (persisted_event_fields env Sample.world) _ _ _ Ep)
      as (u & gd & loc & e & _ & _ & Hev & H).
    decompose [and] H.
    eexists; eexists; exists e. split; [exact Ep|]. split; [exact Hev|].
    repeat split; assumption.
Defined.

(** The text that [str] gives for a distance rounded to one decimal reads
    back as that distance. *)

Lemma read_digit_step seen acc d s :
  (d < 10)%N ->
  read_tenths seen acc (String (pretty_N_char d) s)
  = read_tenths true (acc * 10 + Z.of_N d) s.
Proof.
  intros Hd.
  assert (d = 0 \/ d = 1 \/ d = 2 \/ d = 3 \/ d = 4 \/ d = 5 \/ d = 6 \/ d = 7
          \/ d = 8 \/ d = 9)%N as H by lia.
  repeat (destruct H as [->|H]); try subst d; reflexivity.
Qed.

Lemma pretty_N_go_app x : forall s r, pretty_N_go x s +:+ r = pretty_N_go x (s +:+ r).
Proof.
  induction (N.lt_wf_0 x) as [x _ IH]. intros s r.
  assert (x = 0 \/ 0 < x)%N as [->|Hx] by lia.
  - rewrite !pretty_N_go_0. reflexivity.
  - rewrite (pretty_N_go_step x s), (pretty_N_go_step x (s +:+ r)) by exact Hx.
    rewrite IH by (apply N.div_lt; lia). reflexivity.
Qed.

Lemma read_tenths_pretty_N_go x :
  (0 < x)%N ->
  forall s, exists p, forall seen acc,
    read_tenths seen acc (pretty_N_go x s) = read_tenths true (acc * p + Z.of_N x) s.
Proof.
  induction (N.lt_wf_0 x) as [x _ IH]. intros Hx s.
  rewrite pretty_N_go_step by exact Hx.
  assert (Hd : (x `mod` 10 < 10)%N) by (apply N.mod_lt; lia).
  assert (Hx10 : Z.of_N x = (Z.of_N (x `div` 10) * 10 + Z.of_N (x `mod` 10))%Z).
  { rewrite (N.div_mod x 10) at 1 by lia. lia. }
  assert (x `div` 10 = 0 \/ 0 < x `div` 10)%N as [H0|Hpos] by lia.
  - exists 10%Z. intros seen acc. rewrite H0, pretty_N_go_0, read_digit_step by exact Hd.
    rewrite Hx10, H0. f_equal; lia.
  - destruct (IH (x `div` 10)%N ltac:(apply N.div_lt; lia) Hpos
                (String (pretty_N_char (x `mod` 10)) s)) as (p & Hp).
    exists (p * 10)%Z. intros seen acc. rewrite Hp, read_digit_step by exact Hd.
    rewrite Hx10. f_equal; lia.
Qed.

Lemma read_tenths_pretty a b :
  (0 <= a)%Z -> (0 <= b < 10)%Z ->
  read_tenths false 0 (pretty a +:+ "." +:+ pretty b) = Some (a * 10 + b)%Z.
Proof.
  intros Ha Hb.
  assert (Hend : forall acc, read_tenths true acc ("." +:+ pretty b) = Some (acc * 10 + b)%Z).
  { intros acc.
    assert (b = 0 \/ b = 1 \/ b = 2 \/ b = 3 \/ b = 4 \/ b = 5 \/ b = 6 \/ b = 7
            \/ b = 8 \/ b = 9)%Z as H by lia.
    repeat (destruct H as [->|H]); try subst b; reflexivity. }
  destruct a as [|a|a]; [| |lia].
  - change (pretty 0%Z) with "0". cbn [String.app].
    change "0" with (String (pretty_N_char 0) "") at 1.
    change (read_tenths false 0 (String "0" ("." +:+ pretty b)))
      with (read_tenths true 0 ("." +:+ pretty b)). apply Hend.
  - change (pretty (Z.pos a)) with (pretty_N_go (N.pos a) "").
    rewrite pretty_N_go_app. cbn [String.app].
    destruct (read_tenths_pretty_N_go (N.pos a) ltac:(lia) ("." +:+ pretty b)) as (p & Hp).
    rewrite Hp, Hend. f_equal; lia.
Qed.

Lemma read_one_decimal_of_tenths s v :
  read_tenths false 0 s = Some v -> read_one_decimal s = Some (v # 10).
Proof.
  destruct s as [|c rest]; [discriminate|]. intros H. unfold read_one_decimal.
  destruct (Ascii.eqb c "-"%char) eqn:Hc.
  - apply Ascii.eqb_eq in Hc. subst c. discriminate.
  - rewrite H. reflexivity.
Qed.

Lemma read_one_decimal_negative s v :
  read_tenths false 0 s = Some v -> read_one_decimal ("-" +:+ s) = Some (- v # 10).
Proof.
  intros H.
  change (read_one_decimal ("-" +:+ s))
    with (option_map (fun t => (- t) # 10) (read_tenths false 0 s)).
  rewrite H. reflexivity.
Qed.

Lemma Qfloor_tenths z : Qfloor ((z # 10) * 10) = z.
Proof.
  unfold Qfloor, Qmult. cbn [Qnum Qden]. change (Z.pos (10 * 1)) with 10%Z.
  apply Z.div_mul. lia.
Qed.

Lemma read_one_decimal_str_float (d : Q) :
  read_one_decimal (Py.str_float (Py.round d 1)) = Some (Py.round d 1).
Proof.
  change (Py.round d 1) with (Py.round_half_even (d * inject_Z 10) # 10).
  set (z := Py.round_half_even (d * inject_Z 10)).
  unfold Py.str_float. rewrite Qfloor_tenths.
  assert (Ha : (0 <= Z.abs z / 10)%Z) by (apply Z.div_pos; lia).
  assert (Hb : (0 <= Z.abs z mod 10 < 10)%Z) by (apply Z.mod_pos_bound; lia).
  pose proof (read_tenths_pretty _ _ Ha Hb) as Hr.
  assert (Hz : (Z.abs z / 10 * 10 + Z.abs z mod 10 = Z.abs z)%Z).
  { pose proof (Z.div_mod (Z.abs z) 10 ltac:(lia)). lia. }
  rewrite Hz in Hr.
  destruct (z <? 0)%Z eqn:Hneg.
  - apply Z.ltb_lt in Hneg.
    etransitivity; [exact (read_one_decimal_negative _ _ Hr)|].
    replace (- Z.abs z)%Z with z by lia. reflexivity.
  - apply Z.ltb_ge in Hneg.
    etransitivity; [exact (read_one_decimal_of_tenths _ _ Hr)|].
    replace (Z.abs z) with z by lia. reflexivity.
Qed.

(** C8. For every scan that returns a verdict, the verdict's distance is the
    geodesic distance rounded to two decimals, and its message is the
    confirmation when [isWithinRadius] is true and otherwise the warning:
    "Warning: You are ", a numeral, and "m away from the QR location", where
    the numeral has one digit after the point and reads as the distance
    rounded to one decimal. *)
Theorem verdict_distance_and_message (env : Env) (w : World) :
  (forall req g v w',
     scan_qr_code env req g w = (Return v, w') ->
     exists loc,
       resolve_active_location w (QRScanRequest.qrId req) (CurrentGuard.supervisor_id g)
         = Some loc
       /\ QRScanResponse.distanceFromQR v
          = Py.round (distance_to env (QRScanRequest.coordinates req) loc) 2
       /\ (QRScanResponse.isWithinRadius v = true ->
           QRScanResponse.message v = "QR code scanned successfully")
       /\ (QRScanResponse.isWithinRadius v = false ->
           exists text,
             QRScanResponse.message v
             = "Warning: You are " +:+ text +:+ "m away from the QR location"
             /\ text
                = Py.str_float
                    (Py.round (distance_to env (QRScanRequest.coordinates req) loc) 1)
             /\ read_one_decimal text
                = Some (Py.round (distance_to env (QRScanRequest.coordinates req) loc) 1)))
  /\
  (forall req v w',
     public_scan_qr_code env req w = (Return v, w') ->
     exists guard_user guard loc,
       resolve_guard w (QRCodePublicScanRequest.guardEmail req) = Some (guard_user, guard)
       /\ resolve_active_location w (QRCodePublicScanRequest.qrId req)
            (GuardDoc.supervisorId guard) = Some loc
       /\ QRCodePublicScanResponse.distanceFromQR v
          = Py.round (distance_to env (QRCodePublicScanRequest.coordinates req) loc) 2
       /\ (QRCodePublicScanResponse.isWithinRadius v = true ->
           QRCodePublicScanResponse.message v = "QR code scanned successfully")
       /\ (QRCodePublicScanResponse.isWithinRadius v = false ->
           exists text,
             QRCodePublicScanResponse.message v
             = "Warning: You are " +:+ text +:+ "m away from the QR location"
             /\ text
                = Py.str_float
                    (Py.round
                       (distance_to env (QRCodePublicScanRequest.coordinates req) loc) 1)
             /\ read_one_decimal text
                = Some (Py.round
                          (distance_to env (QRCodePublicScanRequest.coordinates req) loc)
                          1))).
Proof.
  split.
  - intros req g v w' E.
    apply scan_qr_code_returns in E as (loc & oid & _ & Hl & _ & -> & _).
    exists loc. split; [exact Hl|]. split; [reflexivity|].
    cbn. split; intros ->; [reflexivity|].
    eexists. split; [reflexivity|]. split; [reflexivity|].
    apply read_one_decimal_str_float.
  - intros req v w' E.
    apply public_scan_qr_code_returns in E as (u & gd & loc & oid & _ & Hg & Hl & _ & -> & _).
    exists u, gd, loc. split; [exact Hg|]. split; [exact Hl|]. split; [reflexivity|].
    cbn. split; intros ->; [reflexivity|].
    eexists. split; [reflexivity|]. split; [reflexivity|].
    apply read_one_decimal_str_float.
Qed.

(** The theorem at the guard's scan of the main gate from about 62 m, where
    the distance returned is 61.98 and the message embeds 62.0, and at the
    public scan from 50.004 m, where the distance returned is 50.0 and the
    message embeds 50.0. *)
Lemma verdict_distance_and_message_witness :
  (exists w',
     scan_qr_code Sample.env Sample.scan_far Sample.current_guard Sample.world
     = (Return (guard_verdict Sample.env Sample.scan_far Sample.main_gate Sample.new_oid),
        w')
     /\ QRScanResponse.distanceFromQR
          (guard_verdict Sample.env Sample.scan_far Sample.main_gate Sample.new_oid)
        = 61.98%Q
     /\ QRScanResponse.message
          (guard_verdict Sample.env Sample.scan_far Sample.main_gate Sample.new_oid)
        = "Warning: You are 62.0m away from the QR location"
     /\ read_one_decimal "62.0" = Some 62.0%Q)
  /\
  (exists w',
     public_scan_qr_code Sample.env Sample.public_scan_just_outside Sample.world
     = (Return (public_verdict Sample.env Sample.public_scan_just_outside
                  Sample.guard_user Sample.main_gate Sample.new_oid), w')
     /\ QRCodePublicScanResponse.distanceFromQR
          (public_verdict Sample.env Sample.public_scan_just_outside Sample.guard_user
             Sample.main_gate Sample.new_oid)
        = 50.00%Q
     /\ QRCodePublicScanResponse.message
          (public_verdict Sample.env Sample.public_scan_just_outside Sample.guard_user
             Sample.main_gate Sample.new_oid)
        = "Warning: You are 50.0m away from the QR location"
     /\ read_one_decimal "50.0" = Some 50.0%Q).
Proof.
  assert (Eg : scan_qr_code Sample.env Sample.scan_far Sample.current_guard Sample.world
               = (Return (guard_verdict Sample.env Sample.scan_far Sample.main_gate
                            Sample.new_oid),
                  (scan_qr_code Sample.env Sample.scan_far Sample.current_guard
                     Sample.world).2))
    by (vm_compute; reflexivity).
  assert (Ep : public_scan_qr_code Sample.env Sample.public_scan_just_outside Sample.world
               = (Return (public_verdict Sample.env Sample.public_scan_just_outside
                            Sample.guard_user Sample.main_gate Sample.new_oid),
                  (public_scan_qr_code Sample.env Sample.public_scan_just_outside
                     Sample.world).2))
    by (vm_compute; reflexivity).
  split.
  - destruct (proj1 (verdict_distance_and_message Sample.env Sample.world) _ _ _ _ Eg)
      as (loc & Hl & Hd & _ & Hm).
    vm_compute in Hl. injection Hl as <-.
    destruct (Hm eq_refl) as (text & Hmsg & Htext & Hread).
    assert (Ht : text = "62.0") by (rewrite Htext; vm_compute; reflexivity).
    rewrite Ht in Hmsg, Hread.
    eexists. split; [exact Eg|]. split; [rewrite Hd; vm_compute; reflexivity|].
    split; [exact Hmsg|]. rewrite Hread. vm_compute. reflexivity.
  - destruct (proj2 (verdict_distance_and_message Sample.env Sample.world) _ _ _ Ep)
      as (u & gd & loc & Hg & Hl & Hd & _ & Hm).
    vm_compute in Hg. injection Hg as <- <-.
    vm_compute in Hl. injection Hl as <-.
    destruct (Hm eq_refl) as (text & Hmsg & Htext & Hread).
    assert (Ht : text = "50.0") by (rewrite Htext; vm_compute; reflexivity).
    rewrite Ht in Hmsg, Hread.
    eexists. split; [exact Ep|]. split; [rewrite Hd; vm_compute; reflexivity|].
    split; [exact Hmsg|]. rewrite Hread. vm_compute. reflexivity.
Defined.

(** ** Scan events are only ever appended *)

Lemma after_appends_at_most_one c w :
  scan_events (after c w) = scan_events w
  \/ exists oid e, scan_events (after c w) = (scan_events w ++ [(oid, e)])%list.
Proof.
  destruct c as [env req g|env req]; cbn [after].
  - destruct (scan_qr_code env req g w) as [r w1] eqn:H.
    apply scan_qr_code_ends in H. cbn [snd].
    inversion H; eauto; left; congruence.
  - destruct (public_scan_qr_code env req w) as [r w1] eqn:H.
    apply public_scan_qr_code_ends in H. cbn [snd].
    inversion H; eauto; left; congruence.
Qed.

Lemma run_extends calls :
  forall w, exists added,
    scan_events (run calls w) = (scan_events w ++ added)%list
    /\ (length added <= length calls)%nat.
Proof.
  induction calls as [|c calls IH]; intros w; cbn [run].
  - exists []. split; [symmetry; apply app_nil_r|reflexivity].
  - destruct (IH (after c w)) as (added & Hrun & Hlen).
    destruct (after_appends_at_most_one c w) as [Hsame|(oid & e & Hone)].
    + exists added. rewrite Hrun, Hsame. split; [reflexivity|cbn; lia].
    + exists ((oid, e) :: added). rewrite Hrun, Hone, <- app_assoc.
      split; [reflexivity|cbn; lia].
Qed.

(** C9. A call of either scan operation leaves the scan events as they were
    or appends one event to them; so after any history of calls every event
    that was stored is still stored, at its place and with its content, and
    at most one event per call has been added. *)
Theorem scan_events_are_append_only :
  (forall c w,
     scan_events (after c w) = scan_events w
     \/ exists oid e, scan_events (after c w) = (scan_events w ++ [(oid, e)])%list)
  /\
  (forall calls w (i : nat) (ev : ObjectId * ScanEventDoc.t),
     scan_events w !! i = Some ev -> scan_events (run calls w) !! i = Some ev)
  /\
  (forall calls w,
     (length (scan_events w) <= length (scan_events (run calls w))
      <= length (scan_events w) + length calls)%nat).
Proof.
  split; [exact after_appends_at_most_one|]. split.
  - intros calls w i ev Hi.
    destruct (run_extends calls w) as (added & -> & _).
    apply lookup_app_l_Some, Hi.
  - intros calls w.
    destruct (run_extends calls w) as (added & -> & Hlen).
    rewrite length_app. lia.
Qed.

(** The theorem at the sample history: the event of the first scan is still
    the first event afterwards, and the three later calls added one event. *)
Lemma scan_events_are_append_only_witness :
  scan_events Sample.patrolled !! 0%nat
  = Some (Sample.new_oid,
          guard_scan_event Sample.env Sample.scan_far Sample.current_guard Sample.main_gate)
  /\ scan_events (run Sample.history Sample.patrolled) !! 0%nat
     = Some (Sample.new_oid,
             guard_scan_event Sample.env Sample.scan_far Sample.current_guard
               Sample.main_gate)
  /\ length (scan_events (run Sample.history Sample.patrolled)) = 2%nat.
Proof.
  assert (H0 : scan_events Sample.patrolled !! 0%nat
               = Some (Sample.new_oid,
                       guard_scan_event Sample.env Sample.scan_far Sample.current_guard
                         Sample.main_gate))
    by (vm_compute; reflexivity).
  split; [exact H0|]. split.
  - exact (proj1 (proj2 scan_events_are_append_only) Sample.history Sample.patrolled
             0%nat _ H0).
  - vm_compute. reflexivity.
Defined.

(** ** The two operations agree *)

(** C10. The authenticated and the public operation, given the same QR
    identifier and reported coordinates, the same collections, radius and
    geodesic distance, and a guard whose supervisor is the one that the
    public operation resolves from the email address, return verdicts with
    the same [isWithinRadius] flag, the same rounded distance and the same
    message, whenever both return one. *)
Theorem scan_operations_agree (env : Env) (w : World)
    (req : QRScanRequest.t) (g : CurrentGuard.t) (preq : QRCodePublicScanRequest.t)
    (guard_user : UserDoc.t) (guard : GuardDoc.t)
    (v : QRScanResponse.t) (pv : QRCodePublicScanResponse.t) (w' pw' : World) :
  QRCodePublicScanRequest.qrId preq = QRScanRequest.qrId req ->
  QRCodePublicScanRequest.coordinates preq = QRScanRequest.coordinates req ->
  resolve_guard w (QRCodePublicScanRequest.guardEmail preq) = Some (guard_user, guard) ->
  GuardDoc.supervisorId guard = CurrentGuard.supervisor_id g ->
  scan_qr_code env req g w = (Return v, w') ->
  public_scan_qr_code env preq w = (Return pv, pw') ->
  QRCodePublicScanResponse.isWithinRadius pv = QRScanResponse.isWithinRadius v
  /\ QRCodePublicScanResponse.distanceFromQR pv = QRScanResponse.distanceFromQR v
  /\ QRCodePublicScanResponse.message pv = QRScanResponse.message v
  /\ QRCodePublicScanResponse.locationName pv = QRScanResponse.locationName v
  /\ QRCodePublicScanResponse.address pv = QRScanResponse.address v.
Proof.
  intros Hq Hco Hg Hs Eg Ep.
  apply scan_qr_code_returns in Eg as (loc & oid & _ & Hl & _ & -> & _).
  apply public_scan_qr_code_returns in Ep
    as (u & gd & ploc & poid & _ & Hg' & Hl' & _ & -> & _).
  rewrite Hg in Hg'. injection Hg' as <- <-.
  rewrite Hq, Hs, Hl in Hl'. injection Hl' as <-.
  unfold public_verdict, guard_verdict. cbn. rewrite Hco. repeat split.
Qed.

(** The theorem at the two scans of the main gate from about 62 m. *)
Lemma scan_operations_agree_witness :
  scan_qr_code Sample.env Sample.scan_far Sample.current_guard Sample.world
  = (Return (guard_verdict Sample.env Sample.scan_far Sample.main_gate Sample.new_oid),
     (scan_qr_code Sample.env Sample.scan_far Sample.current_guard Sample.world).2)
  /\ public_scan_qr_code Sample.env Sample.public_scan_far Sample.world
     = (Return (public_verdict Sample.env Sample.public_scan_far Sample.guard_user
                  Sample.main_gate Sample.new_oid),
        (public_scan_qr_code Sample.env Sample.public_scan_far Sample.world).2)
  /\ QRCodePublicScanResponse.isWithinRadius
       (public_verdict Sample.env Sample.public_scan_far Sample.guard_user
          Sample.main_gate Sample.new_oid)
     = QRScanResponse.isWithinRadius
         (guard_verdict Sample.env Sample.scan_far Sample.main_gate Sample.new_oid)
  /\ QRCodePublicScanResponse.distanceFromQR
       (public_verdict Sample.env Sample.public_scan_far Sample.guard_user
          Sample.main_gate Sample.new_oid)
     = QRScanResponse.distanceFromQR
         (guard_verdict Sample.env Sample.scan_far Sample.main_gate Sample.new_oid)
  /\ QRCodePublicScanResponse.message
       (public_verdict Sample.env Sample.public_scan_far Sample.guard_user
          Sample.main_gate Sample.new_oid)
     = QRScanResponse.message
         (guard_verdict Sample.env Sample.scan_far Sample.main_gate Sample.new_oid).
Proof.
  assert (Eg : scan_qr_code Sample.env Sample.scan_far Sample.current_guard Sample.world
               = (Return (guard_verdict Sample.env Sample.scan_far Sample.main_gate
                            Sample.new_oid),
                  (scan_qr_code Sample.env Sample.scan_far Sample.current_guard
                     Sample.world).2))
    by (vm_compute; reflexivity).
  assert (Ep : public_scan_qr_code Sample.env Sample.public_scan_far Sample.world
               = (Return (public_verdict Sample.env Sample.public_scan_far
                            Sample.guard_user Sample.main_gate Sample.new_oid),
                  (public_scan_qr_code Sample.env Sample.public_scan_far
                     Sample.world).2))
    by (vm_compute; reflexivity).
  split; [exact Eg|]. split; [exact Ep|].
  destruct (scan_operations_agree Sample.env Sample.world Sample.scan_far
              Sample.current_guard Sample.public_scan_far Sample.guard_user
              Sample.guard_profile _ _ _ _
              eq_refl eq_refl eq_refl eq_refl Eg Ep)
    as (H1 & H2 & H3 & _).
  split; [exact H1|]. split; [exact H2|exact H3].
Defined.

(** ** The reading handlers on the patrol history *)

Example guard_dashboard_example :
  exists d,
    get_guard_dashboard Sample.env Patrol.exact Patrol.session Patrol.world
    = (Return d, Patrol.world)
    /\ GuardDashboard.today_scans (GuardDashboard.stats d) = 2%nat
    /\ GuardDashboard.this_week_scans (GuardDashboard.stats d) = 3%nat
    /\ GuardDashboard.total_scans (GuardDashboard.stats d) = 4%nat
    /\ GuardDashboard.within_radius_percentage (GuardDashboard.stats d) = 50.0%Q
    /\ GuardDashboard.available_qr_locations (GuardDashboard.stats d) = 1%nat
    /\ map GuardDashboard.id (GuardDashboard.recent_scans d)
       = ["64b7f0c2a1d3e4f5a6b7ca05"; "64b7f0c2a1d3e4f5a6b7ca03";
          "64b7f0c2a1d3e4f5a6b7ca02"; "64b7f0c2a1d3e4f5a6b7ca01"]
    /\ GuardDashboard.last_scan_time d = Some (Sample.clock - Patrol.hour)%Z.
Proof. eexists. split; [vm_compute; reflexivity|]. repeat split. Qed.

(** ** Validating a QR code and describing its location *)

Lemma find_active_Some w qr_id d :
  find_one (fun d => String.eqb (QRLocationDoc.qrId d) qr_id
                     && Bool.eqb (QRLocationDoc.isActive d) true)
           (qr_locations w) = Some d ->
  In d (qr_locations w) /\ QRLocationDoc.qrId d = qr_id /\ QRLocationDoc.isActive d = true.
Proof.
  unfold find_one. intros H. apply find_some in H as [Hin Hf].
  apply andb_prop in Hf as [Hq Hact].
  apply String.eqb_eq in Hq. apply Bool.eqb_prop in Hact. auto.
Qed.

Lemma find_active_None w qr_id :
  find_one (fun d => String.eqb (QRLocationDoc.qrId d) qr_id
                     && Bool.eqb (QRLocationDoc.isActive d) true)
           (qr_locations w) = None ->
  ~ active_somewhere w qr_id.
Proof.
  unfold find_one. intros H (d & Hin & Hq & Hact).
  pose proof (find_none _ _ H d Hin) as Hf. cbn in Hf.
  rewrite Hq, Hact, String.eqb_refl in Hf. discriminate.
Qed.

Lemma validate_qr_code_connected qr_id w :
  connected w = true ->
  validate_qr_code qr_id w
  = (Return
       match find_one (fun d => String.eqb (QRLocationDoc.qrId d) qr_id
                                && Bool.eqb (QRLocationDoc.isActive d) true)
                      (qr_locations w) with
       | None => QRValidation.mk false qr_id None None "QR code not found or inactive"
       | Some qr_location =>
         QRValidation.mk true qr_id
           (Some (QRLocationDoc.locationName qr_location))
           (Some (QRLocationDoc.areaCity qr_location))
           "QR code is valid and active"
       end, w).
Proof.
  intros Hc. unfold validate_qr_code. unfold_handler. rewrite Hc. cbn.
  destruct (find_one _ (qr_locations w)); reflexivity.
Qed.

Lemma active_somewhere_found w qr_id :
  active_somewhere w qr_id ->
  exists d,
    find_one (fun d => String.eqb (QRLocationDoc.qrId d) qr_id
                       && Bool.eqb (QRLocationDoc.isActive d) true)
             (qr_locations w) = Some d.
Proof.
  intros Ha. destruct (find_one _ (qr_locations w)) as [d|] eqn:Hf; [eauto|].
  apply find_active_None in Hf. contradiction.
Qed.

(** X1. While no database is connected, [validate_qr_code] answers HTTP 500
    "Failed to validate QR code": the 503 that its own body raises is caught
    by its single [except Exception] clause, logged as an error and replaced. *)
Theorem validate_qr_code_offline_is_500 (qr_id : string) (w : World) :
  connected w = false ->
  validate_qr_code qr_id w
  = (Raise (HTTPException HTTP_500_INTERNAL_SERVER_ERROR "Failed to validate QR code"),
     set_log (log w ++ [(ERROR, "Validate QR code error: 503: Database not available")]) w).
Proof.
  intros Hc. unfold validate_qr_code. unfold_handler. rewrite Hc. reflexivity.
Qed.

Lemma validate_qr_code_offline_is_500_witness :
  connected Patrol.offline = false
  /\ validate_qr_code "QR-MAIN-GATE" Patrol.offline
     = (Raise (HTTPException HTTP_500_INTERNAL_SERVER_ERROR "Failed to validate QR code"),
        set_log (log Patrol.offline
                   ++ [(ERROR, "Validate QR code error: 503: Database not available")])
                Patrol.offline).
Proof.
  split; [reflexivity|].
  apply (validate_qr_code_offline_is_500 "QR-MAIN-GATE" Patrol.offline). reflexivity.
Defined.

(** X2. With the database connected, [validate_qr_code] never fails and
    changes nothing; it says [valid] exactly when some location document with
    that QR identifier is active, under whatever supervisor, and then names a
    location that is such a document; otherwise it names none. *)
Theorem validate_qr_code_valid_iff_active (qr_id : string) (w : World) :
  connected w = true ->
  exists r,
    validate_qr_code qr_id w = (Return r, w)
    /\ QRValidation.qr_id r = qr_id
    /\ (QRValidation.valid r = true <-> active_somewhere w qr_id)
    /\ (QRValidation.valid r = true ->
        exists d,
          In d (qr_locations w)
          /\ QRLocationDoc.qrId d = qr_id /\ QRLocationDoc.isActive d = true
          /\ QRValidation.location_name r = Some (QRLocationDoc.locationName d)
          /\ QRValidation.area_city r = Some (QRLocationDoc.areaCity d))
    /\ (QRValidation.valid r = false ->
        QRValidation.location_name r = None /\ QRValidation.area_city r = None).
Proof.
  intros Hc. rewrite (validate_qr_code_connected qr_id w Hc).
  destruct (find_one _ (qr_locations w)) as [d|] eqn:Hf; cbn.
  - apply find_active_Some in Hf as (Hin & Hq & Hact).
    eexists. split; [reflexivity|]. cbn. split; [reflexivity|].
    split; [split; [intros _; exists d; auto|reflexivity]|].
    split; [intros _; exists d; auto|discriminate].
  - apply find_active_None in Hf.
    eexists. split; [reflexivity|]. cbn. split; [reflexivity|].
    split; [split; [discriminate|intros H; contradiction]|].
    split; [discriminate|auto].
Qed.

Lemma validate_qr_code_valid_iff_active_witness :
  connected Patrol.world = true
  /\ exists r,
       validate_qr_code "QR-ANNEX" Patrol.world = (Return r, Patrol.world)
       /\ QRValidation.valid r = true
       /\ QRValidation.location_name r = Some "Annex".
Proof.
  assert (Hc : connected Patrol.world = true) by reflexivity.
  split; [exact Hc|].
  destruct (validate_qr_code_valid_iff_active "QR-ANNEX" Patrol.world Hc)
    as (r & E & _ & _ & _ & _).
  exists r. split; [exact E|].
  vm_compute in E. injection E as <-. split; reflexivity.
Defined.

(** X3. A QR identifier for which a scan, authenticated or public, returns a
    verdict is one that [validate_qr_code] calls valid, before the scan and
    after it. *)
Theorem scanned_code_is_valid (env : Env) (w : World) :
  (forall req g v w',
     scan_qr_code env req g w = (Return v, w') ->
     (exists r, validate_qr_code (QRScanRequest.qrId req) w = (Return r, w)
                /\ QRValidation.valid r = true)
     /\ (exists r, validate_qr_code (QRScanRequest.qrId req) w' = (Return r, w')
                   /\ QRValidation.valid r = true))
  /\
  (forall req v w',
     public_scan_qr_code env req w = (Return v, w') ->
     (exists r, validate_qr_code (QRCodePublicScanRequest.qrId req) w = (Return r, w)
                /\ QRValidation.valid r = true)
     /\ (exists r, validate_qr_code (QRCodePublicScanRequest.qrId req) w' = (Return r, w')
                   /\ QRValidation.valid r = true)).
Proof.
  assert (Hvalid : forall w0 qr_id,
             connected w0 = true -> active_somewhere w0 qr_id ->
             exists r, validate_qr_code qr_id w0 = (Return r, w0)
                       /\ QRValidation.valid r = true).
  { intros w0 q Hc Ha. rewrite (validate_qr_code_connected q w0 Hc).
    destruct (active_somewhere_found w0 q Ha) as (d & ->).
    eexists. split; reflexivity. }
  split.
  - intros req g v w' E. apply scan_qr_code_ends in E.
    inversion E as [| | | |loc oid w1 Hc Hl Hlat Hi Hev Hdir]; subst.
    apply resolve_active_location_Some in Hl as (Hin & Hq & _ & Hact).
    destruct Hdir as (Hc' & _ & _ & _ & Hlocs).
    split; apply Hvalid; try congruence.
    + exists loc. auto.
    + exists loc. rewrite Hlocs. auto.
  - intros req v w' E. apply public_scan_qr_code_ends in E.
    inversion E as [| | | | |u gd loc oid w1 Hc Hg Hl Hlat Hi Hev Hdir]; subst.
    apply resolve_active_location_Some in Hl as (Hin & Hq & _ & Hact).
    destruct Hdir as (Hc' & _ & _ & _ & Hlocs).
    split; apply Hvalid; try congruence.
    + exists loc. auto.
    + exists loc. rewrite Hlocs. auto.
Qed.

Lemma scanned_code_is_valid_witness :
  (exists v w',
     scan_qr_code Sample.env Sample.scan_near Sample.current_guard Sample.world
     = (Return v, w')
     /\ (exists r, validate_qr_code "QR-MAIN-GATE" Sample.world = (Return r, Sample.world)
                   /\ QRValidation.valid r = true)
     /\ (exists r, validate_qr_code "QR-MAIN-GATE" w' = (Return r, w')
                   /\ QRValidation.valid r = true))
  /\
  (exists v w',
     public_scan_qr_code Sample.env Sample.public_scan_near Sample.world
     = (Return v, w')
     /\ (exists r, validate_qr_code "QR-MAIN-GATE" Sample.world = (Return r, Sample.world)
                   /\ QRValidation.valid r = true)
     /\ (exists r, validate_qr_code "QR-MAIN-GATE" w' = (Return r, w')
                   /\ QRValidation.valid r = true)).
Proof.
  assert (Eg : scan_qr_code Sample.env Sample.scan_near Sample.current_guard Sample.world
               = (Return (guard_verdict Sample.env Sample.scan_near Sample.main_gate
                            Sample.new_oid),
                  (scan_qr_code Sample.env Sample.scan_near Sample.current_guard
                     Sample.world).2))
    by (vm_compute; reflexivity).
  assert (Ep : public_scan_qr_code Sample.env Sample.public_scan_near Sample.world
               = (Return (public_verdict Sample.env Sample.public_scan_near
                            Sample.guard_user Sample.main_gate Sample.new_oid),
                  (public_scan_qr_code Sample.env Sample.public_scan_near
                     Sample.world).2))
    by (vm_compute; reflexivity).
  split.
  - eexists; eexists. split; [exact Eg|].
    exact (proj1 (scanned_code_is_valid Sample.env Sample.world) _ _ _ _ Eg).
  - eexists; eexists. split; [exact Ep|].
    exact (proj2 (scanned_code_is_valid Sample.env Sample.world) _ _ _ Ep).
Defined.

Lemma get_qr_location_info_connected env location_address qr_id w :
  connected w = true ->
  get_qr_location_info env location_address qr_id w
  = (match find_one (fun d => String.eqb (QRLocationDoc.qrId d) qr_id
                              && Bool.eqb (QRLocationDoc.isActive d) true)
                    (qr_locations w) with
     | None => Raise (HTTPException HTTP_404_NOT_FOUND "QR location not found")
     | Some qr_location =>
       Return (QRLocationInfo.mk
                 (QRLocationDoc.qrId qr_location)
                 (QRLocationDoc.locationName qr_location)
                 (Coordinates.mk
                    (Coordinates.latitude (QRLocationDoc.coordinates qr_location))
                    (Coordinates.longitude (QRLocationDoc.coordinates qr_location)))
                 (default "" (location_address qr_location))
                 (QRLocationDoc.areaCity qr_location)
                 (QRLocationDoc.areaState qr_location)
                 (QRLocationDoc.areaCountry qr_location)
                 (WITHIN_RADIUS_METERS env))
     end, w).
Proof.
  intros Hc. unfold get_qr_location_info. unfold_handler. rewrite Hc. cbn.
  destruct (find_one _ (qr_locations w)); reflexivity.
Qed.

(** X4. With the database connected, [get_qr_location_info] describes a
    location exactly for the QR identifiers that [validate_qr_code] calls
    valid, and what it describes is one active location document with the
    identifier asked for: the name, the coordinates, the city, the state and
    the country are those of that document, the address is the one of that
    document, or the empty string when that document has none, and the
    radius is the configured one; the name and the city are the ones that
    [validate_qr_code] gives.  For the other identifiers it answers HTTP
    404.  Neither handler changes anything. *)
Theorem location_info_agrees_with_validation (env : Env)
    (location_address : QRLocationDoc.t -> option string) (qr_id : string) (w : World) :
  connected w = true ->
  exists r,
    validate_qr_code qr_id w = (Return r, w)
    /\ (QRValidation.valid r = true ->
        exists i d,
          get_qr_location_info env location_address qr_id w = (Return i, w)
          /\ In d (qr_locations w)
          /\ QRLocationDoc.qrId d = qr_id
          /\ QRLocationDoc.isActive d = true
          /\ QRLocationInfo.qr_id i = qr_id
          /\ QRLocationInfo.location_name i = QRLocationDoc.locationName d
          /\ QRLocationInfo.coordinates i = QRLocationDoc.coordinates d
          /\ QRLocationInfo.area_city i = QRLocationDoc.areaCity d
          /\ QRLocationInfo.area_state i = QRLocationDoc.areaState d
          /\ QRLocationInfo.area_country i = QRLocationDoc.areaCountry d
          /\ QRLocationInfo.address i = default "" (location_address d)
          /\ (location_address d = None -> QRLocationInfo.address i = "")
          /\ QRLocationInfo.radius_limit i = WITHIN_RADIUS_METERS env
          /\ QRValidation.location_name r = Some (QRLocationInfo.location_name i)
          /\ QRValidation.area_city r = Some (QRLocationInfo.area_city i))
    /\ (QRValidation.valid r = false ->
        get_qr_location_info env location_address qr_id w
        = (Raise (HTTPException HTTP_404_NOT_FOUND "QR location not found"), w)).
Proof.
  intros Hc.
  rewrite (validate_qr_code_connected qr_id w Hc),
    (get_qr_location_info_connected env location_address qr_id w Hc).
  destruct (find_one _ (qr_locations w)) as [d|] eqn:Hf.
  - apply find_active_Some in Hf as (Hin & Hq & Hact).
    eexists. split; [reflexivity|]. split; [|discriminate].
    intros _. eexists; exists d. split; [reflexivity|]. cbn.
    destruct d as [oid q sid act name [lat lon] city state country]. cbn in *.
    repeat split; auto. intros ->. reflexivity.
  - eexists. split; [reflexivity|]. split; [discriminate|reflexivity].
Qed.

(** The theorem at the main gate, which has an address on file, at the
    annex, which has none, and at the deactivated depot. *)
Lemma location_info_agrees_with_validation_witness :
  connected Patrol.world = true
  /\ (exists i,
        get_qr_location_info Sample.env Patrol.location_address "QR-MAIN-GATE" Patrol.world
        = (Return i, Patrol.world)
        /\ QRLocationInfo.location_name i = "Main gate"
        /\ QRLocationInfo.address i = "1 MG Road")
  /\ (exists i,
        get_qr_location_info Sample.env Patrol.location_address "QR-ANNEX" Patrol.world
        = (Return i, Patrol.world)
        /\ QRLocationInfo.location_name i = "Annex"
        /\ QRLocationInfo.address i = "")
  /\ get_qr_location_info Sample.env Patrol.location_address "QR-DEPOT" Patrol.world
     = (Raise (HTTPException HTTP_404_NOT_FOUND "QR location not found"), Patrol.world).
Proof.
  assert (Hc : connected Patrol.world = true) by reflexivity.
  split; [exact Hc|]. split; [|split].
  - destruct (location_info_agrees_with_validation Sample.env Patrol.location_address
                "QR-MAIN-GATE" Patrol.world Hc) as (r & E & Hv & _).
    vm_compute in E. injection E as <-.
    destruct (Hv eq_refl) as (i & d & Ei & _).
    exists i. split; [exact Ei|].
    vm_compute in Ei. injection Ei as <-. split; reflexivity.
  - destruct (location_info_agrees_with_validation Sample.env Patrol.location_address
                "QR-ANNEX" Patrol.world Hc) as (r & E & Hv & _).
    vm_compute in E. injection E as <-.
    destruct (Hv eq_refl) as (i & d & Ei & _).
    exists i. split; [exact Ei|].
    vm_compute in Ei. injection Ei as <-. split; reflexivity.
  - destruct (location_info_agrees_with_validation Sample.env Patrol.location_address
                "QR-DEPOT" Patrol.world Hc) as (r & E & _ & Hn).
    vm_compute in E. injection E as <-. exact (Hn eq_refl).
Defined.

(** ** The scan history *)

#[local] Instance scanned_not_before_total : Total scanned_not_before.
Proof. intros x y. unfold scanned_not_before. lia. Qed.

#[local] Instance scanned_not_before_trans : Transitive scanned_not_before.
Proof. intros x y z. unfold scanned_not_before. lia. Qed.

#[local] Instance scanned_not_after_total : Total scanned_not_after.
Proof. intros x y. unfold scanned_not_after. lia. Qed.

#[local] Instance scanned_not_after_trans : Transitive scanned_not_after.
Proof. intros x y z. unfold scanned_not_after. lia. Qed.

Lemma StronglySorted_take {A} (R : relation A) n l :
  StronglySorted R l -> StronglySorted R (take n l).
Proof.
  intros H. revert n. induction H as [|x l Hl IH Hx]; intros [|n]; cbn;
    try constructor; auto.
  apply Forall_take, Hx.
Qed.

Lemma StronglySorted_drop {A} (R : relation A) n l :
  StronglySorted R l -> StronglySorted R (drop n l).
Proof.
  revert l. induction n as [|n IH]; intros l H; [exact H|].
  destruct l as [|x l]; [constructor|]. cbn.
  apply IH. apply StronglySorted_inv in H. tauto.
Qed.

Lemma StronglySorted_cursor {A} (R : relation A) limit skip l :
  StronglySorted R l -> StronglySorted R (cursor_limit limit (cursor_skip skip l)).
Proof.
  intros H. unfold cursor_limit, cursor_skip.
  destruct limit; [|apply StronglySorted_take]; apply StronglySorted_drop, H.
Qed.

Lemma cursor_In {A} limit skip (l : list A) x :
  In x (cursor_limit limit (cursor_skip skip l)) -> In x l.
Proof.
  unfold cursor_limit, cursor_skip. intros H.
  assert (Hd : In x (drop skip l)).
  { destruct limit; [exact H|].
    apply list_elem_of_In in H. apply list_elem_of_In.
    exact (sublist_subseteq _ _ (sublist_take _ _) _ H). }
  apply list_elem_of_In in Hd. apply list_elem_of_In.
  exact (sublist_subseteq _ _ (sublist_drop _ _) _ Hd).
Qed.

Lemma merge_sort_In {A} (R : relation A) `{forall x y, Decision (R x y)} (l : list A) x :
  In x (merge_sort R l) <-> In x l.
Proof.
  rewrite <- !list_elem_of_In. apply elem_of_Permutation_proper, merge_sort_Permutation.
Qed.

Lemma get_scan_history_connected g start_date end_date qr_id within_radius_only
    limit skip w :
  connected w = true ->
  get_scan_history g start_date end_date qr_id within_radius_only limit skip w
  = (Return
       (map (scan_event_response g)
          (cursor_limit limit
             (cursor_skip skip
                (merge_sort scanned_not_before
                   (List.filter
                      (scan_history_filter (CurrentGuard.guard_id g) start_date end_date
                         qr_id within_radius_only)
                      (scan_events w)))))), w).
Proof.
  intros Hc. unfold get_scan_history. unfold_handler. rewrite Hc. reflexivity.
Qed.

Lemma get_scan_history_returns g start_date end_date qr_id within_radius_only
    limit skip w l w' :
  get_scan_history g start_date end_date qr_id within_radius_only limit skip w
  = (Return l, w') ->
  w' = w
  /\ l = map (scan_event_response g)
           (cursor_limit limit
              (cursor_skip skip
                 (merge_sort scanned_not_before
                    (List.filter
                       (scan_history_filter (CurrentGuard.guard_id g) start_date end_date
                          qr_id within_radius_only)
                       (scan_events w))))).
Proof.
  destruct (connected w) eqn:Hc.
  - rewrite get_scan_history_connected by exact Hc. intros E. split; congruence.
  - unfold get_scan_history. unfold_handler. rewrite Hc. cbn. discriminate.
Qed.



Lemma StronglySorted_map {A B} (f : A -> B) (R1 : relation A) (R2 : relation B) l :
  (forall x y, R1 x y -> R2 (f x) (f y)) ->
  StronglySorted R1 l -> StronglySorted R2 (map f l).
Proof.
  intros HR H. induction H as [|x l Hl IH Hx]; cbn; constructor; [exact IH|].
  apply Forall_forall. intros y Hy. apply list_elem_of_In in Hy.
  apply in_map_iff in Hy as (z & <- & Hz).
  apply HR. rewrite Forall_forall in Hx. apply Hx. apply list_elem_of_In, Hz.
Qed.

Lemma cursor_limit_length {A} limit (l : list A) :
  (1 <= limit)%nat -> (length (cursor_limit limit l) <= limit)%nat.
Proof.
  intros H. unfold cursor_limit. destruct limit; [lia|].
  rewrite length_take. lia.
Qed.

(** X6. For a limit of at least 1, as the route demands, [get_scan_history]
    returns at most [limit] entries, the newest first. *)
Theorem scan_history_is_bounded_and_newest_first (g : CurrentGuard.t)
    (start_date end_date : option datetime) (qr_id : option string)
    (within_radius_only : option bool) (limit skip : nat)
    (w w' : World) (l : list ScanEventResponse.t) :
  (1 <= limit)%nat ->
  get_scan_history g start_date end_date qr_id within_radius_only limit skip w
  = (Return l, w') ->
  (length l <= limit)%nat /\ newest_first (map ScanEventResponse.scannedAt l).
Proof.
  intros Hlim E. apply get_scan_history_returns in E as [-> ->]. split.
  - rewrite length_map. apply cursor_limit_length, Hlim.
  - unfold newest_first. rewrite map_map.
    apply StronglySorted_map with (R1 := scanned_not_before); [auto|].
    apply StronglySorted_cursor, StronglySorted_merge_sort; apply _.
Qed.

Lemma scan_history_is_bounded_and_newest_first_witness :
  (1 <= 2)%nat
  /\ exists l,
       get_scan_history Sample.current_guard None None None None 2 1 Patrol.world
       = (Return l, Patrol.world)
       /\ (length l <= 2)%nat
       /\ newest_first (map ScanEventResponse.scannedAt l)
       /\ map ScanEventResponse.id l
          = ["64b7f0c2a1d3e4f5a6b7ca03"; "64b7f0c2a1d3e4f5a6b7ca02"].
Proof.
  assert (Hlim : (1 <= 2)%nat) by lia.
  pose proof (get_scan_history_connected Sample.current_guard None None None None
                2 1 Patrol.world eq_refl) as E.
  split; [exact Hlim|]. eexists. split; [exact E|].
  destruct (scan_history_is_bounded_and_newest_first _ _ _ _ _ _ _ _ _ _ Hlim E)
    as [Hlen Hsorted].
  split; [exact Hlen|]. split; [exact Hsorted|]. vm_compute. reflexivity.
Defined.

(** Where no two documents have the same key, the sort key fixes the order:
    two sorted lists of the same documents are the same list. *)
Lemma sorted_answer_unique {A} (R : relation A) (key : A -> Z) (l1 : list A) :
  (forall x y, R x y -> (key y <= key x)%Z) ->
  forall l2,
    NoDup (map key l1) -> Permutation l1 l2 ->
    StronglySorted R l1 -> StronglySorted R l2 -> l1 = l2.
Proof.
  intros HR. induction l1 as [|x l1 IH]; intros l2 Hnd Hp Hs1 Hs2.
  - apply Permutation_nil in Hp. congruence.
  - destruct l2 as [|y l2]; [apply Permutation_sym, Permutation_nil_cons in Hp; contradiction|].
    apply StronglySorted_inv in Hs1 as [Hs1 Hx]. apply StronglySorted_inv in Hs2 as [Hs2 Hy].
    cbn in Hnd. apply NoDup_cons in Hnd as [Hkey Hnd].
    rewrite Forall_forall in Hx, Hy.
    assert (Hxy : x = y).
    { assert (Hyin : y ∈ x :: l1) by (rewrite Hp; left).
      assert (Hxin : x ∈ y :: l2) by (rewrite <- Hp; left).
      apply elem_of_cons in Hyin as [->|Hyin]; [reflexivity|].
      apply elem_of_cons in Hxin as [->|Hxin]; [reflexivity|].
      exfalso. apply Hkey.
      pose proof (HR _ _ (Hx _ Hyin)). pose proof (HR _ _ (Hy _ Hxin)).
      replace (key x) with (key y) by lia.
      apply list_elem_of_fmap. exists y. auto. }
    subst y. apply Permutation_cons_inv in Hp. f_equal. apply IH; assumption.
Qed.

(** X7. The pages of the scan history fit together where no two of the
    matching scan events have the same stored time: for limits of at least
    1, the page of [n] entries after [skip] followed by the page of [m]
    entries after [skip + n] is the page of [n + m] entries after [skip].
    With distinct times the order within the pages is not the store's
    choice: in whatever order the store answers the sorted query, the three
    pages are the ones cut from that answer. *)
Theorem scan_history_pages_compose (g : CurrentGuard.t)
    (start_date end_date : option datetime) (qr_id : option string)
    (within_radius_only : option bool) (n m skip : nat)
    (w w1 w2 w12 : World) (l1 l2 l12 : list ScanEventResponse.t) :
  (1 <= n)%nat -> (1 <= m)%nat ->
  distinct_scan_times
    (matching_events w (CurrentGuard.guard_id g) start_date end_date qr_id
       within_radius_only) ->
  get_scan_history g start_date end_date qr_id within_radius_only n skip w
  = (Return l1, w1) ->
  get_scan_history g start_date end_date qr_id within_radius_only m (skip + n) w
  = (Return l2, w2) ->
  get_scan_history g start_date end_date qr_id within_radius_only (n + m) skip w
  = (Return l12, w12) ->
  l12 = (l1 ++ l2)%list
  /\ forall answer,
       sorted_answer scanned_not_before
         (matching_events w (CurrentGuard.guard_id g) start_date end_date qr_id
            within_radius_only)
         answer ->
       l1 = map (scan_event_response g) (cursor_limit n (cursor_skip skip answer))
       /\ l2 = map (scan_event_response g)
                  (cursor_limit m (cursor_skip (skip + n) answer))
       /\ l12 = map (scan_event_response g)
                   (cursor_limit (n + m) (cursor_skip skip answer)).
Proof.
  intros Hn Hm Hnd E1 E2 E12.
  apply get_scan_history_returns in E1 as [_ ->].
  apply get_scan_history_returns in E2 as [_ ->].
  apply get_scan_history_returns in E12 as [_ ->].
  fold (matching_events w (CurrentGuard.guard_id g) start_date end_date qr_id
          within_radius_only).
  set (matching := matching_events w (CurrentGuard.guard_id g) start_date end_date qr_id
                     within_radius_only) in *.
  split.
  - rewrite <- map_app. f_equal.
    unfold cursor_limit, cursor_skip.
    destruct n as [|n]; [lia|]. destruct m as [|m]; [lia|].
    replace (S n + S m)%nat with (S (n + S m)) by lia.
    rewrite <- drop_drop.
    replace (S (n + S m)) with (S n + S m)%nat by lia.
    symmetry. apply take_take_drop.
  - intros answer [Hp Hs].
    assert (Hsame : merge_sort scanned_not_before matching = answer).
    { apply (sorted_answer_unique scanned_not_before
               (fun e => ScanEventDoc.scannedAt e.2)).
      - intros x y Hxy. exact Hxy.
      - unfold distinct_scan_times in Hnd.
        rewrite (merge_sort_Permutation scanned_not_before matching). exact Hnd.
      - rewrite merge_sort_Permutation. symmetry. exact Hp.
      - apply StronglySorted_merge_sort; apply _.
      - exact Hs. }
    rewrite Hsame. auto.
Qed.

(** The theorem at Asha's scans of the patrol history, which were made at
    four different times. *)
Lemma scan_history_pages_compose_witness :
  (1 <= 1)%nat /\ (1 <= 2)%nat
  /\ distinct_scan_times
       (matching_events Patrol.world (CurrentGuard.guard_id Sample.current_guard)
          None None None None)
  /\ exists l1 l2 l12,
       get_scan_history Sample.current_guard None None None None 1 1 Patrol.world
       = (Return l1, Patrol.world)
       /\ get_scan_history Sample.current_guard None None None None 2 (1 + 1) Patrol.world
          = (Return l2, Patrol.world)
       /\ get_scan_history Sample.current_guard None None None None (1 + 2) 1 Patrol.world
          = (Return l12, Patrol.world)
       /\ l12 = (l1 ++ l2)%list
       /\ length l12 = 3%nat.
Proof.
  assert (H1 : (1 <= 1)%nat) by lia. assert (H2 : (1 <= 2)%nat) by lia.
  assert (Hd : distinct_scan_times
                 (matching_events Patrol.world
                    (CurrentGuard.guard_id Sample.current_guard) None None None None)).
  { unfold distinct_scan_times. apply (bool_decide_unpack _). vm_compute. reflexivity. }
  pose proof (get_scan_history_connected Sample.current_guard None None None None
                1 1 Patrol.world eq_refl) as E1.
  pose proof (get_scan_history_connected Sample.current_guard None None None None
                2 (1 + 1) Patrol.world eq_refl) as E2.
  pose proof (get_scan_history_connected Sample.current_guard None None None None
                (1 + 2) 1 Patrol.world eq_refl) as E12.
  split; [exact H1|]. split; [exact H2|]. split; [exact Hd|].
  eexists; eexists; eexists.
  split; [exact E1|]. split; [exact E2|]. split; [exact E12|].
  split; [exact (proj1 (scan_history_pages_compose _ _ _ _ _ _ _ _ _ _ _ _ _ _ _
                          H1 H2 Hd E1 E2 E12))|].
  vm_compute. reflexivity.
Defined.

Lemma scan_history_filter_plain guard_id e :
  scan_history_filter guard_id None None None None e
  = String.eqb (ScanEventDoc.guardId e.2) guard_id.
Proof. unfold scan_history_filter. rewrite !andb_true_r. reflexivity. Qed.

Lemma filter_plain_history guard_id l :
  List.filter (scan_history_filter guard_id None None None None) l
  = List.filter (fun e => String.eqb (ScanEventDoc.guardId e.2) guard_id) l.
Proof. apply filter_ext. intros e. apply scan_history_filter_plain. Qed.

(** X8. A scan that returned a verdict shows up in the guard's scan history:
    asked without filters and with a limit above the number of the guard's
    earlier events, [get_scan_history] returns all of the guard's events, one
    more than before, and among them an entry with the identifier, the
    within-radius flag, the distance, the address and the location name of
    the verdict.  The time of that entry is the time of the verdict kept to
    the millisecond: a whole number of milliseconds, not after the verdict's
    time and less than a millisecond before it. *)
Theorem recorded_scan_appears_in_history (env : Env) (req : QRScanRequest.t)
    (g : CurrentGuard.t) (w w' : World) (v : QRScanResponse.t) (limit : nat) :
  scan_qr_code env req g w = (Return v, w') ->
  (length (events_of w (CurrentGuard.guard_id g)) < limit)%nat ->
  exists l r,
    get_scan_history g None None None None limit 0 w' = (Return l, w')
    /\ length l = S (length (events_of w (CurrentGuard.guard_id g)))
    /\ In r l
    /\ ScanEventResponse.id r = QRScanResponse.scanEventId v
    /\ ScanEventResponse.isWithinRadius r = QRScanResponse.isWithinRadius v
    /\ ScanEventResponse.distanceFromQR r = QRScanResponse.distanceFromQR v
    /\ ScanEventResponse.address r = QRScanResponse.address v
    /\ ScanEventResponse.locationName r = QRScanResponse.locationName v
    /\ ScanEventResponse.scannedAt r = bson_datetime (QRScanResponse.scannedAt v)
    /\ (ScanEventResponse.scannedAt r mod 1000 = 0)%Z
    /\ (ScanEventResponse.scannedAt r <= QRScanResponse.scannedAt v
        < ScanEventResponse.scannedAt r + 1000)%Z.
Proof.
  intros E Hlim. apply scan_qr_code_ends in E.
  inversion E as [| | | |loc oid w1 Hc Hl Hlat Hi Hev Hdir]; subst.
  destruct Hdir as (Hc' & _).
  rewrite get_scan_history_connected by congruence.
  set (doc := bson_scan_event (guard_scan_event env req g loc)) in *.
  assert (Hown : List.filter (scan_history_filter (CurrentGuard.guard_id g)
                                None None None None) (scan_events w')
                 = (events_of w (CurrentGuard.guard_id g) ++ [(oid, doc)])%list).
  { rewrite filter_plain_history, Hev, List.filter_app. cbn.
    rewrite String.eqb_refl. reflexivity. }
  rewrite Hown.
  set (own := (events_of w (CurrentGuard.guard_id g) ++ [(oid, doc)])%list).
  assert (Hlen : length (merge_sort scanned_not_before own)
                 = S (length (events_of w (CurrentGuard.guard_id g)))).
  { rewrite (Permutation_length (merge_sort_Permutation _ own)).
    unfold own. rewrite length_app. cbn. lia. }
  assert (Hall : cursor_limit limit (cursor_skip 0 (merge_sort scanned_not_before own))
                 = merge_sort scanned_not_before own).
  { unfold cursor_limit, cursor_skip. cbn [drop]. destruct limit; [reflexivity|].
    apply take_ge. lia. }
  rewrite Hall.
  exists (map (scan_event_response g) (merge_sort scanned_not_before own)),
         (scan_event_response g (oid, doc)).
  split; [reflexivity|]. split; [rewrite length_map; exact Hlen|].
  split; [apply in_map, merge_sort_In; unfold own; apply in_or_app; right; left;
          reflexivity|].
  pose proof (bson_datetime_millisecond (utcnow env)) as [Hms Hnear].
  cbn. repeat split; first [reflexivity | assumption | apply Hnear].
Qed.

(** The theorem at a scan by Asha after the patrol history, with a clock
    that reads 123456 microseconds past noon: the verdict carries that
    reading, the entry of the history has noon and 123 milliseconds. *)
Lemma recorded_scan_appears_in_history_witness :
  exists v w' l r,
    scan_qr_code (Patrol.env_at (Sample.clock + 123456)%Z Sample.new_oid)
      Sample.scan_near Sample.current_guard Patrol.world
    = (Return v, w')
    /\ (length (events_of Patrol.world (CurrentGuard.guard_id Sample.current_guard))
        < 100)%nat
    /\ get_scan_history Sample.current_guard None None None None 100 0 w' = (Return l, w')
    /\ length l = 5%nat
    /\ In r l
    /\ ScanEventResponse.id r = Sample.new_oid
    /\ ScanEventResponse.isWithinRadius r = true
    /\ QRScanResponse.scannedAt v = (Sample.clock + 123456)%Z
    /\ ScanEventResponse.scannedAt r = (Sample.clock + 123000)%Z.
Proof.
  set (env := Patrol.env_at (Sample.clock + 123456)%Z Sample.new_oid).
  assert (E : scan_qr_code env Sample.scan_near Sample.current_guard Patrol.world
              = (Return (guard_verdict env Sample.scan_near Sample.main_gate
                           Sample.new_oid),
                 (scan_qr_code env Sample.scan_near Sample.current_guard
                    Patrol.world).2))
    by (vm_compute; reflexivity).
  assert (Hlim : (length (events_of Patrol.world
                            (CurrentGuard.guard_id Sample.current_guard)) < 100)%nat)
    by (vm_compute; lia).
  destruct (recorded_scan_appears_in_history _ _ _ _ _ _ 100 E Hlim)
    as (l & r & Eh & Hlen & Hin & Hid & Hw & _ & _ & _ & Ht & _).
  eexists; eexists; exists l, r.
  split; [exact E|]. split; [exact Hlim|]. split; [exact Eh|].
  split; [rewrite Hlen; vm_compute; reflexivity|].
  split; [exact Hin|]. split; [exact Hid|].
  split; [rewrite Hw; vm_compute; reflexivity|].
  split; [reflexivity|]. rewrite Ht. vm_compute. reflexivity.
Defined.

(** ** The guard dashboard *)

Lemma count_documents_le {A} (f g : A -> bool) (l : list A) :
  (forall x, f x = true -> g x = true) ->
  (count_documents f l <= count_documents g l)%nat.
Proof.
  intros Hfg. unfold count_documents. induction l as [|x l IH]; cbn; [lia|].
  destruct (f x) eqn:Hf.
  - rewrite (Hfg x Hf). cbn. lia.
  - destruct (g x); cbn; lia.
Qed.

Lemma weekday_bounds t : (0 <= weekday t < 7)%Z.
Proof. unfold weekday. apply Z.mod_pos_bound. lia. Qed.

Lemma start_of_day_le t : (start_of_day t <= t)%Z.
Proof.
  unfold start_of_day, microseconds_per_day.
  pose proof (Z.mod_pos_bound t 86400000000). lia.
Qed.

Lemma start_of_day_day t :
  (start_of_day t = t / microseconds_per_day * microseconds_per_day)%Z.
Proof.
  unfold start_of_day, microseconds_per_day.
  pose proof (Z.div_mod t 86400000000). lia.
Qed.

(** The start of the week of a [datetime] is a [datetime]: 0001-01-01 was a
    Monday. *)
Lemma week_start_valid t :
  valid_datetime t ->
  valid_datetime (start_of_day t + - timedelta_days (weekday (start_of_day t)))%Z.
Proof.
  unfold valid_datetime, datetime_min, datetime_max, timedelta_days, weekday.
  intros [Hlo Hhi]. rewrite start_of_day_day. unfold microseconds_per_day.
  rewrite Z.div_mul by lia.
  set (D := (t / 86400000000)%Z).
  assert (HD : (-719162 <= D)%Z).
  { unfold D. apply Z.div_le_lower_bound; lia. }
  assert (HDt : (D * 86400000000 <= t)%Z).
  { unfold D. pose proof (Z.mul_div_le t 86400000000). lia. }
  pose proof (Z.div_mod (D + 3) 7 ltac:(lia)) as Hdm.
  pose proof (Z.mod_pos_bound (D + 3) 7 ltac:(lia)) as Hm.
  lia.
Qed.

Lemma get_guard_dashboard_unchanged env fl s w d w' :
  get_guard_dashboard env fl s w = (Return d, w') -> w' = w /\ connected w = true.
Proof.
  destruct (connected w) eqn:Hc; run_dashboard Hc; [|discriminate].
  destruct (_ && _); cbn; intros E; [split; congruence|discriminate].
Qed.

(** X9. For a connected database and a clock reading that is a [datetime],
    [get_guard_dashboard] returns a dashboard and changes nothing: the start
    of the week always exists. *)
Theorem guard_dashboard_answers (env : Env) (fl : Q -> Q) (s : GuardSession.t)
    (w : World) :
  connected w = true ->
  valid_datetime (utcnow env) ->
  exists d, get_guard_dashboard env fl s w = (Return d, w).
Proof.
  intros Hc Hv. run_dashboard Hc.
  destruct (week_start_valid _ Hv) as [Hlo Hhi].
  apply Z.leb_le in Hlo, Hhi. rewrite Hlo, Hhi. cbn. eexists. reflexivity.
Qed.

Lemma guard_dashboard_answers_witness :
  connected Patrol.world = true
  /\ valid_datetime (utcnow Sample.env)
  /\ exists d,
       get_guard_dashboard Sample.env Patrol.exact Patrol.session Patrol.world
       = (Return d, Patrol.world).
Proof.
  assert (Hc : connected Patrol.world = true) by reflexivity.
  assert (Hv : valid_datetime (utcnow Sample.env)) by (vm_compute; split; discriminate).
  split; [exact Hc|]. split; [exact Hv|].
  exact (guard_dashboard_answers Sample.env Patrol.exact Patrol.session Patrol.world Hc Hv).
Defined.

(** X10. On every dashboard that [get_guard_dashboard] returns, the scans of
    today are among those of this week, and those among all scans of the
    guard: [today_scans <= this_week_scans <= total_scans]. *)
Theorem guard_dashboard_counts_are_nested (env : Env) (fl : Q -> Q)
    (s : GuardSession.t) (w w' : World) (d : GuardDashboard.t) :
  get_guard_dashboard env fl s w = (Return d, w') ->
  (GuardDashboard.today_scans (GuardDashboard.stats d)
   <= GuardDashboard.this_week_scans (GuardDashboard.stats d)
   <= GuardDashboard.total_scans (GuardDashboard.stats d))%nat.
Proof.
  destruct (connected w) eqn:Hc; run_dashboard Hc; [|discriminate].
  destruct (_ && _); cbn; [|discriminate].
  intros E. injection E as <- _. cbn.
  pose proof (weekday_bounds (start_of_day (utcnow env))) as Hwd.
  split; apply count_documents_le; intros e He.
  - apply andb_prop in He as [Hg Ht]. rewrite Hg. cbn.
    apply Z.leb_le in Ht. apply Z.leb_le.
    unfold timedelta_days, microseconds_per_day. lia.
  - apply andb_prop in He as [Hg _]. exact Hg.
Qed.

Lemma guard_dashboard_counts_are_nested_witness :
  exists d,
    get_guard_dashboard Sample.env Patrol.exact Patrol.session Patrol.world
    = (Return d, Patrol.world)
    /\ (GuardDashboard.today_scans (GuardDashboard.stats d)
        <= GuardDashboard.this_week_scans (GuardDashboard.stats d)
        <= GuardDashboard.total_scans (GuardDashboard.stats d))%nat
    /\ GuardDashboard.today_scans (GuardDashboard.stats d) = 2%nat
    /\ GuardDashboard.total_scans (GuardDashboard.stats d) = 4%nat.
Proof.
  eexists.
  match goal with |- ?P /\ _ => assert (E : P) by (vm_compute; reflexivity) end.
  split; [exact E|].
  split; [exact (guard_dashboard_counts_are_nested _ _ _ _ _ _ E)|].
  split; reflexivity.
Defined.

Lemma round_half_even_bounds (y : Q) (a b : Z) :
  (inject_Z a <= y)%Q -> (y <= inject_Z b)%Q ->
  (a <= Py.round_half_even y <= b)%Z.
Proof.
  intros Ha Hb. unfold Py.round_half_even.
  pose proof (Qfloor_le y) as Hf.
  assert (Haf : (a <= Qfloor y)%Z).
  { rewrite <- (Qfloor_Z a). apply Qfloor_resp_le, Ha. }
  assert (Hfb : (Qfloor y <= b)%Z).
  { rewrite <- (Qfloor_Z b). apply Qfloor_resp_le, Hb. }
  assert (Hup : (1 # 2 <= y - inject_Z (Qfloor y))%Q -> (Qfloor y + 1 <= b)%Z).
  { intros Hhalf. assert (Hlt : (inject_Z (Qfloor y) < inject_Z b)%Q) by lra.
    rewrite <- Zlt_Qlt in Hlt. lia. }
  destruct (y - inject_Z (Qfloor y) ?= 1 # 2)%Q eqn:Hc.
  - apply Qeq_alt in Hc.
    destruct (Z.even (Qfloor y)); [lia|]. split; [lia|]. apply Hup. lra.
  - lia.
  - apply Qgt_alt in Hc. split; [lia|]. apply Hup. lra.
Qed.

Lemma Py_round_percent x :
  (0 <= x)%Q -> (x <= 100)%Q -> (0 <= Py.round x 1)%Q /\ (Py.round x 1 <= 100)%Q.
Proof.
  intros H0 H100. unfold Py.round.
  destruct (round_half_even_bounds (x * inject_Z (10 ^ Z.of_nat 1)) 0 1000) as [Hlo Hhi].
  - change (inject_Z (10 ^ Z.of_nat 1)) with 10%Q. change (inject_Z 0) with 0%Q. lra.
  - change (inject_Z (10 ^ Z.of_nat 1)) with 10%Q. change (inject_Z 1000) with 1000%Q. lra.
  - set (r := Py.round_half_even (x * inject_Z (10 ^ Z.of_nat 1))) in *.
    change (Z.to_pos (10 ^ Z.of_nat 1)) with 10%positive.
    unfold Qle. cbn. lia.
Qed.

Lemma percentage_bounds fl count total :
  rounds_to_nearest fl -> (count <= total)%nat ->
  (0 <= percentage fl count total)%Q /\ (percentage fl count total <= 100)%Q.
Proof.
  intros (Hmono & H0 & H1 & H100) Hle. unfold percentage.
  destruct (0 <? total)%nat eqn:Hpos; [|split; [apply Qle_refl|discriminate]].
  apply Nat.ltb_lt in Hpos.
  set (q := (inject_Z (Z.of_nat count) / inject_Z (Z.of_nat total))%Q).
  assert (Hq : (0 <= q)%Q /\ (q <= 1)%Q).
  { unfold q. assert (Ht : (0 < inject_Z (Z.of_nat total))%Q).
    { rewrite <- (Zlt_Qlt 0). lia. }
    split.
    - apply Qle_shift_div_l; [exact Ht|]. rewrite Qmult_0_l.
      rewrite <- (Zle_Qle 0). lia.
    - apply Qle_shift_div_r; [exact Ht|]. rewrite Qmult_1_l.
      rewrite <- Zle_Qle. lia. }
  destruct Hq as [Hq0 Hq1].
  pose proof (Hmono _ _ Hq0) as Hf0. pose proof (Hmono _ _ Hq1) as Hf1.
  rewrite H0 in Hf0. rewrite H1 in Hf1.
  assert (Hm0 : (0 <= fl q * 100)%Q) by lra.
  assert (Hm1 : (fl q * 100 <= 100)%Q) by lra.
  pose proof (Hmono _ _ Hm0) as Hr0. pose proof (Hmono _ _ Hm1) as Hr1.
  rewrite H0 in Hr0. rewrite H100 in Hr1. split; assumption.
Qed.

Lemma percentage_of_nothing fl count : percentage fl count 0 = 0%Q.
Proof. reflexivity. Qed.

Lemma filter_and_length {A} (f g : A -> bool) (l : list A) :
  (count_documents (fun x => f x && g x) l <= count_documents f l)%nat.
Proof. apply count_documents_le. intros x H. apply andb_prop in H. tauto. Qed.

(** X11. Where the float arithmetic rounds to the nearest float, the
    [within_radius_percentage] of every dashboard that [get_guard_dashboard]
    returns lies between 0 and 100, and it is 0 for a guard without scans: no
    division by zero takes place. *)
Theorem guard_dashboard_percentage_bounds (env : Env) (fl : Q -> Q)
    (s : GuardSession.t) (w w' : World) (d : GuardDashboard.t) :
  rounds_to_nearest fl ->
  get_guard_dashboard env fl s w = (Return d, w') ->
  (0 <= GuardDashboard.within_radius_percentage (GuardDashboard.stats d))%Q
  /\ (GuardDashboard.within_radius_percentage (GuardDashboard.stats d) <= 100)%Q
  /\ (GuardDashboard.total_scans (GuardDashboard.stats d) = 0%nat ->
      (GuardDashboard.within_radius_percentage (GuardDashboard.stats d) == 0)%Q).
Proof.
  intros Hfl.
  destruct (connected w) eqn:Hc; run_dashboard Hc; [|discriminate].
  destruct (_ && _); cbn; [|discriminate].
  intros E. injection E as <- _. cbn.
  match goal with
  | |- context [percentage fl ?k ?n] =>
    destruct (percentage_bounds fl k n Hfl) as [Hlo Hhi];
      [apply filter_and_length|]
  end.
  destruct (Py_round_percent _ Hlo Hhi) as [Hrlo Hrhi].
  split; [exact Hrlo|]. split; [exact Hrhi|].
  intros ->. rewrite percentage_of_nothing. reflexivity.
Qed.

Lemma guard_dashboard_percentage_bounds_witness :
  rounds_to_nearest Patrol.exact
  /\ exists d,
       get_guard_dashboard Sample.env Patrol.exact Patrol.session Patrol.world
       = (Return d, Patrol.world)
       /\ (0 <= GuardDashboard.within_radius_percentage (GuardDashboard.stats d))%Q
       /\ (GuardDashboard.within_radius_percentage (GuardDashboard.stats d) <= 100)%Q
       /\ GuardDashboard.within_radius_percentage (GuardDashboard.stats d) = 50.0%Q.
Proof.
  assert (Hfl : rounds_to_nearest Patrol.exact)
    by (unfold rounds_to_nearest, Patrol.exact; repeat split; auto with qarith).
  split; [exact Hfl|]. eexists.
  match goal with |- ?P /\ _ => assert (E : P) by (vm_compute; reflexivity) end.
  split; [exact E|].
  destruct (guard_dashboard_percentage_bounds _ _ _ _ _ _ Hfl E) as (Hlo & Hhi & _).
  split; [exact Hlo|]. split; [exact Hhi|]. reflexivity.
Defined.

Lemma head_merge_sort_is_first {A} (R : relation A) `{forall x y, Decision (R x y)}
    `{!Transitive R, !Total R} (l : list A) x :
  head (merge_sort R l) = Some x -> In x l /\ forall y, In y l -> R x y.
Proof.
  intros Hh.
  pose proof (StronglySorted_merge_sort R l) as Hs.
  pose proof (merge_sort_In R l) as Hin.
  destruct (merge_sort R l) as [|x' rest]; [discriminate|].
  injection Hh as ->. split; [apply Hin; left; reflexivity|].
  intros y Hy. apply Hin in Hy as [<-|Hy].
  - destruct (total R x x); assumption.
  - apply StronglySorted_inv in Hs as [_ Hall].
    rewrite Forall_forall in Hall. apply Hall, list_elem_of_In, Hy.
Qed.

Lemma head_merge_sort_None {A} (R : relation A) `{forall x y, Decision (R x y)}
    (l : list A) :
  head (merge_sort R l) = None <-> l = [].
Proof.
  pose proof (Permutation_length (merge_sort_Permutation R l)) as Hlen.
  split.
  - intros Hh. destruct (merge_sort R l); [|discriminate].
    destruct l; [reflexivity|discriminate].
  - intros ->. reflexivity.
Qed.

(** X12. The [recent_scans] of a dashboard are at most 10 and at most as
    many as the guard's scans, the newest first, and each of them is a stored
    scan event of the guard, with its identifier, location name, time,
    within-radius flag and distance. *)
Theorem guard_dashboard_recent_scans (env : Env) (fl : Q -> Q)
    (s : GuardSession.t) (w w' : World) (d : GuardDashboard.t) :
  get_guard_dashboard env fl s w = (Return d, w') ->
  (length (GuardDashboard.recent_scans d) <= 10)%nat
  /\ (length (GuardDashboard.recent_scans d)
      <= GuardDashboard.total_scans (GuardDashboard.stats d))%nat
  /\ newest_first (map GuardDashboard.scanned_at (GuardDashboard.recent_scans d))
  /\ forall r,
       In r (GuardDashboard.recent_scans d) ->
       exists oid e,
         In (oid, e) (scan_events w)
         /\ ScanEventDoc.guardId e = CurrentGuard.guard_id (GuardSession.guard s)
         /\ GuardDashboard.id r = oid
         /\ GuardDashboard.location_name r = ScanEventDoc.locationName e
         /\ GuardDashboard.scanned_at r = ScanEventDoc.scannedAt e
         /\ GuardDashboard.is_within_radius r = ScanEventDoc.isWithinRadius e
         /\ GuardDashboard.distance_from_qr r = ScanEventDoc.distanceFromQR e.
Proof.
  destruct (connected w) eqn:Hc; run_dashboard Hc; [|discriminate].
  destruct (_ && _); cbn; [|discriminate].
  intros E. injection E as <- _. cbn.
  set (own := List.filter _ (scan_events w)).
  split; [rewrite length_map, length_take; lia|].
  split.
  { rewrite length_map, length_take.
    rewrite (Permutation_length (merge_sort_Permutation _ own)).
    unfold count_documents. fold own. lia. }
  split.
  { unfold newest_first. rewrite map_map.
    apply StronglySorted_map with (R1 := scanned_not_before); [auto|].
    apply StronglySorted_take, StronglySorted_merge_sort; apply _. }
  intros r Hr. apply in_map_iff in Hr as ([oid e] & <- & Hin).
  apply (cursor_In 10 0), merge_sort_In in Hin. unfold own in Hin.
  apply filter_In in Hin as [Hin Hg]. apply String.eqb_eq in Hg.
  exists oid, e. repeat split; assumption.
Qed.

Lemma guard_dashboard_recent_scans_witness :
  exists d,
    get_guard_dashboard Sample.env Patrol.exact Patrol.session Patrol.world
    = (Return d, Patrol.world)
    /\ (length (GuardDashboard.recent_scans d) <= 10)%nat
    /\ newest_first (map GuardDashboard.scanned_at (GuardDashboard.recent_scans d))
    /\ length (GuardDashboard.recent_scans d) = 4%nat.
Proof.
  eexists.
  match goal with |- ?P /\ _ => assert (E : P) by (vm_compute; reflexivity) end.
  split; [exact E|].
  destruct (guard_dashboard_recent_scans _ _ _ _ _ _ E) as (H10 & _ & Hs & _).
  split; [exact H10|]. split; [exact Hs|]. reflexivity.
Defined.

(** X13. The [last_scan_time] of a dashboard is absent exactly when the guard
    has no scans; otherwise it is the time of one of the guard's stored
    scans, no stored scan of the guard is later, and it is the time of the
    first of the [recent_scans]. *)
Theorem guard_dashboard_last_scan_time (env : Env) (fl : Q -> Q)
    (s : GuardSession.t) (w w' : World) (d : GuardDashboard.t) :
  get_guard_dashboard env fl s w = (Return d, w') ->
  (GuardDashboard.last_scan_time d = None
   <-> GuardDashboard.total_scans (GuardDashboard.stats d) = 0%nat)
  /\ GuardDashboard.last_scan_time d
     = head (map GuardDashboard.scanned_at (GuardDashboard.recent_scans d))
  /\ forall t,
       GuardDashboard.last_scan_time d = Some t ->
       (exists oid e,
          In (oid, e) (scan_events w)
          /\ ScanEventDoc.guardId e = CurrentGuard.guard_id (GuardSession.guard s)
          /\ ScanEventDoc.scannedAt e = t)
       /\ forall oid e,
            In (oid, e) (scan_events w) ->
            ScanEventDoc.guardId e = CurrentGuard.guard_id (GuardSession.guard s) ->
            (ScanEventDoc.scannedAt e <= t)%Z.
Proof.
  destruct (connected w) eqn:Hc; run_dashboard Hc; [|discriminate].
  destruct (_ && _); cbn; [|discriminate].
  intros E. injection E as <- _. cbn.
  set (own := List.filter _ (scan_events w)).
  destruct (head (merge_sort scanned_not_before own)) as [[oid0 e0]|] eqn:Hh.
  - apply head_merge_sort_is_first in Hh as Hfirst; [|apply _ ..].
    destruct Hfirst as [Hin0 Hmax].
    split.
    { split; [discriminate|]. unfold count_documents. fold own. intros Hz.
      destruct own; [destruct Hin0|discriminate]. }
    split.
    { destruct (merge_sort scanned_not_before own); [discriminate|].
      injection Hh as ->. reflexivity. }
    intros t Ht. injection Ht as <-. split.
    + unfold own in Hin0. apply filter_In in Hin0 as [Hin0 Hg].
      apply String.eqb_eq in Hg. exists oid0, e0. auto.
    + intros oid e Hin Hg.
      apply (Hmax (oid, e)). unfold own. apply filter_In. split; [exact Hin|].
      cbn. rewrite Hg. apply String.eqb_refl.
  - split.
    { split; [intros _|reflexivity]. unfold count_documents. fold own.
      apply head_merge_sort_None in Hh. rewrite Hh. reflexivity. }
    split.
    { destruct (merge_sort scanned_not_before own); [reflexivity|discriminate]. }
    discriminate.
Qed.

Lemma guard_dashboard_last_scan_time_witness :
  exists d,
    get_guard_dashboard Sample.env Patrol.exact Patrol.session Patrol.world
    = (Return d, Patrol.world)
    /\ GuardDashboard.last_scan_time d = Some (Sample.clock - Patrol.hour)%Z
    /\ forall oid e,
         In (oid, e) (scan_events Patrol.world) ->
         ScanEventDoc.guardId e = Sample.guard_oid ->
         (ScanEventDoc.scannedAt e <= Sample.clock - Patrol.hour)%Z.
Proof.
  eexists.
  match goal with |- ?P /\ _ => assert (E : P) by (vm_compute; reflexivity) end.
  split; [exact E|].
  destruct (guard_dashboard_last_scan_time _ _ _ _ _ _ E) as (_ & _ & H).
  split; [reflexivity|]. exact (proj2 (H _ eq_refl)).
Defined.

(** ** The locations a guard may scan *)

#[local] Instance name_not_after_total : Total name_not_after.
Proof. intros x y. unfold name_not_after. apply String.leb_total. Qed.

Lemma get_available_qr_locations_returns location_address s w a w' :
  get_available_qr_locations location_address s w = (Return a, w') ->
  w' = w /\ connected w = true
  /\ AvailableLocations.locations a
     = map (available_location location_address)
           (merge_sort name_not_after
              (active_locations w (CurrentGuard.supervisor_id (GuardSession.guard s))))
  /\ AvailableLocations.total_count a = length (AvailableLocations.locations a).
Proof.
  unfold get_available_qr_locations. unfold_handler.
  destruct (connected w) eqn:Hc; cbn; [|discriminate].
  intros E. injection E as <- <-. cbn. auto.
Qed.

Lemma active_locations_In w supervisor_id d :
  In d (active_locations w supervisor_id)
  <-> In d (qr_locations w)
      /\ QRLocationDoc.supervisorId d = supervisor_id
      /\ QRLocationDoc.isActive d = true.
Proof.
  unfold active_locations. rewrite filter_In, andb_true_iff, String.eqb_eq.
  split; intros (H1 & H2 & H3); repeat split; auto.
  - apply Bool.eqb_prop, H3.
  - rewrite H3. reflexivity.
Qed.

(** X14. The locations that [get_available_qr_locations] lists for a guard
    are exactly the ones a scan by that guard resolves: a QR identifier is in
    the list if and only if the lookup of [scan_qr_code] finds a location for
    it, and every listed entry is an active location document of the guard's
    supervisor. *)
Theorem available_locations_are_the_scannable_ones
    (location_address : QRLocationDoc.t -> option string) (s : GuardSession.t)
    (w w' : World) (a : AvailableLocations.t) :
  get_available_qr_locations location_address s w = (Return a, w') ->
  w' = w
  /\ (forall qr_id,
        (exists x, In x (AvailableLocations.locations a)
                   /\ AvailableLocations.qr_id x = qr_id)
        <-> is_Some (resolve_active_location w qr_id
                       (CurrentGuard.supervisor_id (GuardSession.guard s))))
  /\ (forall x,
        In x (AvailableLocations.locations a) ->
        exists d,
          In d (qr_locations w)
          /\ QRLocationDoc.supervisorId d
             = CurrentGuard.supervisor_id (GuardSession.guard s)
          /\ QRLocationDoc.isActive d = true
          /\ AvailableLocations.qr_id x = QRLocationDoc.qrId d
          /\ AvailableLocations.location_name x = QRLocationDoc.locationName d
          /\ AvailableLocations.address x = default "" (location_address d)).
Proof.
  intros E. apply get_available_qr_locations_returns in E as (-> & _ & Hl & _).
  split; [reflexivity|]. rewrite Hl.
  set (sup := CurrentGuard.supervisor_id (GuardSession.guard s)).
  assert (Hlisted : forall x,
             In x (map (available_location location_address)
                       (merge_sort name_not_after (active_locations w sup))) ->
             exists d,
               In d (qr_locations w)
               /\ QRLocationDoc.supervisorId d = sup
               /\ QRLocationDoc.isActive d = true
               /\ AvailableLocations.qr_id x = QRLocationDoc.qrId d
               /\ AvailableLocations.location_name x = QRLocationDoc.locationName d
               /\ AvailableLocations.address x = default "" (location_address d)).
  { intros x Hx. apply in_map_iff in Hx as (d & <- & Hd).
    apply merge_sort_In, active_locations_In in Hd as (Hin & Hs & Hact).
    exists d. repeat split; assumption. }
  split; [|exact Hlisted].
  intros qr_id. split.
  - intros (x & Hx & Hq). destruct (Hlisted x Hx) as (d & Hin & Hs & Hact & Hqd & _).
    destruct (resolve_active_location w qr_id sup) as [loc|] eqn:Hr; [eauto|].
    exfalso. apply resolve_active_location_None in Hr. apply (Hr d Hin).
    repeat split; congruence.
  - intros [loc Hr]. apply resolve_active_location_Some in Hr as (Hin & Hq & Hs & Hact).
    exists (available_location location_address loc). split; [|exact Hq].
    apply in_map, merge_sort_In, active_locations_In. auto.
Qed.

Lemma available_locations_are_the_scannable_ones_witness :
  exists a,
    get_available_qr_locations Patrol.location_address Patrol.session Patrol.world
    = (Return a, Patrol.world)
    /\ map AvailableLocations.qr_id (AvailableLocations.locations a) = ["QR-MAIN-GATE"]
    /\ is_Some (resolve_active_location Patrol.world "QR-MAIN-GATE" Sample.supervisor_oid)
    /\ ~ is_Some (resolve_active_location Patrol.world "QR-DEPOT" Sample.supervisor_oid).
Proof.
  eexists.
  match goal with |- ?P /\ _ => assert (E : P) by (vm_compute; reflexivity) end.
  split; [exact E|]. split; [reflexivity|].
  destruct (available_locations_are_the_scannable_ones _ _ _ _ _ E) as (_ & Hiff & _).
  split.
  - apply Hiff. eexists. split; [left; reflexivity|reflexivity].
  - intros Hs. apply Hiff in Hs as (x & Hx & Hq).
    destruct Hx as [<-|[]]. discriminate.
Defined.

Lemma Sorted_map {A B} (f : A -> B) (R1 : relation A) (R2 : relation B) l :
  (forall x y, R1 x y -> R2 (f x) (f y)) -> Sorted R1 l -> Sorted R2 (map f l).
Proof.
  intros HR H. induction H as [|x l Hs IH Hhd]; cbn; constructor; [exact IH|].
  destruct Hhd; cbn; constructor. apply HR. assumption.
Qed.

(** X15. [get_available_qr_locations] lists the locations by name in
    ascending order, its [total_count] is the number of entries, and that
    number is the [available_qr_locations] statistic which the dashboard of
    the same guard shows. *)
Theorem available_locations_sorted_and_counted
    (location_address : QRLocationDoc.t -> option string) (s : GuardSession.t)
    (w w' : World) (a : AvailableLocations.t) :
  get_available_qr_locations location_address s w = (Return a, w') ->
  Sorted (fun x y : string => String.leb x y = true)
         (map AvailableLocations.location_name (AvailableLocations.locations a))
  /\ AvailableLocations.total_count a = length (AvailableLocations.locations a)
  /\ forall env fl d w'',
       get_guard_dashboard env fl s w = (Return d, w'') ->
       GuardDashboard.available_qr_locations (GuardDashboard.stats d)
       = AvailableLocations.total_count a.
Proof.
  intros E. apply get_available_qr_locations_returns in E as (-> & Hc & Hl & Hn).
  split.
  { rewrite Hl, map_map.
    apply Sorted_map with (R1 := name_not_after); [auto|].
    apply Sorted_merge_sort, _. }
  split; [exact Hn|].
  intros env fl d w'' Ed. rewrite Hn, Hl, length_map.
  rewrite (Permutation_length (merge_sort_Permutation _ _)).
  revert Ed. run_dashboard Hc.
  destruct (_ && _); cbn; [|discriminate].
  intros Ed. injection Ed as <- _. reflexivity.
Qed.

Lemma available_locations_sorted_and_counted_witness :
  exists a d,
    get_available_qr_locations Patrol.location_address Patrol.session Patrol.world
    = (Return a, Patrol.world)
    /\ get_guard_dashboard Sample.env Patrol.exact Patrol.session Patrol.world
       = (Return d, Patrol.world)
    /\ GuardDashboard.available_qr_locations (GuardDashboard.stats d)
       = AvailableLocations.total_count a
    /\ AvailableLocations.total_count a = 1%nat.
Proof.
  eexists; eexists.
  match goal with |- ?P /\ _ => assert (E : P) by (vm_compute; reflexivity) end.
  split; [exact E|].
  match goal with |- ?P /\ _ => assert (Ed : P) by (vm_compute; reflexivity) end.
  split; [exact Ed|].
  destruct (available_locations_sorted_and_counted _ _ _ _ _ E) as (_ & _ & H).
  split; [exact (H _ _ _ _ Ed)|reflexivity].
Defined.

(** ** The patrol summary *)

Lemma StronglySorted_head_first {A} (R : relation A) `{!Reflexive R} (l : list A) x :
  StronglySorted R l -> head l = Some x -> forall y, In y l -> R x y.
Proof.
  intros Hs Hh y Hy. destruct l as [|x' l]; [discriminate|]. injection Hh as ->.
  destruct Hy as [<-|Hy]; [reflexivity|].
  apply StronglySorted_inv in Hs as [_ Hall].
  rewrite Forall_forall in Hall. apply Hall, list_elem_of_In, Hy.
Qed.

Lemma StronglySorted_last_last {A} (R : relation A) `{!Reflexive R} (l : list A) z :
  StronglySorted R l -> last l = Some z -> forall y, In y l -> R y z.
Proof.
  intros Hs. induction Hs as [|x l Hs IH Hall]; [discriminate|].
  intros Hl y Hy. destruct l as [|x' l'].
  - injection Hl as <-. destruct Hy as [<-|[]]. reflexivity.
  - change (last (x :: x' :: l')) with (last (x' :: l')) in Hl.
    destruct Hy as [<-|Hy]; [|exact (IH Hl y Hy)].
    rewrite Forall_forall in Hall. apply Hall, list_elem_of_In.
    apply list_elem_of_In, last_Some_elem_of, Hl.
Qed.

Lemma head_map {A B} (f : A -> B) (l : list A) :
  head (map f l) = match head l with Some x => Some (f x) | None => None end.
Proof. destruct l; reflexivity. Qed.

Lemma last_map {A B} (f : A -> B) (l : list A) :
  last (map f l) = match last l with Some x => Some (f x) | None => None end.
Proof.
  induction l as [|x [|y l] IH]; try reflexivity.
  change (last (map f (x :: y :: l))) with (last (map f (y :: l))).
  rewrite IH. reflexivity.
Qed.

(** X16. A patrol summary is about one day and one guard: its date is the
    start of the day asked for (today when none is given), its scans are
    stored scan events of the guard from that day, the oldest first,
    [total_scans] is their number, and [first_scan_time] and
    [last_scan_time] are the times of the first and the last of them, so that
    no scan of the summary is earlier or later. *)
Theorem patrol_summary_scans_of_the_day (env : Env) (fl : Q -> Q)
    (g : CurrentGuard.t) (date : option datetime) (w w' : World)
    (p : PatrolSummary.t) :
  get_patrol_summary env fl g date w = (Return p, w') ->
  w' = w
  /\ PatrolSummary.date p = start_of_day (default (utcnow env) date)
  /\ PatrolSummary.total_scans (PatrolSummary.stats p) = length (PatrolSummary.scans p)
  /\ oldest_first (map PatrolSummary.scanned_at (PatrolSummary.scans p))
  /\ PatrolSummary.first_scan_time (PatrolSummary.stats p)
     = head (map PatrolSummary.scanned_at (PatrolSummary.scans p))
  /\ PatrolSummary.last_scan_time (PatrolSummary.stats p)
     = last (map PatrolSummary.scanned_at (PatrolSummary.scans p))
  /\ forall x,
       In x (PatrolSummary.scans p) ->
       (PatrolSummary.date p <= PatrolSummary.scanned_at x
        < PatrolSummary.date p + microseconds_per_day)%Z
       /\ (forall t, PatrolSummary.first_scan_time (PatrolSummary.stats p) = Some t ->
                     (t <= PatrolSummary.scanned_at x)%Z)
       /\ (forall t, PatrolSummary.last_scan_time (PatrolSummary.stats p) = Some t ->
                     (PatrolSummary.scanned_at x <= t)%Z)
       /\ exists oid e,
            In (oid, e) (scan_events w)
            /\ ScanEventDoc.guardId e = CurrentGuard.guard_id g
            /\ PatrolSummary.qr_id x = ScanEventDoc.qrId e
            /\ PatrolSummary.scanned_at x = ScanEventDoc.scannedAt e
            /\ PatrolSummary.is_within_radius x = ScanEventDoc.isWithinRadius e
            /\ PatrolSummary.distance_from_qr x = ScanEventDoc.distanceFromQR e.
Proof.
  destruct (connected w) eqn:Hc; run_summary Hc; [|discriminate].
  destruct (_ && _); cbn; [|discriminate].
  intros E. injection E as <- <-. cbn.
  set (day_start := start_of_day match date with Some d => d | None => utcnow env end).
  set (day := List.filter _ (scan_events w)).
  assert (Hsorted : StronglySorted scanned_not_after (merge_sort scanned_not_after day))
    by (apply StronglySorted_merge_sort; apply _).
  assert (Hrefl : Reflexive scanned_not_after) by (intros x; unfold scanned_not_after; lia).
  split; [reflexivity|]. split; [destruct date; reflexivity|].
  split; [rewrite length_map; reflexivity|].
  split.
  { unfold oldest_first. rewrite map_map.
    apply StronglySorted_map with (R1 := scanned_not_after); [auto|exact Hsorted]. }
  split; [rewrite map_map, head_map; reflexivity|].
  split; [rewrite map_map, last_map; reflexivity|].
  intros x Hx. apply in_map_iff in Hx as ([oid e] & <- & Hin). cbn.
  pose proof Hin as Hin'. apply merge_sort_In in Hin'. unfold day in Hin'.
  apply filter_In in Hin' as [Hstored Hf].
  apply andb_prop in Hf as [Hf Hend]. apply andb_prop in Hf as [Hg Hstart].
  apply String.eqb_eq in Hg. apply Z.leb_le in Hstart. apply Z.ltb_lt in Hend.
  cbn in Hg, Hstart, Hend. unfold timedelta_days in Hend.
  split; [fold day_start; lia|]. split; [|split].
  - intros t Ht.
    destruct (head (merge_sort scanned_not_after day)) as [first|] eqn:Hh; [|discriminate].
    injection Ht as <-.
    exact (StronglySorted_head_first _ _ _ Hsorted Hh _ Hin).
  - intros t Ht.
    destruct (last (merge_sort scanned_not_after day)) as [lst|] eqn:Hl; [|discriminate].
    injection Ht as <-.
    exact (StronglySorted_last_last _ _ _ Hsorted Hl _ Hin).
  - exists oid, e. repeat split; assumption.
Qed.

Lemma patrol_summary_scans_of_the_day_witness :
  exists p,
    get_patrol_summary Sample.env Patrol.exact Sample.current_guard None Patrol.world
    = (Return p, Patrol.world)
    /\ PatrolSummary.date p = (Sample.clock - 12 * Patrol.hour)%Z
    /\ PatrolSummary.total_scans (PatrolSummary.stats p) = 2%nat
    /\ oldest_first (map PatrolSummary.scanned_at (PatrolSummary.scans p))
    /\ PatrolSummary.first_scan_time (PatrolSummary.stats p)
       = Some (Sample.clock - 4 * Patrol.hour)%Z
    /\ PatrolSummary.last_scan_time (PatrolSummary.stats p)
       = Some (Sample.clock - 1 * Patrol.hour)%Z.
Proof.
  eexists.
  match goal with |- ?P /\ _ => assert (E : P) by (vm_compute; reflexivity) end.
  split; [exact E|].
  destruct (patrol_summary_scans_of_the_day _ _ _ _ _ _ _ E)
    as (_ & _ & _ & Hs & _).
  split; [reflexivity|]. split; [reflexivity|]. split; [exact Hs|].
  split; reflexivity.
Defined.

Lemma size_list_to_set_le (l : list string) :
  (size (list_to_set l : gset string) <= length l)%nat.
Proof.
  induction l as [|x l IH]; [rewrite list_to_set_nil, size_empty; cbn; lia|].
  rewrite list_to_set_cons, size_union_alt, size_singleton. cbn.
  assert (Hsub : (list_to_set l ∖ {[x]} : gset string) ⊆ list_to_set l).
  { intros y Hy. apply elem_of_difference in Hy. tauto. }
  apply subseteq_size in Hsub. lia.
Qed.

Lemma percentage_nonneg fl count total :
  rounds_to_nearest fl -> (0 <= percentage fl count total)%Q.
Proof.
  intros (Hmono & H0 & _ & _). unfold percentage.
  destruct (0 <? total)%nat eqn:Hpos; [|apply Qle_refl].
  apply Nat.ltb_lt in Hpos.
  set (q := (inject_Z (Z.of_nat count) / inject_Z (Z.of_nat total))%Q).
  assert (Hq : (0 <= q)%Q).
  { unfold q. apply Qle_shift_div_l.
    - rewrite <- (Zlt_Qlt 0). lia.
    - rewrite Qmult_0_l. rewrite <- (Zle_Qle 0). lia. }
  pose proof (Hmono _ _ Hq) as Hf0. rewrite H0 in Hf0.
  assert (Hm0 : (0 <= fl q * 100)%Q) by lra.
  pose proof (Hmono _ _ Hm0) as Hr0. rewrite H0 in Hr0. exact Hr0.
Qed.

Lemma Py_round_nonneg x : (0 <= x)%Q -> (0 <= Py.round x 1)%Q.
Proof.
  intros H0. unfold Py.round.
  pose proof (Qfloor_le (x * inject_Z (10 ^ Z.of_nat 1))) as Hf.
  assert (Hfl : (0 <= Qfloor (x * inject_Z (10 ^ Z.of_nat 1)))%Z).
  { rewrite <- (Qfloor_Z 0). apply Qfloor_resp_le.
    change (inject_Z (10 ^ Z.of_nat 1)) with 10%Q. change (inject_Z 0) with 0%Q. lra. }
  assert (Hr : (0 <= Py.round_half_even (x * inject_Z (10 ^ Z.of_nat 1)))%Z).
  { unfold Py.round_half_even.
    destruct (_ ?= _)%Q; [destruct (Z.even _)|..]; lia. }
  unfold Qle. cbn. lia.
Qed.

(** X17. In every patrol summary, where the float arithmetic rounds to the
    nearest float: [unique_locations_scanned] is at most [total_scans]; the
    within-radius percentage lies between 0 and 100; the coverage percentage
    is not negative; and it is at most 100 as long as every QR identifier
    scanned that day still belongs to an active location of the guard's
    supervisor. *)
Theorem patrol_summary_statistics (env : Env) (fl : Q -> Q)
    (g : CurrentGuard.t) (date : option datetime) (w w' : World)
    (p : PatrolSummary.t) :
  rounds_to_nearest fl ->
  get_patrol_summary env fl g date w = (Return p, w') ->
  (PatrolSummary.unique_locations_scanned (PatrolSummary.stats p)
   <= PatrolSummary.total_scans (PatrolSummary.stats p))%nat
  /\ PatrolSummary.total_available_locations (PatrolSummary.stats p)
     = length (active_locations w (CurrentGuard.supervisor_id g))
  /\ (0 <= PatrolSummary.within_radius_percentage (PatrolSummary.stats p))%Q
  /\ (PatrolSummary.within_radius_percentage (PatrolSummary.stats p) <= 100)%Q
  /\ (0 <= PatrolSummary.coverage_percentage (PatrolSummary.stats p))%Q
  /\ ((forall x, In x (PatrolSummary.scans p) ->
         exists d, In d (active_locations w (CurrentGuard.supervisor_id g))
                   /\ QRLocationDoc.qrId d = PatrolSummary.qr_id x) ->
      (PatrolSummary.coverage_percentage (PatrolSummary.stats p) <= 100)%Q).
Proof.
  intros Hfl.
  destruct (connected w) eqn:Hc; run_summary Hc; [|discriminate].
  destruct (_ && _); cbn; [|discriminate].
  intros E. injection E as <- <-. cbn.
  set (day := merge_sort scanned_not_after (List.filter _ (scan_events w))).
  set (ids := map (fun scan : ObjectId * ScanEventDoc.t => ScanEventDoc.qrId scan.2) day).
  pose proof (size_list_to_set_le ids) as Hu. unfold ids in Hu at 2.
  rewrite length_map in Hu.
  split; [exact Hu|]. split; [reflexivity|].
  match goal with
  | |- context [Py.round (percentage fl ?k (length day)) 1] =>
    destruct (percentage_bounds fl k (length day) Hfl) as [Hwlo Hwhi];
      [apply List.filter_length_le|]
  end.
  destruct (Py_round_percent _ Hwlo Hwhi) as [Hrlo Hrhi].
  split; [exact Hrlo|]. split; [exact Hrhi|].
  split; [apply Py_round_nonneg, percentage_nonneg, Hfl|].
  intros Hactive.
  set (active := active_locations w (CurrentGuard.supervisor_id g)).
  assert (Hsub : (list_to_set ids : gset string)
                 ⊆ list_to_set (map QRLocationDoc.qrId active)).
  { intros q Hq. apply elem_of_list_to_set, list_elem_of_In in Hq.
    unfold ids in Hq. apply in_map_iff in Hq as (ev & <- & Hev).
    destruct (Hactive (PatrolSummary.mk_scan
                         (ScanEventDoc.qrId ev.2) (ScanEventDoc.locationName ev.2)
                         (ScanEventDoc.scannedAt ev.2) (ScanEventDoc.isWithinRadius ev.2)
                         (ScanEventDoc.distanceFromQR ev.2)))
      as (d & Hd & Hqd).
    { apply in_map_iff. exists ev. split; [reflexivity|exact Hev]. }
    apply elem_of_list_to_set, list_elem_of_In, in_map_iff. exists d. auto. }
  apply subseteq_size in Hsub.
  pose proof (size_list_to_set_le (map QRLocationDoc.qrId active)) as Ha.
  rewrite length_map in Ha.
  destruct (percentage_bounds fl (size (list_to_set ids : gset string)) (length active) Hfl)
    as [Hclo Hchi]; [lia|].
  exact (proj2 (Py_round_percent _ Hclo Hchi)).
Qed.

Lemma patrol_summary_statistics_witness :
  rounds_to_nearest Patrol.exact
  /\ exists p,
       get_patrol_summary Sample.env Patrol.exact Sample.current_guard None Patrol.world
       = (Return p, Patrol.world)
       /\ PatrolSummary.unique_locations_scanned (PatrolSummary.stats p) = 1%nat
       /\ PatrolSummary.within_radius_percentage (PatrolSummary.stats p) = 50.0%Q
       /\ PatrolSummary.coverage_percentage (PatrolSummary.stats p) = 100.0%Q
       /\ (PatrolSummary.coverage_percentage (PatrolSummary.stats p) <= 100)%Q.
Proof.
  assert (Hfl : rounds_to_nearest Patrol.exact)
    by (unfold rounds_to_nearest, Patrol.exact; repeat split; auto with qarith).
  split; [exact Hfl|]. eexists.
  match goal with |- ?P /\ _ => assert (E : P) by (vm_compute; reflexivity) end.
  split; [exact E|].
  destruct (patrol_summary_statistics _ _ _ _ _ _ _ Hfl E) as (_ & _ & _ & _ & _ & H).
  split; [reflexivity|]. split; [reflexivity|]. split; [reflexivity|].
  apply H. intros x Hx. exists Sample.main_gate. split; [vm_compute; auto|].
  cbn in Hx. destruct Hx as [<-|[<-|[]]]; reflexivity.
Defined.

(** Once the main gate is deactivated, the summary of the day counts a
    scanned location although none is available, and the coverage is then
    computed as 0. *)
Example coverage_without_active_locations :
  exists p,
    get_patrol_summary Sample.env Patrol.exact Sample.current_guard None
      (mkWorld true (users Patrol.world) (guards Patrol.world) (supervisors Patrol.world)
         [Sample.depot; Sample.annex] (scan_events Patrol.world) (sheets Patrol.world)
         (log Patrol.world))
    = (Return p,
       mkWorld true (users Patrol.world) (guards Patrol.world) (supervisors Patrol.world)
         [Sample.depot; Sample.annex] (scan_events Patrol.world) (sheets Patrol.world)
         (log Patrol.world))
    /\ PatrolSummary.unique_locations_scanned (PatrolSummary.stats p) = 1%nat
    /\ PatrolSummary.total_available_locations (PatrolSummary.stats p) = 0%nat
    /\ PatrolSummary.coverage_percentage (PatrolSummary.stats p) = 0.0%Q.
Proof. eexists. split; [vm_compute; reflexivity|]. repeat split. Qed.

Lemma day_end_check (t : datetime) :
  valid_datetime t ->
  ((datetime_min <=? start_of_day t + timedelta_days 1)
   && (start_of_day t + timedelta_days 1 <=? datetime_max))%Z
  = (start_of_day t + microseconds_per_day <=? datetime_max)%Z.
Proof.
  intros [Hlo Hhi]. unfold timedelta_days. rewrite Z.mul_1_l.
  replace (datetime_min <=? start_of_day t + microseconds_per_day)%Z with true;
    [reflexivity|].
  symmetry. apply Z.leb_le.
  rewrite start_of_day_day. unfold datetime_min, microseconds_per_day in *.
  assert (HD : (-719162 <= t / 86400000000)%Z) by (apply Z.div_le_lower_bound; lia).
  lia.
Qed.

(** X18. With the database connected, [get_patrol_summary] answers for every
    day but the last one a [datetime] can hold: there the end of the day
    overflows, and the handler answers HTTP 500 "Failed to get patrol
    summary" and logs the error. *)
Theorem patrol_summary_fails_only_on_the_last_day (env : Env) (fl : Q -> Q)
    (g : CurrentGuard.t) (date : option datetime) (w : World) :
  connected w = true ->
  valid_datetime (default (utcnow env) date) ->
  ((start_of_day (default (utcnow env) date) + microseconds_per_day <= datetime_max)%Z ->
   exists p, get_patrol_summary env fl g date w = (Return p, w))
  /\
  ((datetime_max < start_of_day (default (utcnow env) date) + microseconds_per_day)%Z ->
   get_patrol_summary env fl g date w
   = (Raise (HTTPException HTTP_500_INTERNAL_SERVER_ERROR "Failed to get patrol summary"),
      set_log (log w ++ [(ERROR, "Get patrol summary error: date value out of range")])
              w)).
Proof.
  intros Hc Hv.
  assert (Ht : default (utcnow env) date
               = match date with Some d => d | None => utcnow env end)
    by (destruct date; reflexivity).
  rewrite Ht in *.
  pose proof (day_end_check _ Hv) as Hcheck.
  split; intros Hday; run_summary Hc; rewrite Hcheck.
  - apply Z.leb_le in Hday. rewrite Hday. cbn. eexists. reflexivity.
  - apply Z.leb_gt in Hday. rewrite Hday. reflexivity.
Qed.

Lemma patrol_summary_fails_only_on_the_last_day_witness :
  connected Patrol.world = true
  /\ valid_datetime (default (utcnow Sample.env) (Some datetime_max))
  /\ (datetime_max
      < start_of_day (default (utcnow Sample.env) (Some datetime_max))
        + microseconds_per_day)%Z
  /\ get_patrol_summary Sample.env Patrol.exact Sample.current_guard (Some datetime_max)
       Patrol.world
     = (Raise (HTTPException HTTP_500_INTERNAL_SERVER_ERROR
                 "Failed to get patrol summary"),
        set_log (log Patrol.world
                   ++ [(ERROR, "Get patrol summary error: date value out of range")])
                Patrol.world)
  /\ exists p,
       get_patrol_summary Sample.env Patrol.exact Sample.current_guard None Patrol.world
       = (Return p, Patrol.world).
Proof.
  assert (Hc : connected Patrol.world = true) by reflexivity.
  assert (Hv : valid_datetime (default (utcnow Sample.env) (Some datetime_max)))
    by (vm_compute; split; discriminate).
  assert (Hv' : valid_datetime (default (utcnow Sample.env) None))
    by (vm_compute; split; discriminate).
  assert (Hlast : (datetime_max
                   < start_of_day (default (utcnow Sample.env) (Some datetime_max))
                     + microseconds_per_day)%Z) by reflexivity.
  split; [exact Hc|]. split; [exact Hv|]. split; [exact Hlast|]. split.
  - exact (proj2 (patrol_summary_fails_only_on_the_last_day Sample.env Patrol.exact
                    Sample.current_guard (Some datetime_max) Patrol.world Hc Hv) Hlast).
  - apply (proj1 (patrol_summary_fails_only_on_the_last_day Sample.env Patrol.exact
                    Sample.current_guard None Patrol.world Hc Hv')).
    vm_compute. discriminate.
Defined.

(** ** Mirroring a scan to the spreadsheet *)

Lemma scan_qr_code_mirrors env req g w loc oid :
  connected w = true ->
  latitude_in_range (QRScanRequest.coordinates req) ->
  resolve_active_location w (QRScanRequest.qrId req) (CurrentGuard.supervisor_id g)
    = Some loc ->
  insert_outcome env (guard_scan_event env req g loc) = Done oid ->
  sheets (scan_qr_code env req g w).2
  = mirrored env w (CurrentGuard.supervisor_id g) (guard_sheet_row env req g loc).
Proof.
  intros Hc Hlat Hl Hi. apply latitude_check in Hlat.
  remember (guard_scan_event env req g loc) as doc eqn:Hdoc.
  remember (guard_sheet_row env req g loc) as row eqn:Hrow.
  unfold resolve_active_location in Hl.
  unfold scan_qr_code. unfold_handler. rewrite Hc. cbn. rewrite Hl. cbn.
  rewrite Hlat. cbn.
  unfold mirrored, supervisor_of.
  unfold guard_scan_event, guard_sheet_row, address_at, distance_to in Hdoc, Hrow.
  destruct (reverse_geocode_enhanced env _ _) as [[d|]|gtext] eqn:Hg; cbn;
    try destruct (truthy_dict d); cbn; cbn in Hdoc, Hrow;
    rewrite <- Hdoc, Hi; cbn;
    (destruct (find_one _ (supervisors w)) as [sup|]; cbn; [|reflexivity]);
    (destruct (SupervisorDoc.sheetId sup) as [sheet|]; cbn; [|reflexivity]);
    (destruct (Py.truthy_str sheet); cbn; [|reflexivity]);
    destruct g as [gid sid gname gemail]; destruct req as [rq [lat lon] rn];
    cbn in *; rewrite <- Hrow;
    destruct (append_scan_to_sheet env sheet _ row); reflexivity.
Qed.

Lemma public_scan_qr_code_mirrors env req w guard_user guard loc oid :
  connected w = true ->
  latitude_in_range (QRCodePublicScanRequest.coordinates req) ->
  resolve_guard w (QRCodePublicScanRequest.guardEmail req) = Some (guard_user, guard) ->
  resolve_active_location w (QRCodePublicScanRequest.qrId req)
    (GuardDoc.supervisorId guard) = Some loc ->
  insert_outcome env (public_scan_event env req guard loc) = Done oid ->
  sheets (public_scan_qr_code env req w).2
  = mirrored env w (GuardDoc.supervisorId guard) (public_sheet_row env req guard_user loc).
Proof.
  intros Hc Hlat Hg Hl Hi. apply latitude_check in Hlat.
  remember (public_scan_event env req guard loc) as doc eqn:Hdoc.
  remember (public_sheet_row env req guard_user loc) as row eqn:Hrow.
  unfold resolve_active_location in Hl. unfold resolve_guard in Hg.
  unfold public_scan_qr_code. unfold_handler. rewrite Hc. cbn.
  destruct (find_one _ (users w)) as [u|]; [|discriminate].
  destruct (find_one _ (guards w)) as [gd|]; [|discriminate].
  injection Hg as -> ->. rewrite Hl. cbn.
  rewrite Hlat. cbn.
  unfold mirrored, supervisor_of.
  unfold public_scan_event, public_sheet_row, address_at, distance_to in Hdoc, Hrow.
  destruct (reverse_geocode_enhanced env _ _) as [[d|]|gtext] eqn:Hgeo; cbn;
    try destruct (truthy_dict d); cbn; cbn in Hdoc, Hrow;
    rewrite <- Hdoc, Hi; cbn;
    (destruct (find_one _ (supervisors w)) as [sup|]; cbn; [|reflexivity]);
    (destruct (SupervisorDoc.sheetId sup) as [sheet|]; cbn; [|reflexivity]);
    (destruct (Py.truthy_str sheet); cbn; [|reflexivity]);
    destruct req as [em rq [lat lon] rn dev];
    cbn in *; rewrite <- Hrow;
    destruct (append_scan_to_sheet env sheet _ row); reflexivity.
Qed.

(** X19. After a scan from a latitude within [-90, 90] whose event was
    stored, the spreadsheet of the supervisor holds one more row, with the
    guard, the location, the QR identifier, the time, the address, the flag
    and the distance of the verdict, provided the supervisor has a non-empty
    sheet identifier and the spreadsheet service accepts the row; without a
    supervisor document, without a sheet, or when the service fails, the
    verdict is the same and no row is added. *)
Theorem stored_scan_is_mirrored (env : Env) (w : World) :
  connected w = true ->
  (forall req g loc oid,
     latitude_in_range (QRScanRequest.coordinates req) ->
     resolve_active_location w (QRScanRequest.qrId req) (CurrentGuard.supervisor_id g)
       = Some loc ->
     insert_outcome env (guard_scan_event env req g loc) = Done oid ->
     exists v w',
       scan_qr_code env req g w = (Return v, w')
       /\ (forall supervisor sheet_id,
             supervisor_of w (CurrentGuard.supervisor_id g) = Some supervisor ->
             SupervisorDoc.sheetId supervisor = Some sheet_id ->
             sheet_id <> "" ->
             append_scan_to_sheet env sheet_id (SupervisorDoc.areaCity supervisor)
               (guard_sheet_row env req g loc) = Done tt ->
             exists row,
               sheets w' = (sheets w ++ [(sheet_id, SupervisorDoc.areaCity supervisor, row)])%list
               /\ ScanEventData.guard_email row = CurrentGuard.email g
               /\ ScanEventData.qr_id row = QRScanResponse.qrId v
               /\ ScanEventData.location_name row = QRScanResponse.locationName v
               /\ ScanEventData.scanned_at row = QRScanResponse.scannedAt v
               /\ ScanEventData.address row = QRScanResponse.address v
               /\ ScanEventData.is_within_radius row = QRScanResponse.isWithinRadius v
               /\ ScanEventData.distance_from_qr row = QRScanResponse.distanceFromQR v)
       /\ ((supervisor_of w (CurrentGuard.supervisor_id g) = None
            \/ (exists supervisor,
                  supervisor_of w (CurrentGuard.supervisor_id g) = Some supervisor
                  /\ (SupervisorDoc.sheetId supervisor = None
                      \/ SupervisorDoc.sheetId supervisor = Some ""
                      \/ exists sheet_id text,
                           SupervisorDoc.sheetId supervisor = Some sheet_id
                           /\ append_scan_to_sheet env sheet_id
                                (SupervisorDoc.areaCity supervisor)
                                (guard_sheet_row env req g loc) = Failed text))) ->
           sheets w' = sheets w))
  /\
  (forall req guard_user guard loc oid,
     latitude_in_range (QRCodePublicScanRequest.coordinates req) ->
     resolve_guard w (QRCodePublicScanRequest.guardEmail req) = Some (guard_user, guard) ->
     resolve_active_location w (QRCodePublicScanRequest.qrId req)
       (GuardDoc.supervisorId guard) = Some loc ->
     insert_outcome env (public_scan_event env req guard loc) = Done oid ->
     exists v w',
       public_scan_qr_code env req w = (Return v, w')
       /\ (forall supervisor sheet_id,
             supervisor_of w (GuardDoc.supervisorId guard) = Some supervisor ->
             SupervisorDoc.sheetId supervisor = Some sheet_id ->
             sheet_id <> "" ->
             append_scan_to_sheet env sheet_id (SupervisorDoc.areaCity supervisor)
               (public_sheet_row env req guard_user loc) = Done tt ->
             exists row,
               sheets w' = (sheets w ++ [(sheet_id, SupervisorDoc.areaCity supervisor, row)])%list
               /\ ScanEventData.guard_email row = UserDoc.email guard_user
               /\ ScanEventData.qr_id row = QRCodePublicScanResponse.qrId v
               /\ ScanEventData.location_name row = QRCodePublicScanResponse.locationName v
               /\ ScanEventData.scanned_at row = QRCodePublicScanResponse.scannedAt v
               /\ ScanEventData.address row = QRCodePublicScanResponse.address v
               /\ ScanEventData.is_within_radius row
                  = QRCodePublicScanResponse.isWithinRadius v
               /\ ScanEventData.distance_from_qr row
                  = QRCodePublicScanResponse.distanceFromQR v)
       /\ ((supervisor_of w (GuardDoc.supervisorId guard) = None
            \/ (exists supervisor,
                  supervisor_of w (GuardDoc.supervisorId guard) = Some supervisor
                  /\ (SupervisorDoc.sheetId supervisor = None
                      \/ SupervisorDoc.sheetId supervisor = Some ""
                      \/ exists sheet_id text,
                           SupervisorDoc.sheetId supervisor = Some sheet_id
                           /\ append_scan_to_sheet env sheet_id
                                (SupervisorDoc.areaCity supervisor)
                                (public_sheet_row env req guard_user loc) = Failed text))) ->
           sheets w' = sheets w)).
Proof.
  intros Hc. split.
  - intros req g loc oid Hlat Hl Hi.
    pose proof (scan_qr_code_mirrors env req g w loc oid Hc Hlat Hl Hi) as Hm.
    destruct (scan_qr_code_recorded env req g w loc oid Hc Hlat Hl Hi) as (w' & E & _).
    rewrite E in Hm. cbn [snd] in Hm.
    exists (guard_verdict env req loc oid), w'. split; [exact E|]. split.
    + intros sup sheet Hs Hsheet Hne Hdone. exists (guard_sheet_row env req g loc).
      split; [|repeat split].
      rewrite Hm. unfold mirrored. rewrite Hs, Hsheet.
      destruct sheet; [contradiction|]. cbn. rewrite Hdone. reflexivity.
    + intros H. rewrite Hm. unfold mirrored.
      destruct H as [->|(sup & -> & [->|[->|(sheet & text & -> & Hf)]])];
        try reflexivity.
      destruct (Py.truthy_str sheet); [rewrite Hf|]; reflexivity.
  - intros req u gd loc oid Hlat Hg Hl Hi.
    pose proof (public_scan_qr_code_mirrors env req w u gd loc oid Hc Hlat Hg Hl Hi) as Hm.
    destruct (public_scan_qr_code_recorded env req w u gd loc oid Hc Hlat Hg Hl Hi)
      as (w' & E & _).
    rewrite E in Hm. cbn [snd] in Hm.
    exists (public_verdict env req u loc oid), w'. split; [exact E|]. split.
    + intros sup sheet Hs Hsheet Hne Hdone. exists (public_sheet_row env req u loc).
      split; [|repeat split].
      rewrite Hm. unfold mirrored. rewrite Hs, Hsheet.
      destruct sheet; [contradiction|]. cbn. rewrite Hdone. reflexivity.
    + intros H. rewrite Hm. unfold mirrored.
      destruct H as [->|(sup & -> & [->|[->|(sheet & text & -> & Hf)]])];
        try reflexivity.
      destruct (Py.truthy_str sheet); [rewrite Hf|]; reflexivity.
Qed.

Lemma stored_scan_is_mirrored_witness :
  connected Sample.world = true
  /\ latitude_in_range (QRScanRequest.coordinates Sample.scan_near)
  /\ latitude_in_range (QRCodePublicScanRequest.coordinates Sample.public_scan_near)
  /\ (exists v w' row,
        scan_qr_code Sample.env Sample.scan_near Sample.current_guard Sample.world
        = (Return v, w')
        /\ sheets w' = [("sheet-17", "Bengaluru", row)]
        /\ ScanEventData.is_within_radius row = QRScanResponse.isWithinRadius v)
  /\ (exists v w',
        public_scan_qr_code Sample.env_providers_down Sample.public_scan_near Sample.world
        = (Return v, w')
        /\ sheets w' = []).
Proof.
  assert (Hc : connected Sample.world = true) by reflexivity.
  assert (Hg : latitude_in_range (QRScanRequest.coordinates Sample.scan_near))
    by (split; vm_compute; discriminate).
  assert (Hp : latitude_in_range
                 (QRCodePublicScanRequest.coordinates Sample.public_scan_near))
    by (split; vm_compute; discriminate).
  split; [exact Hc|]. split; [exact Hg|]. split; [exact Hp|]. split.
  - destruct (proj1 (stored_scan_is_mirrored Sample.env Sample.world Hc)
                Sample.scan_near Sample.current_guard Sample.main_gate Sample.new_oid Hg)
      as (v & w' & E & Hrow & _); [vm_compute; reflexivity ..|].
    destruct (Hrow (SupervisorDoc.mk Sample.supervisor_oid (Some "sheet-17") "Bengaluru")
                   "sheet-17")
      as (row & Hs & _ & _ & _ & _ & _ & Hw & _);
      [vm_compute; reflexivity | reflexivity | discriminate | reflexivity |].
    exists v, w', row. split; [exact E|]. split; [exact Hs|exact Hw].
  - destruct (proj2 (stored_scan_is_mirrored Sample.env_providers_down Sample.world Hc)
                Sample.public_scan_near Sample.guard_user Sample.guard_profile
                Sample.main_gate Sample.new_oid Hp)
      as (v & w' & E & _ & Hnone); [vm_compute; reflexivity ..|].
    exists v, w'. split; [exact E|]. apply Hnone. right.
    exists (SupervisorDoc.mk Sample.supervisor_oid (Some "sheet-17") "Bengaluru").
    split; [vm_compute; reflexivity|]. right. right.
    exists "sheet-17", "sheets quota exceeded". split; reflexivity.
Defined.

(** ** Without a database, and without a guard *)

(** X20. While no database is connected, the two scan operations and the
    handlers of the dashboard, the scan history, the available locations, the
    patrol summary and the location information all answer HTTP 503
    "Database not available", and none of them writes or logs anything. *)
Theorem offline_is_503 (env : Env) (fl : Q -> Q)
    (location_address : QRLocationDoc.t -> option string) (w : World) :
  connected w = false ->
  (forall req g,
     scan_qr_code env req g w
     = (Raise (HTTPException HTTP_503_SERVICE_UNAVAILABLE "Database not available"), w))
  /\ (forall req,
        public_scan_qr_code env req w
        = (Raise (HTTPException HTTP_503_SERVICE_UNAVAILABLE "Database not available"), w))
  /\ (forall s,
        get_guard_dashboard env fl s w
        = (Raise (HTTPException HTTP_503_SERVICE_UNAVAILABLE "Database not available"), w))
  /\ (forall g start_date end_date qr_id within_radius_only limit skip,
        get_scan_history g start_date end_date qr_id within_radius_only limit skip w
        = (Raise (HTTPException HTTP_503_SERVICE_UNAVAILABLE "Database not available"), w))
  /\ (forall s,
        get_available_qr_locations location_address s w
        = (Raise (HTTPException HTTP_503_SERVICE_UNAVAILABLE "Database not available"), w))
  /\ (forall g date,
        get_patrol_summary env fl g date w
        = (Raise (HTTPException HTTP_503_SERVICE_UNAVAILABLE "Database not available"), w))
  /\ (forall qr_id,
        get_qr_location_info env location_address qr_id w
        = (Raise (HTTPException HTTP_503_SERVICE_UNAVAILABLE "Database not available"), w)).
Proof.
  intros Hc. repeat split; intros.
  - unfold scan_qr_code. unfold_handler. rewrite Hc. reflexivity.
  - unfold public_scan_qr_code. unfold_handler. rewrite Hc. reflexivity.
  - run_dashboard Hc. reflexivity.
  - unfold get_scan_history. unfold_handler. rewrite Hc. reflexivity.
  - unfold get_available_qr_locations. unfold_handler. rewrite Hc. reflexivity.
  - run_summary Hc. reflexivity.
  - unfold get_qr_location_info. unfold_handler. rewrite Hc. reflexivity.
Qed.

Lemma offline_is_503_witness :
  connected Patrol.offline = false
  /\ scan_qr_code Sample.env Sample.scan_near Sample.current_guard Patrol.offline
     = (Raise (HTTPException HTTP_503_SERVICE_UNAVAILABLE "Database not available"),
        Patrol.offline)
  /\ get_scan_history Sample.current_guard None None None None 50 0 Patrol.offline
     = (Raise (HTTPException HTTP_503_SERVICE_UNAVAILABLE "Database not available"),
        Patrol.offline).
Proof.
  assert (Hc : connected Patrol.offline = false) by reflexivity.
  destruct (offline_is_503 Sample.env Patrol.exact Patrol.location_address
              Patrol.offline Hc) as (Hs & _ & _ & Hh & _).
  split; [exact Hc|]. split; [apply Hs|apply Hh].
Defined.

(** X21. The public scan names its guard by email address: when no user
    document with that address is active and has the role GUARD, the call
    answers HTTP 404 "Guard not found or inactive"; when there is such a user
    but no guard profile points to it, HTTP 404 "Guard profile not found".
    Either way nothing is stored, whatever the QR identifier and the
    coordinates. *)
Theorem public_scan_needs_an_active_guard (env : Env)
    (req : QRCodePublicScanRequest.t) (w : World) :
  connected w = true ->
  ((forall u, In u (users w) ->
      ~ (UserDoc.email u = QRCodePublicScanRequest.guardEmail req
         /\ UserDoc.role u = "GUARD" /\ UserDoc.isActive u = true)) ->
   public_scan_qr_code env req w
   = (Raise (HTTPException HTTP_404_NOT_FOUND "Guard not found or inactive"), w))
  /\
  (forall u,
     find_one (fun u => String.eqb (UserDoc.email u)
                                   (QRCodePublicScanRequest.guardEmail req)
                        && String.eqb (UserDoc.role u) "GUARD"
                        && Bool.eqb (UserDoc.isActive u) true)
              (users w) = Some u ->
     (forall gd, In gd (guards w) -> GuardDoc.userId gd <> UserDoc._id u) ->
     public_scan_qr_code env req w
     = (Raise (HTTPException HTTP_404_NOT_FOUND "Guard profile not found"), w)).
Proof.
  intros Hc. split.
  - intros Hnone. unfold public_scan_qr_code. unfold_handler. rewrite Hc. cbn.
    destruct (find_one _ (users w)) as [u|] eqn:Hu; [|reflexivity].
    exfalso. unfold find_one in Hu. apply find_some in Hu as [Hin Hf].
    apply andb_prop in Hf as [Hf Hact]. apply andb_prop in Hf as [He Hr].
    apply String.eqb_eq in He, Hr. apply Bool.eqb_prop in Hact.
    apply (Hnone u Hin). auto.
  - intros u Hu Hnone. unfold public_scan_qr_code. unfold_handler. rewrite Hc. cbn.
    rewrite Hu.
    destruct (find_one _ (guards w)) as [gd|] eqn:Hgd; [|reflexivity].
    exfalso. unfold find_one in Hgd. apply find_some in Hgd as [Hin Hf].
    apply String.eqb_eq in Hf. exact (Hnone gd Hin Hf).
Qed.

Lemma public_scan_needs_an_active_guard_witness :
  connected Sample.world = true
  /\ public_scan_qr_code Sample.env
       (QRCodePublicScanRequest.mk "nobody@example.com" "QR-MAIN-GATE"
          (Coordinates.mk 12.97161 77.59461) None None)
       Sample.world
     = (Raise (HTTPException HTTP_404_NOT_FOUND "Guard not found or inactive"),
        Sample.world).
Proof.
  assert (Hc : connected Sample.world = true) by reflexivity.
  split; [exact Hc|].
  apply (proj1 (public_scan_needs_an_active_guard Sample.env
                  (QRCodePublicScanRequest.mk "nobody@example.com" "QR-MAIN-GATE"
                     (Coordinates.mk 12.97161 77.59461) None None)
                  Sample.world Hc)).
  intros u [<-|[]] (He & _). vm_compute in He. discriminate.
Defined.

(** ** A latitude that geopy refuses *)

(** X25. The handlers compute the distance without checking the reported
    coordinates themselves: a scan of a location that resolves, reported
    from a latitude outside [-90, 90], is answered HTTP 500 "Failed to
    process QR scan", whatever the event store and the other services would
    have answered.  No event is stored and no row is mirrored; the only
    trace is one error line in the log. *)
Theorem latitude_out_of_range_is_500 (env : Env) (w : World) :
  connected w = true ->
  (forall req g loc,
     ~ latitude_in_range (QRScanRequest.coordinates req) ->
     resolve_active_location w (QRScanRequest.qrId req) (CurrentGuard.supervisor_id g)
       = Some loc ->
     exists w' line,
       scan_qr_code env req g w
       = (Raise (HTTPException HTTP_500_INTERNAL_SERVER_ERROR "Failed to process QR scan"),
          w')
       /\ w' = set_log (log w ++ [(ERROR, "QR scan error: " +:+ line)]) w
       /\ scan_events w' = scan_events w
       /\ sheets w' = sheets w)
  /\
  (forall req guard_user guard loc,
     ~ latitude_in_range (QRCodePublicScanRequest.coordinates req) ->
     resolve_guard w (QRCodePublicScanRequest.guardEmail req) = Some (guard_user, guard) ->
     resolve_active_location w (QRCodePublicScanRequest.qrId req)
       (GuardDoc.supervisorId guard) = Some loc ->
     exists w' line,
       public_scan_qr_code env req w
       = (Raise (HTTPException HTTP_500_INTERNAL_SERVER_ERROR "Failed to process QR scan"),
          w')
       /\ w' = set_log (log w ++ [(ERROR, "Public QR scan error: " +:+ line)]) w
       /\ scan_events w' = scan_events w
       /\ sheets w' = sheets w).
Proof.
  intros Hc. split.
  - intros req g loc Hlat Hl.
    destruct (scan_qr_code env req g w) as [r w1] eqn:H. apply scan_qr_code_ends in H.
    inversion H; subst; try congruence; try contradiction.
    eexists; eexists. split; [reflexivity|]. split; [reflexivity|]. split; reflexivity.
  - intros req u gd loc Hlat Hg Hl.
    destruct (public_scan_qr_code env req w) as [r w1] eqn:H.
    apply public_scan_qr_code_ends in H.
    inversion H; subst; try congruence; try contradiction; same_answers; try congruence.
    eexists; eexists. split; [reflexivity|]. split; [reflexivity|]. split; reflexivity.
Qed.

(** The theorem at a scan of the main gate reported from latitude 90.5, by
    the guard and through the public operation. *)
Lemma latitude_out_of_range_is_500_witness :
  connected Sample.world = true
  /\ ~ latitude_in_range (Coordinates.mk 90.5 77.5946)
  /\ (exists w',
        scan_qr_code Sample.env (Sample.scan_at "QR-MAIN-GATE" 90.5 77.5946)
          Sample.current_guard Sample.world
        = (Raise (HTTPException HTTP_500_INTERNAL_SERVER_ERROR
                    "Failed to process QR scan"), w')
        /\ scan_events w' = [] /\ sheets w' = [] /\ map fst (log w') = [ERROR])
  /\ (exists w',
        public_scan_qr_code Sample.env (Sample.public_scan_at "QR-MAIN-GATE" 90.5 77.5946)
          Sample.world
        = (Raise (HTTPException HTTP_500_INTERNAL_SERVER_ERROR
                    "Failed to process QR scan"), w')
        /\ scan_events w' = [] /\ sheets w' = [] /\ map fst (log w') = [ERROR]).
Proof.
  assert (Hc : connected Sample.world = true) by reflexivity.
  assert (Hlat : ~ latitude_in_range (Coordinates.mk 90.5 77.5946)).
  { intros [_ H]. vm_compute in H. apply H. reflexivity. }
  split; [exact Hc|]. split; [exact Hlat|]. split.
  - destruct (proj1 (latitude_out_of_range_is_500 Sample.env Sample.world Hc)
                (Sample.scan_at "QR-MAIN-GATE" 90.5 77.5946) Sample.current_guard
                Sample.main_gate Hlat eq_refl) as (w' & line & E & Hw & Hev & Hsh).
    exists w'. split; [exact E|]. split; [exact Hev|]. split; [exact Hsh|].
    rewrite Hw. reflexivity.
  - destruct (proj2 (latitude_out_of_range_is_500 Sample.env Sample.world Hc)
                (Sample.public_scan_at "QR-MAIN-GATE" 90.5 77.5946) Sample.guard_user
                Sample.guard_profile Sample.main_gate Hlat eq_refl eq_refl)
      as (w' & line & E & Hw & Hev & Hsh).
    exists w'. split; [exact E|]. split; [exact Hev|]. split; [exact Hsh|].
    rewrite Hw. reflexivity.
Defined.

(** ** Generating QR codes *)


Lemma bulk_generate_loop_failed render location_address size locs :
  forall qr_codes w,
    (exists qr, In qr locs /\ exists text, render (QRLocationDoc.qrId qr) size = Failed text) ->
    exists text,
      bulk_generate_loop render location_address size qr_codes locs w
      = (Raise (OtherException text), w).
Proof.
  induction locs as [|qr locs IH]; intros acc w (bad & Hin & text & Hbad); [destruct Hin|].
  cbn. unfold bind, qr_png_base64.
  destruct (render (QRLocationDoc.qrId qr) size) as [img|text'] eqn:Hr; [|eauto].
  destruct Hin as [->|Hin]; [congruence|].
  apply IH. eauto.
Qed.

Lemma generate_qr_code_returns env render location_address rq sup w r w' :
  generate_qr_code env render location_address rq sup w = (Return r, w') ->
  connected w = true
  /\ w' = set_log (log w ++ [(INFO, "Supervisor " +:+ CurrentSupervisor.email sup
                                      +:+ " generated QR code for "
                                      +:+ QRCodeGenerateRequest.qrId rq)]) w
  /\ exists loc img,
       resolve_active_location w (QRCodeGenerateRequest.qrId rq)
         (CurrentSupervisor.supervisor_id sup) = Some loc
       /\ render (QRCodeGenerateRequest.qrId rq) (QRCodeGenerateRequest.size rq) = Done img
       /\ r = QRCodeGenerateResponse.mk
                (QRCodeGenerateRequest.qrId rq)
                (QRLocationDoc.locationName loc)
                ("data:image/png;base64," +:+ img)
                (QRCodeGenerateRequest.size rq)
                (Coordinates.mk
                   (Coordinates.latitude (QRLocationDoc.coordinates loc))
                   (Coordinates.longitude (QRLocationDoc.coordinates loc)))
                (default "" (location_address loc))
                (utcnow env).
Proof.
  unfold generate_qr_code, resolve_active_location, qr_png_base64. unfold_handler.
  destruct (connected w) eqn:Hc; cbn; [|discriminate].
  destruct (find_one _ (qr_locations w)) as [loc|] eqn:Hl; cbn; [|discriminate].
  destruct (render _ _) as [img|text] eqn:Hr; cbn; [|discriminate].
  intros E. injection E as <- <-. split; [reflexivity|]. split; [reflexivity|].
  exists loc, img. auto.
Qed.

(** X22. A QR code that [generate_qr_code] returns to a supervisor encodes
    exactly the QR identifier asked for, drawn at the size asked for and
    given as a PNG data URI, and it belongs to an active location of that
    supervisor: a guard of the supervisor who then scans this identifier from
    a latitude within [-90, 90] is answered with a verdict for the location
    of that name, as long as the event store accepts the event. *)
Theorem generated_code_is_scannable (env : Env) (render : string -> Z -> outcome string)
    (location_address : QRLocationDoc.t -> option string)
    (rq : QRCodeGenerateRequest.t) (sup : CurrentSupervisor.t) (w w' : World)
    (r : QRCodeGenerateResponse.t) :
  generate_qr_code env render location_address rq sup w = (Return r, w') ->
  QRCodeGenerateResponse.qrId r = QRCodeGenerateRequest.qrId rq
  /\ QRCodeGenerateResponse.size r = QRCodeGenerateRequest.size rq
  /\ (exists img,
        render (QRCodeGenerateRequest.qrId rq) (QRCodeGenerateRequest.size rq) = Done img
        /\ QRCodeGenerateResponse.qrCodeImage r = "data:image/png;base64," +:+ img)
  /\ scan_events w' = scan_events w
  /\ exists loc,
       resolve_active_location w' (QRCodeGenerateResponse.qrId r)
         (CurrentSupervisor.supervisor_id sup) = Some loc
       /\ QRLocationDoc.locationName loc = QRCodeGenerateResponse.locationName r
       /\ forall env' req g oid,
            QRScanRequest.qrId req = QRCodeGenerateResponse.qrId r ->
            CurrentGuard.supervisor_id g = CurrentSupervisor.supervisor_id sup ->
            latitude_in_range (QRScanRequest.coordinates req) ->
            insert_outcome env' (guard_scan_event env' req g loc) = Done oid ->
            exists v w'',
              scan_qr_code env' req g w' = (Return v, w'')
              /\ QRScanResponse.locationName v = QRCodeGenerateResponse.locationName r.
Proof.
  intros E. apply generate_qr_code_returns in E as (Hc & -> & loc & img & Hl & Hr & ->).
  cbn. split; [reflexivity|]. split; [reflexivity|]. split; [eauto|].
  split; [reflexivity|]. exists loc. split; [exact Hl|]. split; [reflexivity|].
  intros env' req g oid Hq Hs Hlat Hi.
  destruct (scan_qr_code_recorded env' req g
              (set_log (log w ++ [(INFO, "Supervisor " +:+ CurrentSupervisor.email sup
                                           +:+ " generated QR code for "
                                           +:+ QRCodeGenerateRequest.qrId rq)]) w)
              loc oid) as (w'' & Es & _); [exact Hc|exact Hlat| |exact Hi|].
  - rewrite Hq, Hs. exact Hl.
  - exists (guard_verdict env' req loc oid), w''. split; [exact Es|reflexivity].
Qed.

Lemma generated_code_is_scannable_witness :
  exists r w' v w'',
    generate_qr_code Sample.env Patrol.render Patrol.location_address
      (QRCodeGenerateRequest.mk "QR-MAIN-GATE" 10) Patrol.supervisor Sample.world
    = (Return r, w')
    /\ QRCodeGenerateResponse.qrCodeImage r = "data:image/png;base64,QR(QR-MAIN-GATE,10)"
    /\ scan_qr_code Sample.env Sample.scan_near Sample.current_guard w' = (Return v, w'')
    /\ QRScanResponse.locationName v = QRCodeGenerateResponse.locationName r.
Proof.
  eexists; eexists.
  match goal with
  | |- exists v w'', ?P /\ _ => assert (E : P) by (vm_compute; reflexivity)
  end.
  destruct (generated_code_is_scannable _ _ _ _ _ _ _ _ E)
    as (_ & _ & _ & _ & loc & Hl & _ & Hscan).
  vm_compute in Hl. injection Hl as <-.
  destruct (Hscan Sample.env Sample.scan_near Sample.current_guard Sample.new_oid
              eq_refl eq_refl ltac:(split; vm_compute; discriminate) eq_refl)
    as (v & w'' & Es & Hn).
  exists v, w''. split; [exact E|]. split; [reflexivity|]. split; [exact Es|exact Hn].
Defined.







(** X24. [bulk_generate_qr_codes] answers HTTP 404 "No active QR locations
    found" for a supervisor without an active location, and when the drawing
    of a single code fails it answers HTTP 500 "Failed to generate QR codes":
    it returns no partial list. *)
Theorem bulk_codes_all_or_nothing (env : Env) (render : string -> Z -> outcome string)
    (location_address : QRLocationDoc.t -> option string)
    (sup : CurrentSupervisor.t) (size : Z) (format : string) (w : World) :
  connected w = true ->
  (active_locations w (CurrentSupervisor.supervisor_id sup) = [] ->
   bulk_generate_qr_codes env render location_address sup size format w
   = (Raise (HTTPException HTTP_404_NOT_FOUND "No active QR locations found"), w))
  /\
  ((exists qr text,
      In qr (active_locations w (CurrentSupervisor.supervisor_id sup))
      /\ render (QRLocationDoc.qrId qr) size = Failed text) ->
   exists w',
     bulk_generate_qr_codes env render location_address sup size format w
     = (Raise (HTTPException HTTP_500_INTERNAL_SERVER_ERROR "Failed to generate QR codes"),
        w')
     /\ scan_events w' = scan_events w).
Proof.
  intros Hc. split.
  - intros Hnone. unfold bulk_generate_qr_codes. unfold_handler. rewrite Hc.
    cbn -[bulk_generate_loop].
    fold (active_locations w (CurrentSupervisor.supervisor_id sup)). rewrite Hnone.
    reflexivity.
  - intros (bad & text & Hin & Hbad).
    unfold bulk_generate_qr_codes. unfold_handler. rewrite Hc.
    cbn -[bulk_generate_loop].
    fold (active_locations w (CurrentSupervisor.supervisor_id sup)).
    set (locs := merge_sort name_not_after
                   (active_locations w (CurrentSupervisor.supervisor_id sup))).
    assert (Hbad' : exists qr, In qr locs
                               /\ exists text, render (QRLocationDoc.qrId qr) size
                                               = Failed text).
    { exists bad. split; [apply merge_sort_In, Hin|eauto]. }
    destruct locs as [|qr rest] eqn:Hlocs; [destruct Hbad' as (? & [] & _)|].
    destruct (bulk_generate_loop_failed render location_address size (qr :: rest) [] w
                Hbad') as (t & ->).
    cbn. eexists. split; reflexivity.
Qed.

Lemma bulk_codes_all_or_nothing_witness :
  connected Patrol.world = true
  /\ bulk_generate_qr_codes Sample.env Patrol.render Patrol.location_address
       (CurrentSupervisor.mk "64b7f0c2a1d3e4f5a6b7c8ff" "nobody@example.com" "Pune")
       10 "zip" Patrol.world
     = (Raise (HTTPException HTTP_404_NOT_FOUND "No active QR locations found"),
        Patrol.world)
  /\ exists w',
       bulk_generate_qr_codes Sample.env Patrol.render Patrol.location_address
         Patrol.supervisor 0 "zip" Patrol.world
       = (Raise (HTTPException HTTP_500_INTERNAL_SERVER_ERROR
                   "Failed to generate QR codes"), w')
       /\ scan_events w' = scan_events Patrol.world.
Proof.
  assert (Hc : connected Patrol.world = true) by reflexivity.
  split; [exact Hc|]. split.
  - apply (proj1 (bulk_codes_all_or_nothing Sample.env Patrol.render
                    Patrol.location_address
                    (CurrentSupervisor.mk "64b7f0c2a1d3e4f5a6b7c8ff" "nobody@example.com"
                       "Pune") 10 "zip" Patrol.world Hc)).
    reflexivity.
  - apply (proj2 (bulk_codes_all_or_nothing Sample.env Patrol.render
                    Patrol.location_address Patrol.supervisor 0 "zip" Patrol.world Hc)).
    exists Sample.main_gate, "Invalid box size". split; [|reflexivity].
    vm_compute. auto.
Defined.
